(** * git-lfs-sempress: compression gate and reconstruction quality engine

    A shallow embedding of [git_lfs_sempress/compression.py], [config.py],
    [filter.py] and [quality.py], with the properties of the gate (clean and
    smudge filters, ratio estimator) and of the quality report; then of the
    pixel tables of [formats.py] and of the track, analyze and quality
    commands of [cli.py].

    Numbers.  The Python code computes on IEEE binary64 values (Python
    [float], [numpy.float64]).  They are embedded as extended rationals:
    a finite value is the rational it denotes, next to the two infinities
    and NaN; arithmetic on finite values is exact (no rounding), comparisons
    follow IEEE (every ordered comparison with NaN is false, NaN is not
    equal to itself).  Signed zeros are not distinguished. *)

From Stdlib Require Import QArith Qabs Qreduction ZArith NArith List String Ascii Bool Lia.
From Stdlib Require Import Strings.Byte.
From Stdlib Require Import Permutation Sorted.
Import ListNotations.

Set Implicit Arguments.

(* ------------------------------------------------------------------ *)
(** * Python exceptions and fallible computations *)

Module Py.

(** The [Exception] subclasses the modelled code can meet.  Signals that
    derive from [BaseException] only ([KeyboardInterrupt], [SystemExit])
    are outside the model: no [except Exception] clause handles them. *)
Inductive exn : Type :=
| ValueError
| TypeError
| KeyError
| ZeroDivisionError
| OSError
| RuntimeError (msg : string).

Inductive result (A : Type) : Type :=
| Ok (a : A)
| Raise (e : exn).
Arguments Ok {A} a.
Arguments Raise {A} e.

Definition bind {A B} (r : result A) (k : A -> result B) : result B :=
  match r with
  | Ok a => k a
  | Raise e => Raise e
  end.

(** A Python [dict] with string keys, in insertion order. *)
Definition dict (V : Type) : Type := list (string * V).

Fixpoint dict_get {V} (d : dict V) (k : string) : option V :=
  match d with
  | [] => None
  | (k', v) :: d' => if String.eqb k' k then Some v else dict_get d' k
  end.

(** [d.get(k, default)] *)
Definition get {V} (d : dict V) (k : string) (default : V) : V :=
  match dict_get d k with
  | Some v => v
  | None => default
  end.

(** [d[k] = v]: overwrite in place, or append a new key. *)
Fixpoint dict_set {V} (d : dict V) (k : string) (v : V) : dict V :=
  match d with
  | [] => [(k, v)]
  | (k', v') :: d' =>
      if String.eqb k' k then (k', v) :: d' else (k', v') :: dict_set d' k v
  end.

End Py.

Declare Scope py_scope.
Delimit Scope py_scope with py.
Notation "x <- r ;; k" := (Py.bind r (fun x => k))
  (at level 100, r at next level, right associativity) : py_scope.

(* ------------------------------------------------------------------ *)
(** * binary64 values as extended rationals *)

Module F64.

Inductive float64 : Type :=
| Fin (q : Q)
| PInf
| NInf
| NaN.

(** Finite results are kept in lowest terms, so that equal values are
    equal terms. *)
Definition fin (q : Q) : float64 := Fin (Qred q).

Definition of_Z (z : Z) : float64 := Fin (inject_Z z).
Definition of_nat (n : nat) : float64 := of_Z (Z.of_nat n).

Definition Qltb (x y : Q) : bool := negb (Qle_bool y x).

Definition add (a b : float64) : float64 :=
  match a, b with
  | NaN, _ | _, NaN => NaN
  | Fin x, Fin y => fin (x + y)
  | PInf, NInf | NInf, PInf => NaN
  | PInf, _ | _, PInf => PInf
  | NInf, _ | _, NInf => NInf
  end.

Definition sub (a b : float64) : float64 :=
  match a, b with
  | NaN, _ | _, NaN => NaN
  | Fin x, Fin y => fin (x - y)
  | PInf, PInf | NInf, NInf => NaN
  | PInf, _ | _, NInf => PInf
  | NInf, _ | _, PInf => NInf
  end.

(** Sign of a value that is not NaN: [Lt] negative, [Eq] zero, [Gt] positive. *)
Definition sign (a : float64) : comparison :=
  match a with
  | Fin x => (x ?= 0)%Q
  | PInf => Gt
  | NInf => Lt
  | NaN => Eq
  end.

Definition mul (a b : float64) : float64 :=
  match a, b with
  | NaN, _ | _, NaN => NaN
  | Fin x, Fin y => fin (x * y)
  | _, _ =>
      (* at least one factor is infinite *)
      match sign a, sign b with
      | Eq, _ | _, Eq => NaN            (* inf * 0 *)
      | Lt, Lt | Gt, Gt => PInf
      | _, _ => NInf
      end
  end.

(** numpy division: a zero divisor gives NaN or an infinity, never an
    exception.  The divisors of the modelled code are counts and means of
    absolute values, so a zero divisor is the positive zero. *)
Definition div (a b : float64) : float64 :=
  match a, b with
  | NaN, _ | _, NaN => NaN
  | Fin x, Fin y =>
      if Qeq_bool y 0 then
        match sign a with
        | Eq => NaN
        | Gt => PInf
        | Lt => NInf
        end
      else fin (x / y)
  | Fin _, _ => Fin 0
  | _, Fin y =>
      match sign a, (if Qltb y 0 then Lt else Gt) with
      | Lt, Lt | Gt, Gt => PInf
      | _, _ => NInf
      end
  | _, _ => NaN
  end.

Definition abs (a : float64) : float64 :=
  match a with
  | Fin x => fin (Qabs x)
  | PInf | NInf => PInf
  | NaN => NaN
  end.

(** [a < b] *)
Definition ltb (a b : float64) : bool :=
  match a, b with
  | NaN, _ | _, NaN => false
  | Fin x, Fin y => Qltb x y
  | _, NInf => false
  | NInf, _ => true
  | PInf, _ => false
  | _, PInf => true
  end.

(** [a <= b] *)
Definition leb (a b : float64) : bool :=
  match a, b with
  | NaN, _ | _, NaN => false
  | Fin x, Fin y => Qle_bool x y
  | NInf, _ => true
  | _, PInf => true
  | _, NInf => false
  | PInf, _ => false
  end.

(** [a == b] *)
Definition eqb (a b : float64) : bool :=
  match a, b with
  | Fin x, Fin y => Qeq_bool x y
  | PInf, PInf | NInf, NInf => true
  | _, _ => false
  end.

(** [a > b] *)
Definition gtb (a b : float64) : bool := ltb b a.

(** [numpy.maximum]: NaN wins. *)
Definition maximum (a b : float64) : float64 :=
  match a, b with
  | NaN, _ | _, NaN => NaN
  | _, _ => if ltb a b then b else a
  end.

Definition sum (l : list float64) : float64 := fold_left add l (Fin 0).

(** [numpy.mean]: the sum over the number of elements; NaN on an empty
    array (0/0, with a warning). *)
Definition mean (l : list float64) : float64 := div (sum l) (of_nat (List.length l)).

Definition finite (a : float64) : Prop :=
  match a with
  | Fin _ => True
  | _ => False
  end.

End F64.

(* ------------------------------------------------------------------ *)
(** * config.py: thresholds of the resolved configuration *)

Module Config.
Import Py F64.
Local Open Scope py_scope.

(** A scalar as [yaml.safe_load] delivers it. *)
Inductive pyval : Type :=
| PyNum (x : float64)
| PyBool (b : bool)
| PyStr (s : string)
| PyList (items : list string)
| PyNone.

(** [x < v] for a float [x]: numbers and booleans compare, anything else
    raises [TypeError]. *)
Definition float_lt (x : float64) (v : pyval) : result bool :=
  match v with
  | PyNum y => Ok (ltb x y)
  | PyBool b => Ok (ltb x (if b then Fin 1 else Fin 0))
  | PyStr _ | PyList _ | PyNone => Raise TypeError
  end.

(** The loaded configuration: its sections, each a dict of values.  (The
    top-level [version] number, which nothing reads, is left out.)
    [_load_config] returns the defaults unless the user's sections are
    dicts, so a section is always a dict; its values are unchecked. *)
Record Config : Type := { config : dict (dict pyval) }.

Definition DEFAULT_CONFIG : dict (dict pyval) :=
  [ ("compression"%string,
      [ ("k"%string, PyNum (Fin 64));
        ("uncertainty_threshold"%string, PyNum (Fin (2 # 10)));
        ("auto_lock"%string, PyBool true);
        ("lock_cols"%string, PyList []);
        ("residual_cols"%string, PyList []) ]);
    ("thresholds"%string,
      [ ("min_size_mb"%string, PyNum (Fin 1));
        ("min_compression_ratio"%string, PyNum (Fin (15 # 10))) ]) ].

Definition get_compression_config (self : Config) : dict pyval :=
  get (config self) "compression" [].

Definition get_thresholds (self : Config) : dict pyval :=
  get (config self) "thresholds" [].

(** [file_size_bytes / (1024 * 1024)] *)
Definition size_in_mb (file_size_bytes : nat) : float64 :=
  div (of_nat file_size_bytes) (of_Z (1024 * 1024)).

Definition should_compress (self : Config) (file_size_bytes : nat)
    (estimated_ratio : float64) : result bool :=
  let thresholds := get_thresholds self in
  let min_size_mb := get thresholds "min_size_mb" (PyNum (Fin 1)) in
  let size_mb := size_in_mb file_size_bytes in
  too_small <- float_lt size_mb min_size_mb ;;
  if too_small : bool then Ok false
  else
    let min_ratio := get thresholds "min_compression_ratio" (PyNum (Fin (15 # 10))) in
    too_low <- float_lt estimated_ratio min_ratio ;;
    if too_low : bool then Ok false else Ok true.

End Config.

(* ------------------------------------------------------------------ *)
(** * compression.py: the wrapper around the external codec *)

Module Compression.
Import Py F64.
Local Open Scope py_scope.

Definition bytes : Type := list byte.

(** Invocations of the external codec, in order. *)
Inductive event : Type :=
| EncodeCsv (data : bytes)
| DecodeToCsv (data : bytes).

(** Computations that may call the codec and may raise: the trace of
    codec calls is threaded through and survives an exception. *)
Definition M (A : Type) : Type := list event -> result A * list event.

Definition ret {A} (a : A) : M A := fun tr => (Ok a, tr).
Definition lift {A} (r : result A) : M A := fun tr => (r, tr).
Definition emit (e : event) : M unit := fun tr => (Ok tt, tr ++ [e]).
Definition mbind {A B} (m : M A) (k : A -> M B) : M B :=
  fun tr =>
    match m tr with
    | (Ok a, tr') => k a tr'
    | (Raise e, tr') => (Raise e, tr')
    end.

(** [try: body / except Exception as e: handler] *)
Definition try_except {A} (body : M A) (handler : exn -> M A) : M A :=
  fun tr =>
    match body tr with
    | (Ok a, tr') => (Ok a, tr')
    | (Raise e, tr') => handler e tr'
    end.

(** The external library behind [SempressCompressor]: [encode_csv] under
    the instance's [EncodeConfig], and [decode_to_csv].  Either may raise.
    The temporary files the wrapper writes, reads and unlinks around each
    call are not modelled. *)
Record SempressCompressor : Type := {
  encode_csv : bytes -> result bytes;
  decode_to_csv : bytes -> result bytes
}.

(** The ratio [compress] logs: guarded against an empty blob. *)
Definition logged_ratio (original_size compressed_size : nat) : float64 :=
  if (0 <? compressed_size)%nat
  then div (of_nat original_size) (of_nat compressed_size)
  else Fin 0.

Definition compress (self : SempressCompressor) (csv_data : bytes) : M bytes :=
  mbind (emit (EncodeCsv csv_data)) (fun _ =>
  mbind (lift (encode_csv self csv_data)) (fun compressed_blob =>
  let ratio := logged_ratio (List.length csv_data) (List.length compressed_blob) in
  ret compressed_blob)).

Definition decompress (self : SempressCompressor) (smp_data : bytes) : M bytes :=
  mbind (emit (DecodeToCsv smp_data)) (fun _ =>
  mbind (lift (decode_to_csv self smp_data)) (fun csv_data =>
  ret csv_data)).

(** Size-bucketed estimate; only the length of the data is read. *)
Definition estimate_compression_ratio (csv_data : bytes) : float64 :=
  let size_mb := div (of_nat (List.length csv_data)) (of_Z (1024 * 1024)) in
  if ltb size_mb (Fin 1) then Fin (25 # 10)
  else if ltb size_mb (Fin 10) then Fin 4
  else if ltb size_mb (Fin 100) then Fin (55 # 10)
  else Fin 7.

End Compression.

Declare Scope gate_scope.
Delimit Scope gate_scope with gate.
Notation "x <~ m ;; k" := (Compression.mbind m (fun x => k))
  (at level 100, m at next level, right associativity) : gate_scope.

(* ------------------------------------------------------------------ *)
(** * filter.py: the clean and smudge filters *)

Module Filter.
Import Py F64 Config Compression.
Local Open Scope gate_scope.
Local Open Scope N_scope.

(** ** [bytes.decode('utf-8', errors='ignore')]

    The decoder of CPython, as code points.  An invalid start byte is
    dropped alone; after an invalid continuation byte the bytes accepted
    so far are dropped and decoding resumes at the offending byte; a
    sequence cut off by the end of the data is dropped whole. *)

Definition is_continuation (c : N) : bool := (0x80 <=? c) && (c <? 0xC0).

Definition cp2 (c c2 : N) : N :=
  N.lor (N.shiftl (N.land c 0x1F) 6) (N.land c2 0x3F).
Definition cp3 (c c2 c3 : N) : N :=
  N.lor (N.shiftl (N.land c 0x0F) 12)
    (N.lor (N.shiftl (N.land c2 0x3F) 6) (N.land c3 0x3F)).
Definition cp4 (c c2 c3 c4 : N) : N :=
  N.lor (N.shiftl (N.land c 0x07) 18)
    (N.lor (N.shiftl (N.land c2 0x3F) 12)
       (N.lor (N.shiftl (N.land c3 0x3F) 6) (N.land c4 0x3F))).

Fixpoint utf8_decode_ignore (s : bytes) : list N :=
  match s with
  | [] => []
  | b :: s1 =>
      let ch := Byte.to_N b in
      if ch <? 0x80 then ch :: utf8_decode_ignore s1
      else if ch <? 0xC2 then utf8_decode_ignore s1
      else if ch <? 0xE0 then
        match s1 with
        | [] => []
        | b2 :: s2 =>
            let ch2 := Byte.to_N b2 in
            if is_continuation ch2
            then cp2 ch ch2 :: utf8_decode_ignore s2
            else utf8_decode_ignore s1
        end
      else if ch <? 0xF0 then
        match s1 with
        | [] => []
        | b2 :: s2 =>
            let ch2 := Byte.to_N b2 in
            if negb (is_continuation ch2)
               || (if ch2 <? 0xA0 then ch =? 0xE0 else ch =? 0xED)
            then utf8_decode_ignore s1
            else
              match s2 with
              | [] => []
              | b3 :: s3 =>
                  let ch3 := Byte.to_N b3 in
                  if is_continuation ch3
                  then cp3 ch ch2 ch3 :: utf8_decode_ignore s3
                  else utf8_decode_ignore s2
              end
        end
      else if ch <? 0xF5 then
        match s1 with
        | [] => []
        | b2 :: s2 =>
            let ch2 := Byte.to_N b2 in
            if negb (is_continuation ch2)
               || (if ch2 <? 0x90 then ch =? 0xF0 else ch =? 0xF4)
            then utf8_decode_ignore s1
            else
              match s2 with
              | [] => []
              | b3 :: s3 =>
                  let ch3 := Byte.to_N b3 in
                  if negb (is_continuation ch3) then utf8_decode_ignore s2
                  else
                    match s3 with
                    | [] => []
                    | b4 :: s4 =>
                        let ch4 := Byte.to_N b4 in
                        if is_continuation ch4
                        then cp4 ch ch2 ch3 ch4 :: utf8_decode_ignore s4
                        else utf8_decode_ignore s3
                    end
              end
        end
      else utf8_decode_ignore s1
  end.

(** [text.count(',')] on decoded text. *)
Definition count_comma (text : list N) : nat :=
  List.length (filter (N.eqb 0x2C) text).

(** [input_data[:100].decode('utf-8', errors='ignore').count(',')] *)
Definition prefix_commas (input_data : bytes) : nat :=
  count_comma (utf8_decode_ignore (firstn 100 input_data)).

(** ** The filter *)

Record SempressFilter : Type := {
  config : Config.Config;
  compressor : SempressCompressor
}.

Definition is_empty (b : bytes) : bool :=
  match b with
  | [] => true
  | _ :: _ => false
  end.

(** [a / b] on Python ints. *)
Definition truediv (a b : nat) : result float64 :=
  match b with
  | O => Raise ZeroDivisionError
  | S _ => Ok (div (of_nat a) (of_nat b))
  end.

Definition min_compression_ratio (self : SempressFilter) : pyval :=
  get (get_thresholds (config self)) "min_compression_ratio" (PyNum (Fin (15 # 10))).

(** [input_stream] is the outcome of [input_stream.read()]. *)
Definition clean (self : SempressFilter) (input_stream : result bytes) : M bytes :=
  try_except
    (csv_data <~ lift input_stream ;;
     if is_empty csv_data then ret []
     else
       let estimated_ratio := estimate_compression_ratio csv_data in
       go <~ lift (should_compress (config self) (List.length csv_data) estimated_ratio) ;;
       if negb go then ret csv_data
       else
         try_except
           (compressed_data <~ compress (compressor self) csv_data ;;
            actual_ratio <~ lift (truediv (List.length csv_data) (List.length compressed_data)) ;;
            too_low <~ lift (float_lt actual_ratio (min_compression_ratio self)) ;;
            if too_low : bool then ret csv_data else ret compressed_data)
           (fun _ => ret csv_data))
    (fun _ => ret []).

Definition smudge (self : SempressFilter) (input_stream : result bytes) : M bytes :=
  try_except
    (input_data <~ lift input_stream ;;
     if is_empty input_data then ret []
     else if (5 <? prefix_commas input_data)%nat then ret input_data
     else
       try_except
         (csv_data <~ decompress (compressor self) input_data ;;
          ret csv_data)
         (fun _ => ret input_data))
    (fun _ => ret []).

End Filter.

(* ------------------------------------------------------------------ *)
(** * quality.py: the quality report *)

Module Quality.
Import Py F64.
Local Open Scope py_scope.

(** ** Tables

    [compare_files] builds both frames with [pandas.read_csv] and its
    default index; the columns it produces are of dtype [object] (cells are
    text, or the missing value NaN) or of a numeric dtype ([int64],
    [float64], [bool]), whose cells are read as floats. *)

Inductive cell : Type :=
| Str (s : string)
| Num (x : float64).

Inductive dtype : Type :=
| DObject
| DNumeric.

Record Series : Type := {
  dtype_of : dtype;
  values : list cell
}.

Record DataFrame : Type := {
  nrows : nat;
  columns : list (string * Series)
}.

Definition shape (df : DataFrame) : nat * nat :=
  (nrows df, List.length (columns df)).

Definition size (df : DataFrame) : nat :=
  (nrows df * List.length (columns df))%nat.

Definition column_names (df : DataFrame) : list string :=
  map fst (columns df).

(** [df[col]] *)
Definition df_get (df : DataFrame) (col : string) : result Series :=
  match dict_get (columns df) col with
  | Some s => Ok s
  | None => Raise KeyError
  end.

Definition shape_eqb (a b : nat * nat) : bool :=
  Nat.eqb (fst a) (fst b) && Nat.eqb (snd a) (snd b).

(** Python sets of column names, as lists read up to order and repetition. *)
Definition name_in (x : string) (l : list string) : bool :=
  existsb (String.eqb x) l.
Definition set_eqb (a b : list string) : bool :=
  forallb (fun x => name_in x b) a && forallb (fun x => name_in x a) b.
Definition set_diff (a b : list string) : list string :=
  nodup string_dec (filter (fun x => negb (name_in x b)) a).

(** Element-wise [==] of two cells: text against a number is unequal. *)
Definition cell_eqb (a b : cell) : bool :=
  match a, b with
  | Str s, Str t => String.eqb s t
  | Num x, Num y => eqb x y
  | _, _ => false
  end.

(** Element-wise operations pair the cells by position; the two columns
    of one comparison have the same length (same shape). *)
Definition map2 {A B C} (f : A -> B -> C) (l : list A) (m : list B) : list C :=
  map (fun p => f (fst p) (snd p)) (combine l m).

(** [.sum()] of a boolean array. *)
Definition count_true (l : list bool) : nat :=
  List.length (filter (fun b => b) l).

(** [.idxmax()] of a boolean Series under the default index: the first
    [True], the first row when there is none, [ValueError] when empty. *)
Fixpoint first_true (l : list bool) : option nat :=
  match l with
  | [] => None
  | true :: _ => Some O
  | false :: l' => option_map S (first_true l')
  end.

Definition idxmax (l : list bool) : result nat :=
  match l with
  | [] => Raise ValueError
  | _ :: _ => Ok (match first_true l with Some i => i | None => O end)
  end.

(** [series[i]] *)
Definition at_row (l : list cell) (i : nat) : result cell :=
  match nth_error l i with
  | Some c => Ok c
  | None => Raise KeyError
  end.

(** [numpy.max]: [ValueError] on an empty array. *)
Definition np_max (l : list float64) : result float64 :=
  match l with
  | [] => Raise ValueError
  | x :: l' => Ok (fold_left maximum l' x)
  end.

(** ** Issues, warnings and metrics *)

Inductive severity : Type := CRITICAL | ERROR | WARNING | INFO.

Inductive issue_type : Type :=
| shape_mismatch
| column_mismatch
| string_mismatch
| minor_error
| moderate_error
| high_error
| comparison_failed.

(** The formatted texts, as their template and the values put in. *)
Inductive message : Type :=
| ShapeChanged (original reconstructed : nat * nat)
| ColumnsChanged (missing extra : list string)
| ValuesChanged (col : string) (mismatches : nat) (match_pct : float64)
| MinorVariations (col : string) (rel_error : float64)
| NoticeableVariations (col : string) (rel_error : float64)
| SignificantVariations (col : string) (rel_error : float64)
| FailedToCompare (e : exn).

Inductive remedy : Type :=
| ReportAsBug
| AddToLockCols (col : string)
| QualityIsGood
| AddToResidualCols (col : string)
| AddToResidualOrLockCols (col : string)
| EnsureValidCsv.

(** One entry of [issues] or [warnings]; [details] holds (MAE, max error),
    [example] holds (row, original cell, reconstructed cell). *)
Record Issue : Type := {
  sev : severity;
  type : issue_type;
  column : option string;
  msg : message;
  details : option (float64 * float64);
  fix_hint : remedy;
  example : option (nat * cell * cell)
}.

Inductive metric : Type :=
| StringMetric (match_pct : float64)
| NumericMetric (mae rmse max_error relative_error exact_match_pct : float64)
| Scalar (x : float64).

(** The mutable state of a [QualityReport] object. *)
Record QualityReport : Type := {
  original : DataFrame;
  reconstructed : DataFrame;
  issues : list Issue;
  warnings : list Issue;
  metrics : dict metric
}.

(** [QualityReport(original_df, reconstructed_df)] *)
Definition init (original_df reconstructed_df : DataFrame) : QualityReport :=
  {| original := original_df; reconstructed := reconstructed_df;
     issues := []; warnings := []; metrics := [] |}.

Definition add_issue (self : QualityReport) (i : Issue) : QualityReport :=
  {| original := original self; reconstructed := reconstructed self;
     issues := issues self ++ [i]; warnings := warnings self;
     metrics := metrics self |}.

Definition add_warning (self : QualityReport) (w : Issue) : QualityReport :=
  {| original := original self; reconstructed := reconstructed self;
     issues := issues self; warnings := warnings self ++ [w];
     metrics := metrics self |}.

Definition set_metric (self : QualityReport) (k : string) (m : metric) : QualityReport :=
  {| original := original self; reconstructed := reconstructed self;
     issues := issues self; warnings := warnings self;
     metrics := dict_set (metrics self) k m |}.

(** The dictionary [_build_report] returns. *)
Record Report : Type := {
  similarity_score : metric;
  report_issues : list Issue;
  report_warnings : list Issue;
  column_metrics : dict metric;
  has_critical_issues : bool;
  has_errors : bool;
  has_warnings : bool
}.

Definition is_critical (i : Issue) : bool :=
  match sev i with CRITICAL => true | _ => false end.
Definition is_error (i : Issue) : bool :=
  match sev i with ERROR => true | _ => false end.

Definition _build_report (self : QualityReport) : Report :=
  {| similarity_score := get (metrics self) "overall_similarity" (Scalar (Fin 0));
     report_issues := issues self;
     report_warnings := warnings self;
     column_metrics := metrics self;
     has_critical_issues := existsb is_critical (issues self);
     has_errors := existsb is_error (issues self);
     has_warnings := (0 <? List.length (warnings self))%nat |}.

(** ** The analysis *)

Section Analysis.

(** [numpy.sqrt], which has no rational counterpart, and Python's
    [float(text)], which [astype(float)] applies to the text cells of an
    [object] column, are parameters. *)
Variable np_sqrt : float64 -> float64.
Variable py_float : string -> result float64.

Fixpoint traverse {A B} (f : A -> result B) (l : list A) : result (list B) :=
  match l with
  | [] => Ok []
  | a :: l' => b <- f a ;; bs <- traverse f l' ;; Ok (b :: bs)
  end.

Definition cell_to_float (c : cell) : result float64 :=
  match c with
  | Num x => Ok x
  | Str s => py_float s
  end.

(** [series.values.astype(float)] *)
Definition astype_float (s : Series) : result (list float64) :=
  traverse cell_to_float (values s).

(** [_check_column]: the text branch for an [object] column, the numeric
    branch otherwise. *)
Definition _check_column (self : QualityReport) (col : string) : result QualityReport :=
  orig <- df_get (original self) col ;;
  recon <- df_get (reconstructed self) col ;;
  match dtype_of orig with
  | DObject =>
      let matches := count_true (map2 cell_eqb (values orig) (values recon)) in
      let total := List.length (values orig) in
      let match_pct := mul (div (of_nat matches) (of_nat total)) (Fin 100) in
      self1 <-
        (if ltb match_pct (Fin 100) then
           let mismatches := (total - matches)%nat in
           diff_idx <-
             idxmax (map2 (fun a b => negb (cell_eqb a b)) (values orig) (values recon)) ;;
           o <- at_row (values orig) diff_idx ;;
           r <- at_row (values recon) diff_idx ;;
           Ok (add_issue self
                 {| sev := ERROR; type := string_mismatch; column := Some col;
                    msg := ValuesChanged col mismatches match_pct;
                    details := None;
                    fix_hint := AddToLockCols col;
                    example := Some (diff_idx, o, r) |})
         else Ok self) ;;
      Ok (set_metric self1 col (StringMetric match_pct))
  | DNumeric =>
      orig_vals <- astype_float orig ;;
      recon_vals <- astype_float recon ;;
      let mae := mean (map abs (map2 sub orig_vals recon_vals)) in
      let rmse := np_sqrt (mean (map (fun d => mul d d) (map2 sub orig_vals recon_vals))) in
      max_error <- np_max (map abs (map2 sub orig_vals recon_vals)) ;;
      let mean_val := mean (map abs orig_vals) in
      let rel_error :=
        if gtb mean_val (Fin 0) then mul (div mae mean_val) (Fin 100) else Fin 0 in
      let exact_matches := count_true (map2 eqb orig_vals recon_vals) in
      let exact_pct :=
        mul (div (of_nat exact_matches) (of_nat (List.length orig_vals))) (Fin 100) in
      let self1 :=
        set_metric self col (NumericMetric mae rmse max_error rel_error exact_pct) in
      if eqb exact_pct (Fin 100) then Ok self1
      else if ltb rel_error (Fin (1 # 100)) then Ok self1
      else if ltb rel_error (Fin (1 # 10)) then
        Ok (add_warning self1
              {| sev := INFO; type := minor_error; column := Some col;
                 msg := MinorVariations col rel_error;
                 details := Some (mae, max_error);
                 fix_hint := QualityIsGood;
                 example := None |})
      else if ltb rel_error (Fin 1) then
        Ok (add_warning self1
              {| sev := WARNING; type := moderate_error; column := Some col;
                 msg := NoticeableVariations col rel_error;
                 details := Some (mae, max_error);
                 fix_hint := AddToResidualCols col;
                 example := None |})
      else
        Ok (add_issue self1
              {| sev := ERROR; type := high_error; column := Some col;
                 msg := SignificantVariations col rel_error;
                 details := Some (mae, max_error);
                 fix_hint := AddToResidualOrLockCols col;
                 example := None |})
  end.

(** [exact_matches]: the Python int it starts as, or the [numpy.int64]
    it becomes with the first column added. *)
Inductive counter : Type :=
| PyInt (n : nat)
| NpInt (n : nat).

Definition counter_add (c : counter) (k : nat) : counter :=
  match c with
  | PyInt n | NpInt n => NpInt (n + k)
  end.

(** [exact_matches / total_cells]: two Python ints raise on a zero
    divisor, numpy divides to NaN or an infinity. *)
Definition counter_div (c : counter) (total : nat) : result float64 :=
  match c, total with
  | PyInt _, O => Raise ZeroDivisionError
  | PyInt n, _ | NpInt n, _ => Ok (div (of_nat n) (of_nat total))
  end.

(** One turn of the loop of [_calculate_similarity]: the cells of a column
    counted as matching. *)
Definition column_matches (self : QualityReport) (col : string) : result nat :=
  orig <- df_get (original self) col ;;
  recon <- df_get (reconstructed self) col ;;
  match dtype_of orig with
  | DObject => Ok (count_true (map2 cell_eqb (values orig) (values recon)))
  | DNumeric =>
      orig_vals <- astype_float orig ;;
      recon_vals <- astype_float recon ;;
      Ok (count_true
            (map (fun e => ltb e (Fin (1 # 10000000000)))
               (map abs (map2 sub orig_vals recon_vals))))
  end.

(** The loop itself. *)
Fixpoint count_matches (self : QualityReport) (cols : list string)
    (exact_matches : counter) : result counter :=
  match cols with
  | [] => Ok exact_matches
  | col :: cols' =>
      k <- column_matches self col ;;
      count_matches self cols' (counter_add exact_matches k)
  end.

Definition _calculate_similarity (self : QualityReport) : result QualityReport :=
  let total_cells := size (original self) in
  exact_matches <- count_matches self (column_names (original self)) (PyInt 0) ;;
  ratio <- counter_div exact_matches total_cells ;;
  let similarity_pct := mul ratio (Fin 100) in
  Ok (set_metric self "overall_similarity" (Scalar similarity_pct)).

(** The loop of [analyze] over the columns of the original. *)
Fixpoint check_columns (self : QualityReport) (cols : list string) : result QualityReport :=
  match cols with
  | [] => Ok self
  | col :: cols' => self1 <- _check_column self col ;; check_columns self1 cols'
  end.

(** [analyze] returns the report and leaves the object in its new state. *)
Definition analyze (self : QualityReport) : result (QualityReport * Report) :=
  if negb (shape_eqb (shape (original self)) (shape (reconstructed self))) then
    let self1 :=
      add_issue self
        {| sev := CRITICAL; type := shape_mismatch; column := None;
           msg := ShapeChanged (shape (original self)) (shape (reconstructed self));
           details := None; fix_hint := ReportAsBug; example := None |} in
    Ok (self1, _build_report self1)
  else
    let orig_cols := column_names (original self) in
    let recon_cols := column_names (reconstructed self) in
    if negb (set_eqb orig_cols recon_cols) then
      let missing := set_diff orig_cols recon_cols in
      let extra := set_diff recon_cols orig_cols in
      let self1 :=
        add_issue self
          {| sev := CRITICAL; type := column_mismatch; column := None;
             msg := ColumnsChanged missing extra;
             details := None; fix_hint := ReportAsBug; example := None |} in
      Ok (self1, _build_report self1)
    else
      self1 <- check_columns self (column_names (original self)) ;;
      self2 <- _calculate_similarity self1 ;;
      Ok (self2, _build_report self2).

(** [print_report], without the printing. *)
Definition print_report (self : QualityReport) : result (QualityReport * Report) :=
  match metrics self with
  | [] => analyze self
  | _ :: _ => Ok (self, _build_report self)
  end.

(** [compare_files]; the arguments are the outcomes of the two
    [pd.read_csv] calls. *)
Definition compare_files (read_original read_reconstructed : result DataFrame) : Report :=
  match
    (df_original <- read_original ;;
     df_reconstructed <- read_reconstructed ;;
     let qr := init df_original df_reconstructed in
     st <- print_report qr ;;
     Ok (_build_report (fst st)))
  with
  | Ok report => report
  | Raise e =>
      {| similarity_score := Scalar (Fin 0);
         report_issues :=
           [ {| sev := CRITICAL; type := comparison_failed; column := None;
                msg := FailedToCompare e; details := None;
                fix_hint := EnsureValidCsv; example := None |} ];
         report_warnings := [];
         column_metrics := [];
         has_critical_issues := true;
         has_errors := false;
         has_warnings := false |}
  end.

End Analysis.

End Quality.

(* ------------------------------------------------------------------ *)
(** * filter.py: the entry points of the two filter processes *)

Module Entry.
Import Py Compression Filter.
#[local] Unset Implicit Arguments.
Local Open Scope gate_scope.

(** How a filter process ends: the bytes written to standard output and
    exit status 0, or [sys.exit(1)]. *)
Inductive process_exit : Type :=
| Wrote (data : bytes)
| ExitFailure.

(** [run_clean_filter]: [construct] is the outcome of [SempressFilter()],
    [write] that of writing and flushing standard output. *)
Definition run_clean_filter (construct : result SempressFilter)
    (input_stream : result bytes) (write : bytes -> result unit) : M process_exit :=
  try_except
    (filter_obj <~ lift construct ;;
     compressed_data <~ clean filter_obj input_stream ;;
     _ <~ lift (write compressed_data) ;;
     ret (Wrote compressed_data))
    (fun _ => ret ExitFailure).

Definition run_smudge_filter (construct : result SempressFilter)
    (input_stream : result bytes) (write : bytes -> result unit) : M process_exit :=
  try_except
    (filter_obj <~ lift construct ;;
     csv_data <~ smudge filter_obj input_stream ;;
     _ <~ lift (write csv_data) ;;
     ret (Wrote csv_data))
    (fun _ => ret ExitFailure).

End Entry.

(* ------------------------------------------------------------------ *)
(** * config.py: the search for the configuration file *)

Module FindConfig.
#[local] Unset Implicit Arguments.

(** What [_find_config] asks of a directory: whether [.sempress.yml] and
    whether [.git] exist in it. *)
Record directory : Type := {
  has_config : bool;
  has_git : bool
}.

(** The loop of [_find_config]: [current] with its ancestors, nearest
    first; the last one is the root, which is its own parent.  The result is
    the number of steps up from the working directory to the directory whose
    [.sempress.yml] is returned. *)
Fixpoint search (turns : nat) (current : directory) (ancestors : list directory)
    (level : nat) : option nat :=
  match turns with
  | O => None
  | S turns' =>
      if has_config current then Some level
      else if has_git current then None
      else
        match ancestors with
        | [] => None
        | parent :: ancestors' => search turns' parent ancestors' (S level)
        end
  end.

Definition _find_config (cwd : directory) (ancestors : list directory) : option nat :=
  search 10 cwd ancestors 0.

End FindConfig.

(* ------------------------------------------------------------------ *)
(** * formats.py: images as tables of pixels *)

Module Formats.
Import F64.
#[local] Unset Implicit Arguments.
Local Open Scope string_scope.

(** The exceptions of the pixel loops. *)
Inductive error : Type :=
| KeyError (key : string)
| ValueError
| OverflowError.

Inductive attempt (A : Type) : Type :=
| Returned (a : A)
| Raised (e : error).
Arguments Returned {A} a.
Arguments Raised {A} e.

Definition and_then {A B} (r : attempt A) (k : A -> attempt B) : attempt B :=
  match r with
  | Returned a => k a
  | Raised e => Raised e
  end.

(** A pandas [DataFrame]: its column labels and its rows of cells. *)
Record Table (V : Type) : Type := {
  columns : list string;
  rows : list (list V)
}.
Arguments columns {V} _.
Arguments rows {V} _.

(** [row[label]] on a row of [iterrows]; [pd.read_csv] delivers distinct
    labels, the first match is the cell. *)
Fixpoint getitem {V} (labels : list string) (row : list V) (label : string)
    : attempt V :=
  match labels, row with
  | l :: labels', cell :: row' =>
      if String.eqb l label then Returned cell else getitem labels' row' label
  | _, _ => Raised (KeyError label)
  end.

(** A numpy array of shape (height, width, channels) and dtype uint8, as
    the map from an index [y, x, i] to the value stored there. *)
Definition ndarray : Type := nat -> nat -> nat -> Z.

(** [np.zeros(shape, dtype=np.uint8)] *)
Definition zeros : ndarray := fun _ _ _ => 0%Z.

(** [a[y, x, i] = v] *)
Definition setitem (a : ndarray) (y x i : nat) (v : Z) : ndarray :=
  fun y' x' i' =>
    if (y' =? y)%nat && (x' =? x)%nat && (i' =? i)%nat then v else a y' x' i'.

(** An opened image after the conversion to RGB or RGBA: [img.size],
    [img.mode] and [np.array(img)]. *)
Record Image : Type := {
  size : nat * nat;
  mode : string;
  array : ndarray
}.

(** The reconstruction metadata, without the file format names. *)
Record metadata : Type := {
  md_width : nat;
  md_height : nat;
  md_mode : string
}.

(** [image_to_csv]: the table written to the CSV file, and the metadata. *)
Definition image_to_csv (img : Image) : Table Z * metadata :=
  let '(width, height) := size img in
  let has_alpha := String.eqb (mode img) "RGBA" in
  let pixels := array img in
  let rows :=
    flat_map (fun y =>
      map (fun x =>
        let pixel := pixels y x in
        if has_alpha
        then [Z.of_nat x; Z.of_nat y; pixel 0%nat; pixel 1%nat; pixel 2%nat; pixel 3%nat]
        else [Z.of_nat x; Z.of_nat y; pixel 0%nat; pixel 1%nat; pixel 2%nat])
        (seq 0 width))
      (seq 0 height) in
  let df :=
    if has_alpha
    then {| columns := ["x"; "y"; "r"; "g"; "b"; "alpha"]; rows := rows |}
    else {| columns := ["x"; "y"; "r"; "g"; "b"]; rows := rows |} in
  (df, {| md_width := width; md_height := height; md_mode := mode img |}).

(** [int(v)]: truncation toward zero. *)
Definition py_int (v : float64) : attempt Z :=
  match v with
  | Fin q => Returned (Z.quot (Qnum q) (Z.pos (Qden q)))
  | PInf | NInf => Raised OverflowError
  | NaN => Raised ValueError
  end.

(** [numpy.minimum]: NaN wins. *)
Definition minimum (a b : float64) : float64 :=
  match a, b with
  | NaN, _ | _, NaN => NaN
  | _, _ => if ltb b a then b else a
  end.

(** [np.clip(a, a_min, a_max)] *)
Definition np_clip (a a_min a_max : float64) : float64 :=
  minimum (maximum a a_min) a_max.

(** The loop over [enumerate(channels)], from index [i] on. *)
Fixpoint fill_channels (labels : list string) (row : list float64) (y x : nat)
    (i : nat) (channels : list string) (img_array : ndarray) : attempt ndarray :=
  match channels with
  | [] => Returned img_array
  | channel :: channels' =>
      and_then (getitem labels row channel) (fun cell =>
      let value := np_clip cell (Fin 0) (Fin 255) in
      and_then (py_int value) (fun v =>
      fill_channels labels row y x (S i) channels' (setitem img_array y x i v)))
  end.

(** The loop over [df.iterrows()]. *)
Fixpoint fill_rows (labels : list string) (width height : nat)
    (channels : list string) (df_rows : list (list float64))
    (img_array : ndarray) : attempt ndarray :=
  match df_rows with
  | [] => Returned img_array
  | row :: df_rows' =>
      and_then (getitem labels row "x") (fun xv =>
      and_then (py_int xv) (fun x =>
      and_then (getitem labels row "y") (fun yv =>
      and_then (py_int yv) (fun y =>
      if ((0 <=? x) && (x <? Z.of_nat width) &&
          ((0 <=? y) && (y <? Z.of_nat height)))%Z
      then
        and_then
          (fill_channels labels row (Z.to_nat y) (Z.to_nat x) 0 channels img_array)
          (fun img_array' => fill_rows labels width height channels df_rows' img_array')
      else fill_rows labels width height channels df_rows' img_array))))
  end.

(** [csv_to_image], up to the array handed to [Image.fromarray]. *)
Definition csv_to_image (df : Table float64) (md : metadata) : attempt ndarray :=
  let width := md_width md in
  let height := md_height md in
  let mode := md_mode md in
  let '(img_array, channels) :=
    if String.eqb mode "RGBA"
    then (zeros, ["r"; "g"; "b"; "alpha"])
    else (zeros, ["r"; "g"; "b"]) in
  fill_rows (columns df) width height channels (rows df) img_array.

(** [pd.read_csv] on the file that [to_csv(index=False)] wrote from a
    table of integers: the same labels, every cell the number written. *)
Definition read_csv (written : Table Z) : Table float64 :=
  {| columns := columns written;
     rows := map (map of_Z) (rows written) |}.

End Formats.

(* ------------------------------------------------------------------ *)
(** * cli.py: the track, analyze and quality commands *)

Module Cli.
Import Py F64.
#[local] Unset Implicit Arguments.
Local Open Scope string_scope.
Local Open Scope py_scope.

(** [sub in s] on strings. *)
Fixpoint contains (sub s : string) : bool :=
  String.prefix sub s ||
  match s with
  | EmptyString => false
  | String _ s' => contains sub s'
  end.




(** A path found by [rglob('*.csv')] under the working directory: its
    [str] and the outcome of [stat().st_size]. *)
Record csv_file : Type := {
  path : string;
  st_size : result nat
}.

(** The loop over [csv_files]: [total_size] and [file_info]. *)
Definition scan (csv_files : list csv_file) : nat * list (csv_file * nat) :=
  fold_left
    (fun (acc : nat * list (csv_file * nat)) (csv_file : csv_file) =>
       if contains ".git" (path csv_file) then acc
       else
         match st_size csv_file with
         | Ok size => ((fst acc + size)%nat, (snd acc ++ [(csv_file, size)])%list)
         | Raise _ => acc
         end)
    csv_files (0%nat, []).

(** [list.sort(key=lambda x: x[1], reverse=True)]: stable, largest first. *)
Fixpoint insert (entry : csv_file * nat) (sorted : list (csv_file * nat))
    : list (csv_file * nat) :=
  match sorted with
  | [] => [entry]
  | e :: rest =>
      if (snd e <=? snd entry)%nat then entry :: sorted else e :: insert entry rest
  end.

Definition sort (file_info : list (csv_file * nat)) : list (csv_file * nat) :=
  fold_right insert [] file_info.

(** [a / b] on Python numbers. *)
Definition py_truediv (a b : float64) : result float64 :=
  if eqb b (Fin 0) then Raise ZeroDivisionError else Ok (div a b).

Record summary : Type := {
  found : nat;
  top : list (csv_file * nat);
  more : option nat;
  total_size : nat;
  compressed_size : float64;
  savings_pct : float64
}.

Inductive analysis : Type :=
| NoCsvFiles
| NoAccessibleCsvFiles
| Summary (s : summary)
| AnalysisFailed (e : exn).

(** [analyze], on the paths [rglob] found; what it echoes as a value.
    The storage cost lines are left out, and so are the lines echoed
    before a failure; [AnalysisFailed] is exit status 1. *)
Definition analyze (csv_files : list csv_file) : analysis :=
  match csv_files with
  | [] => NoCsvFiles
  | _ :: _ =>
      let '(total_size, file_info) := scan csv_files in
      match file_info with
      | [] => NoAccessibleCsvFiles
      | _ :: _ =>
          let file_info := sort file_info in
          let estimated_ratio := Fin 6 in
          match
            (compressed_size <- py_truediv (of_nat total_size) estimated_ratio ;;
             saved <- py_truediv (sub (of_nat total_size) compressed_size)
                        (of_nat total_size) ;;
             Ok {| found := List.length file_info;
                   top := firstn 10 file_info;
                   more := if (10 <? List.length file_info)%nat
                           then Some (List.length file_info - 10)%nat else None;
                   total_size := total_size;
                   compressed_size := compressed_size;
                   savings_pct := mul saved (Fin 100) |})
          with
          | Ok s => Summary s
          | Raise e => AnalysisFailed e
          end
      end
  end.

(** [quality]: the exit status, from the report of [compare_files]; the
    arguments are the outcomes of its two [pd.read_csv] calls. *)
Definition quality_status (report : Quality.Report) : nat :=
  if Quality.has_critical_issues report || Quality.has_errors report then 1 else 0.

Definition quality (np_sqrt : float64 -> float64) (py_float : string -> result float64)
    (read_original read_reconstructed : result Quality.DataFrame) : nat :=
  quality_status
    (Quality.compare_files np_sqrt py_float read_original read_reconstructed).

End Cli.

(* ------------------------------------------------------------------ *)
(** * quality.py: the column details of the verbose report *)

Module Details.
Import Py F64 Quality.
#[local] Unset Implicit Arguments.
Local Open Scope string_scope.

(** The sign in front of a column in the verbose listing. *)
Inductive mark : Type :=
| Tick
| Cross
| Caution.

(** What the listing comes to: the lines printed, or the exception of
    [metrics['type']] asked of a number (IndexError on a numpy scalar,
    TypeError on an int). *)
Inductive listing (A : Type) : Type :=
| Printed (a : A)
| NotAMetric.
Arguments Printed {A} a.
Arguments NotAMetric {A}.

(** One turn of the loop over [report['column_metrics'].items()]: the
    sign printed for [col], if a line is printed. *)
Definition column_detail (col : string) (metrics : metric) : listing (option mark) :=
  if String.eqb col "overall_similarity" then Printed None
  else
    match metrics with
    | StringMetric match_pct =>
        Printed (Some (if eqb match_pct (Fin 100) then Tick else Cross))
    | NumericMetric _ _ _ rel_err exact_pct =>
        Printed (Some (if eqb exact_pct (Fin 100) then Tick
                       else if ltb rel_err (Fin (1 # 10)) then Tick
                       else Caution))
    | Scalar _ => NotAMetric
    end.

Fixpoint column_lines (items : dict metric) : listing (list (string * mark)) :=
  match items with
  | [] => Printed []
  | (col, metrics) :: items' =>
      match column_detail col metrics with
      | Printed line =>
          match column_lines items' with
          | Printed lines =>
              Printed (match line with
                       | Some sign => (col, sign) :: lines
                       | None => lines
                       end)
          | NotAMetric => NotAMetric
          end
      | NotAMetric => NotAMetric
      end
  end.

(** The COLUMN DETAILS block of [print_report]. *)
Definition column_details (verbose : bool) (report : Report)
    : listing (list (string * mark)) :=
  if verbose && negb (has_critical_issues report)
  then column_lines (column_metrics report)
  else Printed [].

End Details.

(* ------------------------------------------------------------------ *)
(** * Facts about the number model *)

Module F64Facts.
Import F64.

Lemma Qltb_lt (x y : Q) : Qltb x y = true <-> (x < y)%Q.
Proof.
  unfold Qltb. rewrite negb_true_iff. split; intro H.
  - apply Qnot_le_lt. intro Hle. apply Qle_bool_iff in Hle. congruence.
  - destruct (Qle_bool y x) eqn:E; [|reflexivity].
    apply Qle_bool_iff in E. exfalso. exact (Qle_not_lt _ _ E H).
Qed.

Lemma Qltb_ge (x y : Q) : Qltb x y = false <-> (y <= x)%Q.
Proof.
  unfold Qltb. rewrite negb_false_iff. apply Qle_bool_iff.
Qed.

Lemma fin_eq (x y : Q) : (x == y)%Q -> fin x = fin y.
Proof. intro H. unfold fin. f_equal. apply Qred_complete, H. Qed.

(** [a <= b] excludes [b < a] ... *)
Lemma leb_not_ltb (a b : float64) : leb a b = true -> ltb b a = false.
Proof.
  destruct a, b; simpl; try reflexivity; try discriminate.
  intro H. apply Qltb_ge. apply Qle_bool_iff, H.
Qed.


(** A count of bytes in MiB against a whole number of MiB. *)
Lemma ltb_mib (n : nat) (k : Z) :
  ltb (div (of_nat n) (of_Z (1024 * 1024))) (Fin (inject_Z k))
  = (Z.of_nat n <? k * 1048576)%Z.
Proof.
  unfold div, of_nat, of_Z. simpl Qeq_bool. cbv iota. unfold fin, ltb.
  destruct (Z.ltb_spec (Z.of_nat n) (k * 1048576)) as [Hlt | Hge].
  - apply Qltb_lt. rewrite Qred_correct.
    apply Qlt_shift_div_r; [reflexivity|].
    rewrite <- inject_Z_mult, <- Zlt_Qlt. exact Hlt.
  - apply Qltb_ge. rewrite Qred_correct.
    apply Qle_shift_div_l; [reflexivity|].
    rewrite <- inject_Z_mult, <- Zle_Qle. exact Hge.
Qed.

End F64Facts.

(* ------------------------------------------------------------------ *)
(** * The ratio estimator *)

Module EstimatorSpec.
Import Py F64 F64Facts Compression.

(** The estimate as a step function of the length in bytes. *)
Definition estimate_of_size (n : Z) : float64 :=
  if (n <? 1 * 1048576)%Z then Fin (25 # 10)
  else if (n <? 10 * 1048576)%Z then Fin 4
  else if (n <? 100 * 1048576)%Z then Fin (55 # 10)
  else Fin 7.

Lemma estimate_by_size (csv_data : bytes) :
  estimate_compression_ratio csv_data
  = estimate_of_size (Z.of_nat (List.length csv_data)).
Proof.
  unfold estimate_compression_ratio, estimate_of_size.
  change (Fin 1) with (Fin (inject_Z 1)).
  change (Fin 10) with (Fin (inject_Z 10)).
  change (Fin 100) with (Fin (inject_Z 100)).
  rewrite !ltb_mib. reflexivity.
Qed.

Example estimate_of_a_small_file :
  estimate_compression_ratio (list_byte_of_string "id,amount") = Fin (25 # 10).
Proof. reflexivity. Qed.

Example estimate_at_the_breakpoints :
  map estimate_of_size [0; 1048575; 1048576; 10485759; 10485760; 104857599; 104857600]%Z
  = [Fin (25 # 10); Fin (25 # 10); Fin 4; Fin 4; Fin (55 # 10); Fin (55 # 10); Fin 7].
Proof. reflexivity. Qed.

Ltac case_ltb :=
  repeat match goal with
         | |- context [(?x <? ?y)%Z] => destruct (Z.ltb_spec x y)
         end.

(** C9: the estimate depends on the length of the data only, is at least
    1.0, and does not decrease when the length grows. *)
Theorem estimate_monotone_in_size (a b : bytes) :
  (List.length a = List.length b ->
     estimate_compression_ratio a = estimate_compression_ratio b)
  /\ leb (Fin 1) (estimate_compression_ratio a) = true
  /\ ((List.length a <= List.length b)%nat ->
        leb (estimate_compression_ratio a) (estimate_compression_ratio b) = true).
Proof.
  rewrite !estimate_by_size. unfold estimate_of_size. repeat split.
  - intro H. rewrite H. reflexivity.
  - case_ltb; reflexivity.
  - intro H. apply Nat2Z.inj_le in H.
    case_ltb; try reflexivity; lia.
Qed.

Lemma estimate_monotone_in_size_witness :
  leb (Fin 1) (estimate_compression_ratio (list_byte_of_string "id,amount")) = true
  /\ leb (estimate_compression_ratio (list_byte_of_string "id"))
         (estimate_compression_ratio (list_byte_of_string "id,amount")) = true.
Proof.
  pose proof (estimate_monotone_in_size
                (list_byte_of_string "id") (list_byte_of_string "id,amount"))
    as [_ [_ Hmono]].
  pose proof (estimate_monotone_in_size
                (list_byte_of_string "id,amount") (list_byte_of_string "id,amount"))
    as [_ [Hone _]].
  split; [exact Hone | apply Hmono; simpl; lia].
Defined.

End EstimatorSpec.

(* ------------------------------------------------------------------ *)
(** * The decoded prefix and its commas *)

Module FilterFacts.
Import Py F64 Config Compression Filter.
Local Open Scope N_scope.

Example decode_ascii :
  utf8_decode_ignore (list_byte_of_string "a,b") = [0x61; 0x2C; 0x62].
Proof. reflexivity. Qed.

(** A lone lead byte is dropped and the comma after it kept; a euro sign
    decodes; a sequence cut off by the end of the data is dropped. *)
Example decode_ignores_errors :
  utf8_decode_ignore [xc3; x2c; xe2; x82; xac; xe2; x82]%byte = [0x2C; 0x20AC].
Proof. reflexivity. Qed.

(** A code point with a bit set at position 6 or above is not the comma. *)
Lemma lor_shiftl_not_comma (x y k : N) :
  x <> 0 -> 6 <= k -> N.lor (N.shiftl x k) y <> 0x2C.
Proof.
  intros Hx Hk E.
  apply (f_equal (fun n => N.shiftr n k)) in E.
  rewrite N.shiftr_lor, N.shiftr_shiftl_l, N.sub_diag, N.shiftl_0_r in E by reflexivity.
  assert (H0 : N.shiftr 0x2C k = 0).
  { apply N.shiftr_eq_0. simpl. lia. }
  rewrite H0 in E. apply N.lor_eq_0_iff in E. tauto.
Qed.

(** The low [n] bits of [c], as a remainder. *)
Lemma land_low (c n : N) : exists q, c = 2 ^ n * q + N.land c (N.ones n).
Proof.
  exists (c / 2 ^ n). rewrite N.land_ones. apply N.div_mod.
  apply N.pow_nonzero. discriminate.
Qed.

Lemma cp2_not_comma (c c2 : N) : 0xC2 <= c -> c < 0xE0 -> cp2 c c2 <> 0x2C.
Proof.
  intros H1 H2. apply lor_shiftl_not_comma; [|lia].
  destruct (land_low c 5) as [q Hq]. change (N.ones 5) with 0x1F in Hq.
  change (2 ^ 5) with 32 in Hq. lia.
Qed.

Lemma cp3_not_comma (c c2 c3 : N) :
  0xE0 <= c -> c < 0xF0 -> is_continuation c2 = true ->
  (if c2 <? 0xA0 then c =? 0xE0 else c =? 0xED) = false ->
  cp3 c c2 c3 <> 0x2C.
Proof.
  intros H1 H2 Hc Hv. unfold cp3.
  destruct (N.eq_dec (N.land c 0x0F) 0) as [E | E].
  - rewrite E, N.shiftl_0_l, N.lor_0_l. apply lor_shiftl_not_comma; [|lia].
    destruct (land_low c 4) as [q Hq]. change (N.ones 4) with 0x0F in Hq.
    change (2 ^ 4) with 16 in Hq. rewrite E in Hq.
    assert (c = 0xE0) by lia. clear Hq. subst c.
    unfold is_continuation in Hc. apply andb_true_iff in Hc. destruct Hc as [Ha Hb].
    apply N.leb_le in Ha. apply N.ltb_lt in Hb.
    revert Hv. destruct (N.ltb_spec c2 0xA0); intro Hv; [cbn in Hv; discriminate Hv|].
    destruct (land_low c2 6) as [q2 Hq2]. change (N.ones 6) with 0x3F in Hq2.
    change (2 ^ 6) with 64 in Hq2. lia.
  - apply lor_shiftl_not_comma; [exact E | lia].
Qed.

Lemma cp4_not_comma (c c2 c3 c4 : N) :
  0xF0 <= c -> c < 0xF5 -> is_continuation c2 = true ->
  (if c2 <? 0x90 then c =? 0xF0 else c =? 0xF4) = false ->
  cp4 c c2 c3 c4 <> 0x2C.
Proof.
  intros H1 H2 Hc Hv. unfold cp4.
  destruct (N.eq_dec (N.land c 0x07) 0) as [E | E].
  - rewrite E, N.shiftl_0_l, N.lor_0_l. apply lor_shiftl_not_comma; [|lia].
    destruct (land_low c 3) as [q Hq]. change (N.ones 3) with 0x07 in Hq.
    change (2 ^ 3) with 8 in Hq. rewrite E in Hq.
    assert (c = 0xF0) by lia. clear Hq. subst c.
    unfold is_continuation in Hc. apply andb_true_iff in Hc. destruct Hc as [Ha Hb].
    apply N.leb_le in Ha. apply N.ltb_lt in Hb.
    revert Hv. destruct (N.ltb_spec c2 0x90); intro Hv; [cbn in Hv; discriminate Hv|].
    destruct (land_low c2 6) as [q2 Hq2]. change (N.ones 6) with 0x3F in Hq2.
    change (2 ^ 6) with 64 in Hq2. lia.
  - apply lor_shiftl_not_comma; [exact E | lia].
Qed.

(** The comma bytes of a byte string. *)
Definition is_comma (b : byte) : bool := 0x2C =? Byte.to_N b.

Definition comma_bytes (s : bytes) : nat := List.length (filter is_comma s).

Lemma count_comma_cons (c : N) (l : list N) :
  count_comma (c :: l) = ((if (0x2C =? c)%N then 1 else 0) + count_comma l)%nat.
Proof. unfold count_comma. cbn [filter]. destruct (0x2C =? c); reflexivity. Qed.

Lemma count_comma_skip (c : N) (l : list N) :
  c <> 0x2C -> count_comma (c :: l) = count_comma l.
Proof.
  intro H. rewrite count_comma_cons.
  destruct (N.eqb_spec 0x2C c); [congruence | reflexivity].
Qed.

Lemma comma_bytes_cons (b : byte) (s : bytes) :
  comma_bytes (b :: s)
  = ((if (0x2C =? Byte.to_N b)%N then 1 else 0) + comma_bytes s)%nat.
Proof.
  unfold comma_bytes. cbn [filter]. unfold is_comma at 1.
  destruct (0x2C =? Byte.to_N b); reflexivity.
Qed.

Lemma comma_bytes_high (b : byte) (s : bytes) :
  (Byte.to_N b <? 0x80) = false -> comma_bytes (b :: s) = comma_bytes s.
Proof.
  intro H. apply N.ltb_ge in H. rewrite comma_bytes_cons.
  destruct (N.eqb_spec 0x2C (Byte.to_N b)); [lia | reflexivity].
Qed.

Lemma comma_bytes_cont (b : byte) (s : bytes) :
  is_continuation (Byte.to_N b) = true -> comma_bytes (b :: s) = comma_bytes s.
Proof.
  intro H. apply comma_bytes_high. unfold is_continuation in H.
  apply andb_true_iff in H. destruct H as [H _]. apply N.leb_le in H.
  apply N.ltb_ge. exact H.
Qed.

Lemma decode_commas_bounded (n : nat) : forall s : bytes,
  (List.length s <= n)%nat ->
  count_comma (utf8_decode_ignore s) = comma_bytes s.
Proof.
  induction n as [|n IH]; intros s Hlen.
  - destruct s; [reflexivity | simpl in Hlen; lia].
  - destruct s as [|b s1]; [reflexivity|].
    assert (IH1 : forall t, (List.length t <= List.length s1)%nat ->
                  count_comma (utf8_decode_ignore t) = comma_bytes t).
    { intros t Ht. apply IH. simpl in Hlen. lia. }
    clear IH Hlen. cbn [utf8_decode_ignore]. cbv zeta.
    destruct (Byte.to_N b <? 0x80) eqn:Hascii.
    { rewrite count_comma_cons, comma_bytes_cons, IH1 by lia. reflexivity. }
    rewrite comma_bytes_high by exact Hascii.
    destruct (Byte.to_N b <? 0xC2) eqn:H2; [apply IH1; lia|].
    apply N.ltb_ge in H2.
    destruct (Byte.to_N b <? 0xE0) eqn:H3.
    { apply N.ltb_lt in H3. destruct s1 as [|b2 s2]; [reflexivity|].
      destruct (is_continuation (Byte.to_N b2)) eqn:Hc2; [|apply IH1; lia].
      rewrite count_comma_skip by (apply cp2_not_comma; assumption).
      rewrite comma_bytes_cont by exact Hc2. apply IH1. simpl. lia. }
    apply N.ltb_ge in H3.
    destruct (Byte.to_N b <? 0xF0) eqn:H4.
    { apply N.ltb_lt in H4. destruct s1 as [|b2 s2]; [reflexivity|].
      destruct (is_continuation (Byte.to_N b2)) eqn:Hc2; cbn [negb orb];
        [|apply IH1; lia].
      destruct (if Byte.to_N b2 <? 0xA0 then Byte.to_N b =? 0xE0 else Byte.to_N b =? 0xED)
        eqn:Hv; [apply IH1; lia|].
      rewrite comma_bytes_cont by exact Hc2.
      destruct s2 as [|b3 s3]; [reflexivity|].
      destruct (is_continuation (Byte.to_N b3)) eqn:Hc3; [|apply IH1; simpl; lia].
      rewrite count_comma_skip by (apply cp3_not_comma; assumption).
      rewrite comma_bytes_cont by exact Hc3. apply IH1. simpl. lia. }
    apply N.ltb_ge in H4.
    destruct (Byte.to_N b <? 0xF5) eqn:H5; [|apply IH1; lia].
    apply N.ltb_lt in H5. destruct s1 as [|b2 s2]; [reflexivity|].
    destruct (is_continuation (Byte.to_N b2)) eqn:Hc2; cbn [negb orb];
      [|apply IH1; lia].
    destruct (if Byte.to_N b2 <? 0x90 then Byte.to_N b =? 0xF0 else Byte.to_N b =? 0xF4)
      eqn:Hv; [apply IH1; lia|].
    rewrite comma_bytes_cont by exact Hc2.
    destruct s2 as [|b3 s3]; [reflexivity|].
    destruct (is_continuation (Byte.to_N b3)) eqn:Hc3; cbn [negb];
      [|apply IH1; simpl; lia].
    rewrite comma_bytes_cont by exact Hc3.
    destruct s3 as [|b4 s4]; [reflexivity|].
    destruct (is_continuation (Byte.to_N b4)) eqn:Hc4; [|apply IH1; simpl; lia].
    rewrite count_comma_skip by (apply cp4_not_comma; assumption).
    rewrite comma_bytes_cont by exact Hc4. apply IH1. simpl. lia.
Qed.

(** Dropping undecodable bytes neither adds nor loses a comma: the commas
    of the decoded text are the comma bytes of the data. *)
Lemma decode_commas (s : bytes) :
  count_comma (utf8_decode_ignore s) = comma_bytes s.
Proof. exact (@decode_commas_bounded (List.length s) s (Nat.le_refl _)). Qed.

Lemma prefix_commas_bytes (input_data : bytes) :
  prefix_commas input_data = comma_bytes (firstn 100 input_data).
Proof. unfold prefix_commas. apply decode_commas. Qed.

End FilterFacts.

(* ------------------------------------------------------------------ *)
(** * The clean and smudge filters *)

Module FilterSpec.
Import Py F64 Config Compression Filter FilterFacts.

Definition bytes_of (s : string) : bytes := list_byte_of_string s.

(** The size threshold of the settings, in MiB. *)
Definition min_size_mb (self : SempressFilter) : pyval :=
  get (get_thresholds (config self)) "min_size_mb" (PyNum (Fin 1)).

(** The two pre-checks of the gate let the input through. *)
Definition passes_prechecks (self : SempressFilter) (b : bytes) : Prop :=
  should_compress (config self) (List.length b) (estimate_compression_ratio b)
  = Ok true.

Lemma nonempty_not_empty (b : bytes) : b <> [] -> is_empty b = false.
Proof. destruct b; [congruence | reflexivity]. Qed.

Ltac run_filter :=
  unfold clean, smudge, compress, decompress, try_except, mbind, lift, ret, emit;
  cbv beta iota.

(** The codec stage of [clean]: the guarded block and its handler. *)
Definition codec_stage (self : SempressFilter) (b : bytes) : result bytes * list event :=
  match encode_csv (compressor self) b with
  | Raise _ => (Ok b, [EncodeCsv b])
  | Ok blob =>
      match truediv (List.length b) (List.length blob) with
      | Raise _ => (Ok b, [EncodeCsv b])
      | Ok actual_ratio =>
          match float_lt actual_ratio (min_compression_ratio self) with
          | Raise _ => (Ok b, [EncodeCsv b])
          | Ok true => (Ok b, [EncodeCsv b])
          | Ok false => (Ok blob, [EncodeCsv b])
          end
      end
  end.

(** [clean] on a non-empty input, by the outcome of the pre-checks. *)
Lemma clean_cases (self : SempressFilter) (b : bytes) :
  b <> [] ->
  clean self (Ok b) []
  = match should_compress (config self) (List.length b)
            (estimate_compression_ratio b) with
    | Raise _ => (Ok [], [])
    | Ok false => (Ok b, [])
    | Ok true => codec_stage self b
    end.
Proof.
  intros Hne. run_filter. rewrite (nonempty_not_empty Hne).
  destruct (should_compress _ _ _) as [[|] | e]; try reflexivity.
  unfold codec_stage. cbn [negb app].
  destruct (encode_csv (compressor self) b) as [blob | e]; [|reflexivity].
  destruct (truediv _ _) as [r | e]; [|reflexivity].
  destruct (float_lt r _) as [[|] | e]; reflexivity.
Qed.

Lemma clean_after_prechecks (self : SempressFilter) (b : bytes) :
  b <> [] -> passes_prechecks self b ->
  clean self (Ok b) [] = codec_stage self b.
Proof.
  intros Hne Hpre. rewrite (clean_cases self Hne).
  unfold passes_prechecks in Hpre. rewrite Hpre. reflexivity.
Qed.

(** [smudge] on a non-empty input. *)
Lemma smudge_cases (self : SempressFilter) (b : bytes) :
  b <> [] ->
  smudge self (Ok b) []
  = if (5 <? prefix_commas b)%nat then (Ok b, [])
    else match decode_to_csv (compressor self) b with
         | Ok csv_data => (Ok csv_data, [DecodeToCsv b])
         | Raise _ => (Ok b, [DecodeToCsv b])
         end.
Proof.
  intros Hne. run_filter. rewrite (nonempty_not_empty Hne).
  destruct (5 <? prefix_commas b)%nat; [reflexivity|].
  cbn [app]. destruct (decode_to_csv _ _); reflexivity.
Qed.

(** A failing encoder; thresholds that let every non-empty input through. *)
Definition failing_codec : SempressCompressor :=
  {| encode_csv := fun _ => Raise (RuntimeError "encode failed");
     decode_to_csv := fun _ => Raise (RuntimeError "decode failed") |}.

Definition empty_blob_codec : SempressCompressor :=
  {| encode_csv := fun _ => Ok [];
     decode_to_csv := fun _ => Raise (RuntimeError "decode failed") |}.

Definition permissive : Config.Config :=
  {| Config.config :=
       [ ("thresholds"%string,
          [ ("min_size_mb"%string, PyNum (Fin 0));
            ("min_compression_ratio"%string, PyNum (Fin 1)) ]) ] |}.

Definition defaults : Config.Config := {| Config.config := DEFAULT_CONFIG |}.

(** C4: when the pre-checks pass and the encoder raises, [clean] returns
    the input unchanged and does not raise. *)
Theorem clean_encode_failure_falls_back (self : SempressFilter) (b : bytes) (e : exn) :
  b <> [] -> passes_prechecks self b ->
  encode_csv (compressor self) b = Raise e ->
  clean self (Ok b) [] = (Ok b, [EncodeCsv b]).
Proof.
  intros Hne Hpre Henc.
  rewrite (clean_after_prechecks Hne Hpre). unfold codec_stage.
  rewrite Henc. reflexivity.
Qed.

Lemma clean_encode_failure_falls_back_witness :
  clean {| config := permissive; compressor := failing_codec |} (Ok (bytes_of "a,b")) []
  = (Ok (bytes_of "a,b"), [EncodeCsv (bytes_of "a,b")]).
Proof.
  apply (@clean_encode_failure_falls_back
           {| config := permissive; compressor := failing_codec |}
           (bytes_of "a,b") (RuntimeError "encode failed")).
  - discriminate.
  - reflexivity.
  - reflexivity.
Defined.

(** C5: an input shorter than the size threshold is returned unchanged,
    and the codec is not called. *)
Theorem clean_skips_small_input (self : SempressFilter) (b : bytes) :
  b <> [] ->
  float_lt (size_in_mb (List.length b)) (min_size_mb self) = Ok true ->
  clean self (Ok b) [] = (Ok b, []).
Proof.
  intros Hne Hsmall. rewrite (clean_cases self Hne).
  unfold should_compress, Py.bind. fold (min_size_mb self).
  rewrite Hsmall. reflexivity.
Qed.

Lemma clean_skips_small_input_witness :
  clean {| config := defaults; compressor := failing_codec |} (Ok (bytes_of "id,amount")) []
  = (Ok (bytes_of "id,amount"), []).
Proof.
  apply (@clean_skips_small_input
           {| config := defaults; compressor := failing_codec |} (bytes_of "id,amount")).
  - discriminate.
  - reflexivity.
Defined.

(** C8: the achieved ratio is [len(raw) / len(blob)]; a blob of length
    zero makes that division fail inside the guarded block, and [clean]
    returns the input; otherwise the ratio decides between the input and
    the blob. *)
Theorem clean_ratio_and_empty_blob (self : SempressFilter) (b blob : bytes) :
  b <> [] -> passes_prechecks self b ->
  encode_csv (compressor self) b = Ok blob ->
  (blob = [] -> clean self (Ok b) [] = (Ok b, [EncodeCsv b]))
  /\ (blob <> [] ->
      exists too_low : bool,
        float_lt (div (of_nat (List.length b)) (of_nat (List.length blob)))
                 (min_compression_ratio self) = Ok too_low
        /\ clean self (Ok b) []
           = (Ok (if too_low then b else blob), [EncodeCsv b])).
Proof.
  intros Hne Hpre Henc.
  rewrite (clean_after_prechecks Hne Hpre). unfold codec_stage.
  rewrite Henc. split.
  - intros ->. reflexivity.
  - intro Hblob. destruct blob as [|c blob]; [congruence|].
    cbn [truediv List.length].
    (* the threshold was compared with a float in the pre-check already *)
    unfold passes_prechecks, should_compress, Py.bind in Hpre.
    fold (min_compression_ratio self) in Hpre.
    destruct (float_lt (size_in_mb _) _) as [[|] | ]; try discriminate.
    unfold float_lt in *.
    destruct (min_compression_ratio self) as [y | [|] | s | l | ]; try discriminate;
      match goal with
      | |- context [Ok (ltb ?x ?y)] =>
          exists (ltb x y); split; [reflexivity|]; destruct (ltb x y); reflexivity
      end.
Qed.

Lemma clean_ratio_and_empty_blob_witness :
  clean {| config := permissive; compressor := empty_blob_codec |} (Ok (bytes_of "a,b")) []
  = (Ok (bytes_of "a,b"), [EncodeCsv (bytes_of "a,b")]).
Proof.
  refine (proj1 (@clean_ratio_and_empty_blob
                   {| config := permissive; compressor := empty_blob_codec |}
                   (bytes_of "a,b") [] _ _ _) eq_refl).
  - discriminate.
  - reflexivity.
  - reflexivity.
Defined.

(** C7: an input with more than five comma bytes among its first hundred
    bytes is returned unchanged and the decoder is not called; an input on
    which the decoder raises is returned unchanged. *)
Theorem smudge_passes_through (self : SempressFilter) (b : bytes) :
  ((5 < comma_bytes (firstn 100 b))%nat -> smudge self (Ok b) [] = (Ok b, []))
  /\ (forall e, decode_to_csv (compressor self) b = Raise e ->
        fst (smudge self (Ok b) []) = Ok b
        /\ (b <> [] -> (comma_bytes (firstn 100 b) <= 5)%nat ->
              smudge self (Ok b) [] = (Ok b, [DecodeToCsv b]))).
Proof.
  rewrite <- prefix_commas_bytes. split.
  - intro Hc.
    destruct b as [|c b]; [exfalso; revert Hc; apply Nat.nlt_0_r|].
    rewrite smudge_cases by discriminate.
    apply Nat.ltb_lt in Hc. rewrite Hc. reflexivity.
  - intros e Hdec. split.
    + destruct b as [|c b]; [reflexivity|].
      rewrite smudge_cases by discriminate.
      destruct (5 <? _)%nat; [reflexivity|]. rewrite Hdec. reflexivity.
    + intros Hne Hc. rewrite (smudge_cases self Hne).
      apply Nat.ltb_ge in Hc. rewrite Hc, Hdec. reflexivity.
Qed.

Lemma smudge_passes_through_witness :
  smudge {| config := defaults; compressor := failing_codec |}
         (Ok (bytes_of "id,a,b,c,d,e,f")) []
  = (Ok (bytes_of "id,a,b,c,d,e,f"), [])
  /\ smudge {| config := defaults; compressor := failing_codec |}
            (Ok (bytes_of "id,a")) []
     = (Ok (bytes_of "id,a"), [DecodeToCsv (bytes_of "id,a")]).
Proof.
  split.
  - apply (proj1 (smudge_passes_through
                    {| config := defaults; compressor := failing_codec |}
                    (bytes_of "id,a,b,c,d,e,f"))).
    vm_compute. lia.
  - apply (proj2 (smudge_passes_through
                    {| config := defaults; compressor := failing_codec |}
                    (bytes_of "id,a")) (RuntimeError "decode failed") eq_refl).
    + discriminate.
    + vm_compute. lia.
Defined.

(** A configuration whose size threshold was written with a unit. *)
Definition unit_suffix : Config.Config :=
  {| Config.config :=
       [ ("compression"%string,
          [ ("k"%string, PyNum (Fin 64));
            ("uncertainty_threshold"%string, PyNum (Fin (2 # 10)));
            ("auto_lock"%string, PyBool true);
            ("lock_cols"%string, PyList []);
            ("residual_cols"%string, PyList []) ]);
         ("thresholds"%string,
          [ ("min_size_mb"%string, PyStr "1MB") ]) ] |}.

(** The threshold check raises on that configuration, and [clean] answers
    a three-byte input with no bytes at all. *)
Lemma clean_threshold_error_drops_input :
  should_compress unit_suffix 3
    (estimate_compression_ratio ["a"; ","; "b"]%byte) = Raise TypeError
  /\ clean {| config := unit_suffix; compressor := failing_codec |}
           (Ok ["a"; ","; "b"]%byte) []
     = (Ok [], []).
Proof. split; reflexivity. Qed.

(** C6, as the code has it: [clean] and [smudge] always return bytes and
    never raise.  A failure of the codec stage (the encoder or decoder
    raises, the blob is empty) gives back the input; a failure to read the
    input, or in [clean] to evaluate the thresholds, gives empty output. *)
Theorem filters_always_output (self : SempressFilter) (input_stream : result bytes) :
  (exists out tr, clean self input_stream [] = (Ok out, tr))
  /\ (exists out tr, smudge self input_stream [] = (Ok out, tr))
  /\ (forall b go,
        input_stream = Ok b ->
        should_compress (config self) (List.length b)
          (estimate_compression_ratio b) = Ok go ->
        (exists e, encode_csv (compressor self) b = Raise e)
          \/ encode_csv (compressor self) b = Ok [] ->
        fst (clean self input_stream []) = Ok b)
  /\ (forall b e,
        input_stream = Ok b ->
        decode_to_csv (compressor self) b = Raise e ->
        fst (smudge self input_stream []) = Ok b)
  /\ (forall e,
        input_stream = Raise e ->
        clean self input_stream [] = (Ok [], [])
        /\ smudge self input_stream [] = (Ok [], []))
  /\ (forall b e,
        input_stream = Ok b -> b <> [] ->
        should_compress (config self) (List.length b)
          (estimate_compression_ratio b) = Raise e ->
        clean self input_stream [] = (Ok [], [])).
Proof.
  split; [|split; [|split; [|split; [|split]]]].
  - destruct input_stream as [b | e]; [|exists [], []; reflexivity].
    destruct b as [|c b]; [exists [], []; reflexivity|].
    rewrite clean_cases by discriminate. unfold codec_stage.
    destruct (should_compress _ _ _) as [[|] | e]; eauto.
    destruct (encode_csv _ _); [|eauto].
    destruct (truediv _ _); [|eauto].
    destruct (float_lt _ _) as [[|] | ]; eauto.
  - destruct input_stream as [b | e]; [|exists [], []; reflexivity].
    destruct b as [|c b]; [exists [], []; reflexivity|].
    rewrite smudge_cases by discriminate.
    destruct (5 <? _)%nat; [eauto|].
    destruct (decode_to_csv _ _); eauto.
  - intros b go -> Hsc Henc.
    destruct b as [|c b]; [reflexivity|].
    rewrite clean_cases by discriminate. rewrite Hsc. unfold codec_stage.
    destruct go; [|reflexivity].
    destruct Henc as [[e ->] | ->]; reflexivity.
  - intros b e -> Hdec.
    destruct b as [|c b]; [reflexivity|].
    rewrite smudge_cases by discriminate.
    destruct (5 <? _)%nat; [reflexivity|]. rewrite Hdec. reflexivity.
  - intros e ->. split; reflexivity.
  - intros b e -> Hne Hsc.
    rewrite (clean_cases self Hne), Hsc. reflexivity.
Qed.

Lemma filters_always_output_witness :
  fst (clean {| config := permissive; compressor := failing_codec |}
         (Ok (bytes_of "a,b")) []) = Ok (bytes_of "a,b")
  /\ fst (smudge {| config := permissive; compressor := failing_codec |}
            (Ok (bytes_of "a,b")) []) = Ok (bytes_of "a,b").
Proof.
  pose proof (filters_always_output
                {| config := permissive; compressor := failing_codec |}
                (Ok (bytes_of "a,b")))
    as (_ & _ & Hclean & Hsmudge & _).
  split.
  - apply (Hclean (bytes_of "a,b") true eq_refl eq_refl).
    left. exists (RuntimeError "encode failed"). reflexivity.
  - apply (Hsmudge (bytes_of "a,b") (RuntimeError "decode failed") eq_refl eq_refl).
Defined.

End FilterSpec.

(* ------------------------------------------------------------------ *)
(** * The quality report *)

Module QualityFacts.
Import Py F64 F64Facts Quality.

Lemma dict_get_set_same {V} (d : dict V) (k : string) (v : V) :
  dict_get (dict_set d k v) k = Some v.
Proof.
  induction d as [|[k' v'] d IH]; simpl.
  - rewrite String.eqb_refl. reflexivity.
  - destruct (String.eqb k' k) eqn:E; simpl; rewrite E; [reflexivity | exact IH].
Qed.

Lemma shape_eqb_eq (a b : nat * nat) : shape_eqb a b = true <-> a = b.
Proof.
  destruct a as [a1 a2], b as [b1 b2]. unfold shape_eqb. simpl.
  rewrite andb_true_iff, !Nat.eqb_eq. split.
  - intros [-> ->]. reflexivity.
  - intros [= -> ->]. split; reflexivity.
Qed.

Lemma name_in_In (x : string) (l : list string) : In x l -> name_in x l = true.
Proof.
  intro H. unfold name_in. apply existsb_exists. exists x. split; [exact H|].
  apply String.eqb_refl.
Qed.

Lemma set_eqb_refl (l : list string) : set_eqb l l = true.
Proof.
  unfold set_eqb. rewrite andb_diag. apply forallb_forall.
  intros x Hx. apply name_in_In, Hx.
Qed.

(** A boolean test that holds of every pair on the diagonal counts the
    whole list. *)
Lemma count_true_diag {A} (f : A -> A -> bool) (l : list A) :
  Forall (fun x => f x x = true) l ->
  count_true (map2 f l l) = List.length l.
Proof.
  unfold count_true, map2. induction 1 as [|x l Hx _ IH]; simpl.
  - reflexivity.
  - rewrite Hx. simpl. f_equal. exact IH.
Qed.

Lemma count_true_all {A} (f : A -> bool) (l : list A) :
  Forall (fun x => f x = true) l ->
  count_true (map f l) = List.length l.
Proof.
  unfold count_true. induction 1 as [|x l Hx _ IH]; simpl.
  - reflexivity.
  - rewrite Hx. simpl. f_equal. exact IH.
Qed.

Lemma of_nat_nonzero (n : nat) :
  (0 < n)%nat -> Qeq_bool (inject_Z (Z.of_nat n)) 0 = false.
Proof.
  intro Hn. destruct (Qeq_bool _ _) eqn:E; [|reflexivity].
  apply Qeq_bool_iff in E. unfold Qeq in E. simpl in E. lia.
Qed.

(** A count that covers the whole is 100 per cent. *)
Lemma pct_full (n : nat) :
  (0 < n)%nat -> mul (div (of_nat n) (of_nat n)) (Fin 100) = Fin 100.
Proof.
  intro Hn. unfold div, of_nat, of_Z. rewrite (of_nat_nonzero Hn).
  rewrite (@fin_eq (inject_Z (Z.of_nat n) / inject_Z (Z.of_nat n)) 1).
  - reflexivity.
  - apply Qmult_inv_r. intro E. apply Qeq_bool_iff in E.
    rewrite (of_nat_nonzero Hn) in E. discriminate.
Qed.

Lemma eqb_refl_finite (x : float64) : finite x -> eqb x x = true.
Proof. destruct x; simpl; try contradiction. intros _. apply Qeq_bool_refl. Qed.

Lemma abs_sub_self (x : float64) : finite x -> abs (sub x x) = Fin 0.
Proof.
  destruct x as [q| | |]; intro H; try destruct H.
  unfold sub. rewrite (@fin_eq (q - q) 0) by ring. reflexivity.
Qed.


Lemma Qle_bool_compat_l (d x y : Q) : (x == y)%Q -> Qle_bool x d = Qle_bool y d.
Proof.
  intro E. destruct (Qle_bool x d) eqn:Hx, (Qle_bool y d) eqn:Hy; try reflexivity.
  - apply Qle_bool_iff in Hx. rewrite E in Hx. apply Qle_bool_iff in Hx. congruence.
  - apply Qle_bool_iff in Hy. rewrite <- E in Hy. apply Qle_bool_iff in Hy. congruence.
Qed.



End QualityFacts.

Module QualitySpec.
Import Py F64 F64Facts Quality QualityFacts.

(** How one column check changed the lists of the report. *)
Definition unchanged (self self' : QualityReport) : Prop :=
  issues self' = issues self /\ warnings self' = warnings self.

Definition warned (s : severity) (t : issue_type) (col : string)
    (self self' : QualityReport) : Prop :=
  issues self' = issues self
  /\ exists w, warnings self' = warnings self ++ [w]
               /\ sev w = s /\ type w = t /\ column w = Some col.

Definition flagged (s : severity) (t : issue_type) (col : string)
    (self self' : QualityReport) : Prop :=
  warnings self' = warnings self
  /\ exists i, issues self' = issues self ++ [i]
               /\ sev i = s /\ type i = t /\ column i = Some col.

(** The values [_check_column] computes for a numeric column, from the two
    float arrays: the absolute errors, [rel_error] and [exact_pct]. *)
Definition abs_errors (orig_vals recon_vals : list float64) : list float64 :=
  map abs (map2 sub orig_vals recon_vals).

Definition relative_error_pct (orig_vals recon_vals : list float64) : float64 :=
  let mae := mean (abs_errors orig_vals recon_vals) in
  let mean_val := mean (map abs orig_vals) in
  if gtb mean_val (Fin 0) then mul (div mae mean_val) (Fin 100) else Fin 0.

Definition exact_match_pct_of (orig_vals recon_vals : list float64) : float64 :=
  mul (div (of_nat (count_true (map2 eqb orig_vals recon_vals)))
           (of_nat (List.length orig_vals)))
      (Fin 100).

(** Concrete stand-ins for the two parameters of the analysis: a square
    root from below to ten decimal places, and a [float()] that accepts
    no text. *)
Definition sqrt_approx (x : float64) : float64 :=
  match x with
  | Fin q =>
      if Qltb q 0 then NaN
      else fin (Z.sqrt (Qnum q * Zpos (Qden q) * 10 ^ 20) # (Qden q * 10 ^ 10))
  | PInf => PInf
  | NInf | NaN => NaN
  end.

Definition no_text (s : string) : result float64 := Raise ValueError.

Definition numeric (l : list float64) : Series :=
  {| dtype_of := DNumeric; values := map Num l |}.

Definition text (l : list string) : Series :=
  {| dtype_of := DObject; values := map Str l |}.

(** ** Tables without gaps

    [well_formed]: what every frame of [read_csv] satisfies: each column
    has one cell per row, a numeric column holds numbers only, and the
    column names are distinct.  [populated]: at least one row and one
    column, and every cell is text or a finite number (no missing value,
    no infinity). *)

Definition is_num (c : cell) : bool :=
  match c with
  | Num _ => true
  | Str _ => false
  end.

Definition present (c : cell) : bool :=
  match c with
  | Str _ => true
  | Num (Fin _) => true
  | Num _ => false
  end.

Fixpoint distinct (l : list string) : bool :=
  match l with
  | [] => true
  | x :: l' => negb (name_in x l') && distinct l'
  end.

Definition series_ok (n : nat) (s : Series) : bool :=
  Nat.eqb (List.length (values s)) n
  && match dtype_of s with
     | DNumeric => forallb is_num (values s)
     | DObject => true
     end.

Definition well_formed (T : DataFrame) : bool :=
  distinct (column_names T)
  && forallb (fun c => series_ok (nrows T) (snd c)) (columns T).

Definition populated (T : DataFrame) : bool :=
  (0 <? nrows T)%nat
  && (0 <? List.length (columns T))%nat
  && forallb (fun c => forallb present (values (snd c))) (columns T).

Section Properties.

Variable np_sqrt : float64 -> float64.
Variable py_float : string -> result float64.

Local Abbreviation astype_float := (Quality.astype_float py_float).
Local Abbreviation _check_column := (Quality._check_column np_sqrt py_float).
Local Abbreviation check_columns := (Quality.check_columns np_sqrt py_float).
Local Abbreviation column_matches := (Quality.column_matches py_float).
Local Abbreviation count_matches := (Quality.count_matches py_float).
Local Abbreviation _calculate_similarity := (Quality._calculate_similarity py_float).
Local Abbreviation analyze := (Quality.analyze np_sqrt py_float).

(** C3: on a shape mismatch [analyze] returns at once, with the one
    CRITICAL [shape_mismatch] issue, no warning, no metric at all, and
    the default 0 in place of a computed similarity score. *)
Theorem analyze_shape_mismatch (original_df reconstructed_df : DataFrame) :
  shape original_df <> shape reconstructed_df ->
  exists self',
    analyze (init original_df reconstructed_df) = Ok (self', _build_report self')
    /\ issues self'
       = [ {| sev := CRITICAL; type := shape_mismatch; column := None;
              msg := ShapeChanged (shape original_df) (shape reconstructed_df);
              details := None; fix_hint := ReportAsBug; example := None |} ]
    /\ warnings self' = []
    /\ metrics self' = []
    /\ report_issues (_build_report self') = issues self'
    /\ report_warnings (_build_report self') = []
    /\ column_metrics (_build_report self') = []
    /\ dict_get (column_metrics (_build_report self')) "overall_similarity" = None
    /\ similarity_score (_build_report self') = Scalar (Fin 0)
    /\ has_critical_issues (_build_report self') = true.
Proof.
  intro Hshape. unfold Quality.analyze.
  destruct (shape_eqb (shape (original (init original_df reconstructed_df)))
              (shape (reconstructed (init original_df reconstructed_df)))) eqn:E.
  - apply shape_eqb_eq in E. simpl in E. contradiction.
  - cbn [negb]. eexists. split; [reflexivity|].
    repeat split; reflexivity.
Qed.

(** The numeric branch of [_check_column], once both columns are float
    arrays. *)
Lemma check_numeric_metrics (self : QualityReport) (col : string)
    (orig recon : Series) (ov rv : list float64) :
  df_get (original self) col = Ok orig ->
  df_get (reconstructed self) col = Ok recon ->
  dtype_of orig = DNumeric ->
  astype_float orig = Ok ov -> astype_float recon = Ok rv ->
  ov <> [] -> List.length ov = List.length rv ->
  exists mae rmse max_error,
    let self1 :=
      set_metric self col
        (NumericMetric mae rmse max_error
           (relative_error_pct ov rv) (exact_match_pct_of ov rv)) in
    mae = mean (abs_errors ov rv)
    /\ np_max (abs_errors ov rv) = Ok max_error
    /\ _check_column self col
       = if eqb (exact_match_pct_of ov rv) (Fin 100) then Ok self1
         else if ltb (relative_error_pct ov rv) (Fin (1 # 100)) then Ok self1
         else if ltb (relative_error_pct ov rv) (Fin (1 # 10)) then
           Ok (add_warning self1
                 {| sev := INFO; type := minor_error; column := Some col;
                    msg := MinorVariations col (relative_error_pct ov rv);
                    details := Some (mae, max_error);
                    fix_hint := QualityIsGood; example := None |})
         else if ltb (relative_error_pct ov rv) (Fin 1) then
           Ok (add_warning self1
                 {| sev := WARNING; type := moderate_error; column := Some col;
                    msg := NoticeableVariations col (relative_error_pct ov rv);
                    details := Some (mae, max_error);
                    fix_hint := AddToResidualCols col; example := None |})
         else
           Ok (add_issue self1
                 {| sev := ERROR; type := high_error; column := Some col;
                    msg := SignificantVariations col (relative_error_pct ov rv);
                    details := Some (mae, max_error);
                    fix_hint := AddToResidualOrLockCols col; example := None |}).
Proof.
  intros Hgo Hgr Hdt Ho Hr Hne Hlen. unfold Quality._check_column.
  rewrite Hgo, Hgr. cbn [Py.bind]. rewrite Hdt, Ho, Hr. cbn [Py.bind].
  destruct ov as [|o ov]; [congruence|].
  destruct rv as [|r rv]; [discriminate|].
  fold (abs_errors (o :: ov) (r :: rv)).
  destruct (np_max (abs_errors (o :: ov) (r :: rv))) as [mx | e] eqn:Hmax;
    [|discriminate].
  exists (mean (abs_errors (o :: ov) (r :: rv))).
  eexists. exists mx. cbv zeta. split; [reflexivity|]. split; [reflexivity|].
  reflexivity.
Qed.




(** *** Columns whose original values are all zero *)

Definition is_zero (x : float64) : Prop := eqb x (Fin 0) = true.

Lemma abs_of_zero (z : float64) : is_zero z -> abs z = Fin 0.
Proof.
  unfold is_zero. destruct z as [q| | |]; try discriminate. simpl.
  intro E. apply Qeq_bool_iff in E.
  change (Fin 0) with (fin 0). apply fin_eq. rewrite E. reflexivity.
Qed.

Lemma abs_sub_from_zero (z r : float64) : is_zero z -> abs (sub z r) = abs r.
Proof.
  unfold is_zero. destruct z as [q| | |]; try discriminate. simpl.
  intro E. apply Qeq_bool_iff in E.
  destruct r as [y| | |]; try reflexivity.
  unfold sub, abs. apply fin_eq. unfold fin. rewrite Qred_correct, E.
  setoid_replace (0 - y)%Q with (- y)%Q by ring. apply Qabs_opp.
Qed.

Lemma abs_errors_from_zero (ov rv : list float64) :
  Forall is_zero ov -> List.length ov = List.length rv ->
  abs_errors ov rv = map abs rv.
Proof.
  unfold abs_errors, map2. intro Hz. revert rv.
  induction Hz as [|z ov Hz _ IH]; intros [|r rv] Hlen; try discriminate.
  - reflexivity.
  - simpl. rewrite (abs_sub_from_zero r Hz). f_equal.
    apply IH. simpl in Hlen. congruence.
Qed.

Lemma sum_of_zeros (l : list float64) :
  Forall (fun x => x = Fin 0) l -> sum l = Fin 0.
Proof.
  unfold sum. induction 1 as [|x l -> _ IH]; [reflexivity|]. exact IH.
Qed.

Lemma mean_abs_of_zeros (ov : list float64) :
  Forall is_zero ov -> ov <> [] -> mean (map abs ov) = Fin 0.
Proof.
  intros Hz Hne. unfold mean. rewrite sum_of_zeros.
  - rewrite length_map. unfold div, of_nat, of_Z.
    rewrite of_nat_nonzero by (destruct ov; [congruence | simpl; lia]).
    change (Fin 0) with (fin 0). apply fin_eq.
    unfold Qdiv. apply Qmult_0_l.
  - apply Forall_map. eapply Forall_impl; [|exact Hz].
    intros z. apply abs_of_zero.
Qed.

Lemma relative_error_of_zeros (ov rv : list float64) :
  Forall is_zero ov -> ov <> [] -> relative_error_pct ov rv = Fin 0.
Proof.
  intros Hz Hne. unfold relative_error_pct.
  rewrite (mean_abs_of_zeros Hz Hne). reflexivity.
Qed.

(** C10: for a numeric column whose original values are all zero the
    relative error is 0 and the column check adds no issue and no
    warning, whatever the reconstructed values are.  The errors show in
    the metrics of the column (MAE and maximum of the absolute
    reconstructed values, exact-match percentage) and in the cells the
    similarity score counts for it. *)
Theorem zero_column_is_silent (self : QualityReport) (col : string)
    (orig recon : Series) (ov rv : list float64) :
  df_get (original self) col = Ok orig ->
  df_get (reconstructed self) col = Ok recon ->
  dtype_of orig = DNumeric ->
  astype_float orig = Ok ov -> astype_float recon = Ok rv ->
  ov <> [] -> List.length ov = List.length rv ->
  Forall is_zero ov ->
  relative_error_pct ov rv = Fin 0
  /\ exists self' rmse max_error,
       _check_column self col = Ok self'
       /\ unchanged self self'
       /\ np_max (map abs rv) = Ok max_error
       /\ dict_get (metrics self') col
          = Some (NumericMetric (mean (map abs rv)) rmse max_error
                    (Fin 0) (exact_match_pct_of ov rv))
       /\ column_matches self col
          = Ok (count_true
                  (map (fun e => ltb e (Fin (1 # 10000000000))) (map abs rv))).
Proof.
  intros Hgo Hgr Hdt Ho Hr Hne Hlen Hz.
  pose proof (relative_error_of_zeros rv Hz Hne) as Hrel.
  split; [exact Hrel|].
  destruct (check_numeric_metrics self col Hgo Hgr Hdt Ho Hr Hne Hlen)
    as (mae & rmse & mx & Hmae & Hmax & Hcheck).
  cbv zeta in Hcheck. rewrite Hrel in Hcheck.
  rewrite (abs_errors_from_zero rv Hz Hlen) in Hmae, Hmax.
  exists (set_metric self col
            (NumericMetric mae rmse mx (Fin 0) (exact_match_pct_of ov rv))).
  exists rmse, mx. repeat split.
  - rewrite Hcheck.
    destruct (eqb (exact_match_pct_of ov rv) (Fin 100)); reflexivity.
  - exact Hmax.
  - cbn [metrics set_metric]. rewrite dict_get_set_same, Hmae. reflexivity.
  - unfold Quality.column_matches. rewrite Hgo, Hgr. cbn [Py.bind]. rewrite Hdt.
    rewrite Ho, Hr. cbn [Py.bind]. fold (abs_errors ov rv).
    rewrite (abs_errors_from_zero rv Hz Hlen). reflexivity.
Qed.

(** *** A table against itself *)

Lemma present_cell_eqb (c : cell) : present c = true -> cell_eqb c c = true.
Proof.
  destruct c as [t | [q| | |]]; simpl; try discriminate; intros _.
  - apply String.eqb_refl.
  - apply Qeq_bool_refl.
Qed.

(** The floats of a numeric column without gaps. *)
Lemma astype_float_present (l : list cell) :
  forallb is_num l = true -> forallb present l = true ->
  exists xs,
    traverse (cell_to_float py_float) l = Ok xs
    /\ List.length xs = List.length l /\ Forall finite xs.
Proof.
  induction l as [|c l IH]; simpl.
  - intros _ _. exists []. repeat split. constructor.
  - rewrite !andb_true_iff. intros [Hc Hn] [Hp Hps].
    destruct (IH Hn Hps) as (xs & Hxs & Hlen & Hfin).
    destruct c as [t | x]; [discriminate|]. simpl. rewrite Hxs. simpl.
    exists (x :: xs). repeat split.
    + simpl. congruence.
    + constructor; [|exact Hfin]. destruct x; try discriminate. exact I.
Qed.

Lemma abs_errors_self (xs : list float64) :
  Forall finite xs -> abs_errors xs xs = map (fun _ => Fin 0) xs.
Proof.
  unfold abs_errors, map2. induction 1 as [|x xs Hx _ IH]; [reflexivity|].
  simpl. rewrite (abs_sub_self _ Hx). f_equal. exact IH.
Qed.

Section SelfComparison.

Variable T : DataFrame.
Hypothesis Hwf : well_formed T = true.
Hypothesis Hpop : populated T = true.

Lemma rows_positive : (0 < nrows T)%nat.
Proof.
  unfold populated in Hpop. rewrite !andb_true_iff in Hpop.
  apply Nat.ltb_lt. tauto.
Qed.

Lemma columns_positive : (0 < List.length (columns T))%nat.
Proof.
  unfold populated in Hpop. rewrite !andb_true_iff in Hpop.
  apply Nat.ltb_lt. tauto.
Qed.

(** A name of the table leads to a column without gaps. *)
Lemma lookup_column (col : string) :
  In col (column_names T) ->
  exists s,
    dict_get (columns T) col = Some s
    /\ List.length (values s) = nrows T
    /\ forallb present (values s) = true
    /\ (dtype_of s = DNumeric -> forallb is_num (values s) = true).
Proof.
  pose proof Hwf as Hs. pose proof Hpop as Hp.
  unfold well_formed in Hs. unfold populated in Hp.
  rewrite !andb_true_iff in Hs, Hp.
  destruct Hs as [_ Hs]. destruct Hp as [_ Hp].
  unfold column_names. revert Hs Hp. generalize (nrows T) as n.
  induction (columns T) as [|[k s] d IH]; simpl; intros n Hs Hp Hin.
  - contradiction.
  - rewrite andb_true_iff in Hs, Hp.
    destruct Hs as [Hs Hs']. destruct Hp as [Hp Hp'].
    destruct (String.eqb k col) eqn:E.
    + exists s. unfold series_ok in Hs. simpl in Hs, Hp.
      rewrite andb_true_iff in Hs. destruct Hs as [Hlen Hnum].
      apply Nat.eqb_eq in Hlen. repeat split; try assumption.
      intro Hd. rewrite Hd in Hnum. exact Hnum.
    + apply (IH n Hs' Hp'). destruct Hin as [-> | Hin]; [|exact Hin].
      rewrite String.eqb_refl in E. discriminate.
Qed.

Lemma check_column_self self col :
  original self = T -> reconstructed self = T ->
  In col (column_names T) ->
  exists m, _check_column self col = Ok (set_metric self col m).
Proof.
  intros Ho Hr Hin.
  destruct (lookup_column col Hin) as (s & Hget & Hlen & Hpres & Hnum).
  assert (Hdf : df_get T col = Ok s) by (unfold df_get; rewrite Hget; reflexivity).
  destruct (dtype_of s) eqn:Hd.
  - unfold Quality._check_column. rewrite Ho, Hr, Hdf. cbn [Py.bind]. rewrite Hd.
    rewrite (count_true_diag cell_eqb).
    + rewrite Hlen, (pct_full rows_positive). cbn [ltb Qltb Py.bind].
      eexists. reflexivity.
    + apply Forall_forall. intros c Hc. apply present_cell_eqb.
      rewrite forallb_forall in Hpres. apply Hpres, Hc.
  - destruct (astype_float_present _ (Hnum eq_refl) Hpres)
      as (xs & Hxs & Hlx & Hfin).
    assert (Hne : xs <> []).
    { pose proof rows_positive. destruct xs; [simpl in Hlx; lia | discriminate]. }
    rewrite <- Ho in Hdf at 1.
    assert (Hdf' : df_get (reconstructed self) col = Ok s) by (rewrite Hr, <- Ho; exact Hdf).
    destruct (check_numeric_metrics self col Hdf Hdf' Hd Hxs Hxs Hne eq_refl)
      as (mae & rmse & mx & _ & _ & Hcheck).
    cbv zeta in Hcheck. rewrite Hcheck.
    unfold exact_match_pct_of.
    rewrite (count_true_diag eqb).
    + rewrite (pct_full (n := List.length xs)) by (rewrite Hlx, Hlen; apply rows_positive).
      cbn [eqb]. eexists. reflexivity.
    + eapply Forall_impl; [|exact Hfin]. apply eqb_refl_finite.
Qed.

Lemma check_columns_self cols : forall self,
  original self = T -> reconstructed self = T ->
  incl cols (column_names T) ->
  exists self',
    check_columns self cols = Ok self'
    /\ original self' = T /\ reconstructed self' = T
    /\ issues self' = issues self /\ warnings self' = warnings self.
Proof.
  induction cols as [|col cols IH]; intros self Ho Hr Hincl.
  - exists self. repeat split; assumption.
  - destruct (@check_column_self self col Ho Hr) as [m Hm].
    { apply Hincl. left. reflexivity. }
    destruct (IH (set_metric self col m)) as (self' & Hrun & Ho' & Hr' & Hi & Hw).
    + exact Ho.
    + exact Hr.
    + intros c Hc. apply Hincl. right. exact Hc.
    + exists self'. cbn [Quality.check_columns]. rewrite Hm. cbn [Py.bind].
      repeat split; assumption.
Qed.

Lemma column_matches_self self col :
  original self = T -> reconstructed self = T ->
  In col (column_names T) ->
  column_matches self col = Ok (nrows T).
Proof.
  intros Ho Hr Hin.
  destruct (lookup_column col Hin) as (s & Hget & Hlen & Hpres & Hnum).
  unfold Quality.column_matches, df_get. rewrite Ho, Hr, Hget. cbn [Py.bind].
  destruct (dtype_of s) eqn:Hd.
  - rewrite (count_true_diag cell_eqb), Hlen; [reflexivity|].
    apply Forall_forall. intros c Hc. apply present_cell_eqb.
    rewrite forallb_forall in Hpres. apply Hpres, Hc.
  - destruct (astype_float_present _ (Hnum eq_refl) Hpres)
      as (xs & Hxs & Hlx & Hfin).
    unfold Quality.astype_float. rewrite Hxs. cbn [Py.bind].
    fold (abs_errors xs xs). rewrite (abs_errors_self Hfin), map_map.
    rewrite count_true_all, Hlx, Hlen; [reflexivity|].
    apply Forall_forall. intros x _. reflexivity.
Qed.

Lemma count_matches_self self cols : forall a,
  original self = T -> reconstructed self = T ->
  incl cols (column_names T) ->
  count_matches self cols (NpInt a)
  = Ok (NpInt (a + nrows T * List.length cols)).
Proof.
  induction cols as [|col cols IH]; intros a Ho Hr Hincl.
  - simpl. rewrite Nat.mul_0_r, Nat.add_0_r. reflexivity.
  - cbn [Quality.count_matches].
    rewrite (@column_matches_self self col Ho Hr) by (apply Hincl; left; reflexivity).
    cbn [Py.bind counter_add]. rewrite IH; try assumption.
    + do 2 f_equal. simpl. lia.
    + intros c Hc. apply Hincl. right. exact Hc.
Qed.

Lemma calculate_similarity_self self :
  original self = T -> reconstructed self = T ->
  _calculate_similarity self
  = Ok (set_metric self "overall_similarity" (Scalar (Fin 100))).
Proof.
  intros Ho Hr. unfold Quality._calculate_similarity, size. rewrite Ho.
  pose proof columns_positive as Hc. pose proof rows_positive as Hn.
  unfold column_names in *.
  destruct (columns T) as [|[k s] d] eqn:Hcols; [simpl in Hc; lia|].
  cbn [map fst Quality.count_matches].
  rewrite (@column_matches_self self k Ho Hr)
    by (unfold column_names; rewrite Hcols; left; reflexivity).
  cbn [Py.bind counter_add].
  rewrite count_matches_self; try assumption.
  - cbn [Py.bind counter_div]. rewrite length_map.
    replace (0 + nrows T + nrows T * List.length d)%nat
      with (nrows T * List.length ((k, s) :: d))%nat by (simpl; lia).
    rewrite pct_full; [reflexivity|]. simpl. lia.
  - unfold column_names. rewrite Hcols. intros c Hin. right. exact Hin.
Qed.

End SelfComparison.

(** C2, as the code has it: a well-formed table with at least one row
    and one column and no missing or infinite cell, compared with itself,
    scores 100 and has no issue and no warning. *)
Theorem analyze_self_is_perfect (T : DataFrame) :
  well_formed T = true -> populated T = true ->
  exists self' report,
    analyze (init T T) = Ok (self', report)
    /\ similarity_score report = Scalar (Fin 100)
    /\ report_issues report = []
    /\ report_warnings report = []
    /\ has_critical_issues report = false
    /\ has_errors report = false
    /\ has_warnings report = false.
Proof.
  intros Hwf Hpop. unfold Quality.analyze.
  cbn [original reconstructed init].
  rewrite (proj2 (shape_eqb_eq (shape T) (shape T)) eq_refl), set_eqb_refl.
  cbn [negb].
  destruct (@check_columns_self T Hwf Hpop (column_names T) (init T T)
              eq_refl eq_refl (incl_refl _))
    as (self1 & Hrun & Ho & Hr & Hi & Hw).
  rewrite Hrun. cbn [Py.bind].
  rewrite (calculate_similarity_self Hwf Hpop self1 Ho Hr). cbn [Py.bind].
  eexists. eexists. split; [reflexivity|].
  unfold _build_report.
  cbn [similarity_score report_issues report_warnings has_critical_issues
       has_errors has_warnings metrics issues warnings set_metric].
  unfold get. rewrite dict_get_set_same, Hi, Hw.
  repeat split.
Qed.

End Properties.

(** ** The properties on concrete tables *)

Definition frame (n : nat) (cols : list (string * Series)) : DataFrame :=
  {| nrows := n; columns := cols |}.


(** One value per tier: relative errors of 0.001, 0.05, 0.5 and 2 per cent. *)
Definition one_cell (orig recon : Q) : QualityReport :=
  init (frame 1 [("x"%string, numeric [Fin orig])])
       (frame 1 [("x"%string, numeric [Fin recon])]).

Definition outcome (r : result QualityReport) : list (severity * issue_type) * list (severity * issue_type) :=
  match r with
  | Ok self => (map (fun i => (sev i, type i)) (issues self),
                map (fun w => (sev w, type w)) (warnings self))
  | Raise _ => ([], [])
  end.

Example tier_examples :
  map (fun p => outcome (_check_column sqrt_approx no_text (one_cell (fst p) (snd p)) "x"))
      [ (100000, 100001); (2000, 2001); (200, 201); (100, 102); (100, 100) ]%Q
  = [ ([], []);
      ([], [(INFO, minor_error)]);
      ([], [(WARNING, moderate_error)]);
      ([(ERROR, high_error)], []);
      ([], []) ].
Proof. reflexivity. Qed.

(** Two rows and one column against two rows and two columns. *)
Lemma analyze_shape_mismatch_witness :
  exists self',
    analyze sqrt_approx no_text
      (init (frame 2 [("id"%string, numeric [Fin 1; Fin 2])])
            (frame 2 [("id"%string, numeric [Fin 1; Fin 2]);
                      ("extra"%string, text ["a"; "b"]%string)]))
    = Ok (self', _build_report self')
    /\ List.length (issues self') = 1%nat
    /\ metrics self' = []
    /\ similarity_score (_build_report self') = Scalar (Fin 0).
Proof.
  destruct (@analyze_shape_mismatch sqrt_approx no_text
              (frame 2 [("id"%string, numeric [Fin 1; Fin 2])])
              (frame 2 [("id"%string, numeric [Fin 1; Fin 2]);
                        ("extra"%string, text ["a"; "b"]%string)])
              ltac:(discriminate))
    as (self' & Hrun & Hi & _ & Hm & _ & _ & _ & _ & Hs & _).
  exists self'. split; [exact Hrun|]. split; [rewrite Hi; reflexivity|].
  split; [exact Hm | exact Hs].
Defined.

(** An all-zero column reconstructed as 5 and 1000. *)
Lemma zero_column_is_silent_witness :
  relative_error_pct [Fin 0; Fin 0] [Fin 5; Fin 1000] = Fin 0
  /\ exists self',
       _check_column sqrt_approx no_text
         (init (frame 2 [("x"%string, numeric [Fin 0; Fin 0])])
               (frame 2 [("x"%string, numeric [Fin 5; Fin 1000])])) "x"
       = Ok self'
       /\ unchanged
            (init (frame 2 [("x"%string, numeric [Fin 0; Fin 0])])
                  (frame 2 [("x"%string, numeric [Fin 5; Fin 1000])])) self'.
Proof.
  destruct (@zero_column_is_silent sqrt_approx no_text
              (init (frame 2 [("x"%string, numeric [Fin 0; Fin 0])])
                    (frame 2 [("x"%string, numeric [Fin 5; Fin 1000])]))
              "x" (numeric [Fin 0; Fin 0]) (numeric [Fin 5; Fin 1000])
              [Fin 0; Fin 0] [Fin 5; Fin 1000]
              eq_refl eq_refl eq_refl eq_refl eq_refl
              ltac:(discriminate) eq_refl
              ltac:(repeat constructor))
    as (Hrel & self' & rmse & mx & Hrun & Hsame & _).
  split; [exact Hrel|]. exists self'. split; [exact Hrun | exact Hsame].
Defined.

(** The table of ids and amounts against itself. *)
Definition ledger : DataFrame :=
  frame 3 [ ("id"%string, numeric [Fin 1; Fin 2; Fin 3]);
            ("amount"%string, numeric [Fin 10; Fin 20; Fin (30005 # 1000)]);
            ("owner"%string, text ["ann"; "bob"; "cy"]%string) ].

Lemma analyze_self_is_perfect_witness :
  exists self' report,
    analyze sqrt_approx no_text (init ledger ledger) = Ok (self', report)
    /\ similarity_score report = Scalar (Fin 100)
    /\ report_issues report = []
    /\ report_warnings report = [].
Proof.
  destruct (@analyze_self_is_perfect sqrt_approx no_text ledger eq_refl eq_refl)
    as (self' & report & Hrun & Hs & Hi & Hw & _).
  exists self', report. repeat split; assumption.
Defined.

(** A table with one missing number.  Against itself it scores 75: the
    missing cell differs from itself. *)
Definition gappy : DataFrame :=
  frame 2 [ ("x"%string, numeric [Fin 1; NaN]);
            ("y"%string, text ["a"; "b"]%string) ].

Lemma analyze_self_with_gap :
  well_formed gappy = true
  /\ exists self' report,
       analyze sqrt_approx no_text (init gappy gappy) = Ok (self', report)
       /\ similarity_score report = Scalar (Fin 75).
Proof.
  split; [reflexivity|]. eexists. eexists. split; reflexivity.
Qed.

(** A table with a header and no row.  Against itself its score is NaN. *)
Definition header_only : DataFrame :=
  frame 0 [ ("x"%string, text []) ].

Lemma analyze_self_without_rows :
  exists self' report,
    analyze sqrt_approx no_text (init header_only header_only) = Ok (self', report)
    /\ similarity_score report = Scalar NaN.
Proof. eexists. eexists. split; reflexivity. Qed.

End QualitySpec.

(* ------------------------------------------------------------------ *)
(** * More on the quality report *)

Module QualityMore.
Import Py F64 F64Facts Quality QualityFacts QualitySpec.
#[local] Unset Implicit Arguments.

Lemma pct_value (m t : nat) :
  (0 < t)%nat ->
  exists q, mul (div (of_nat m) (of_nat t)) (Fin 100) = Fin q
            /\ (q * inject_Z (Z.of_nat t) == inject_Z (Z.of_nat m) * 100)%Q.
Proof.
  intro Ht. unfold div, of_nat, of_Z. rewrite (of_nat_nonzero Ht).
  unfold fin, mul, fin. eexists. split; [reflexivity|].
  rewrite !Qred_correct. field.
  intro E. apply Qeq_bool_iff in E. rewrite (of_nat_nonzero Ht) in E. discriminate.
Qed.

Lemma pct_lt_100 (m t : nat) :
  (0 < t)%nat ->
  ltb (mul (div (of_nat m) (of_nat t)) (Fin 100)) (Fin 100) = (m <? t)%nat.
Proof.
  intro Ht. destruct (pct_value m t Ht) as (q & -> & Hq). unfold ltb.
  assert (Hpos : (0 < inject_Z (Z.of_nat t))%Q).
  { rewrite <- (Zlt_Qlt 0). lia. }
  destruct (Nat.ltb_spec m t) as [H | H].
  - apply Qltb_lt. apply (Qmult_lt_r _ _ _ Hpos). rewrite Hq.
    unfold Qlt, Qmult, inject_Z. cbn [Qnum Qden]. lia.
  - apply Qltb_ge. apply (Qmult_le_r _ _ _ Hpos). rewrite Hq.
    unfold Qle, Qmult, inject_Z. cbn [Qnum Qden]. lia.
Qed.

Lemma pct_eq_100 (m t : nat) :
  (0 < t)%nat ->
  eqb (mul (div (of_nat m) (of_nat t)) (Fin 100)) (Fin 100) = (m =? t)%nat.
Proof.
  intro Ht. destruct (pct_value m t Ht) as (q & -> & Hq). unfold eqb.
  assert (Hpos : ~ (inject_Z (Z.of_nat t) == 0)%Q).
  { intro E. apply Qeq_bool_iff in E. rewrite (of_nat_nonzero Ht) in E. discriminate. }
  destruct (Nat.eqb_spec m t) as [H | H].
  - apply Qeq_bool_iff. apply (Qmult_inj_r _ _ _ Hpos). rewrite Hq, H. ring.
  - destruct (Qeq_bool q 100) eqn:E; [|reflexivity]. exfalso. apply H.
    apply Qeq_bool_iff in E. rewrite E in Hq.
    unfold Qeq, Qmult, inject_Z in Hq. cbn [Qnum Qden] in Hq. lia.
Qed.

Lemma name_in_iff (x : string) (l : list string) : name_in x l = true <-> In x l.
Proof.
  unfold name_in. rewrite existsb_exists. split.
  - intros (y & Hy & E). apply String.eqb_eq in E. subst y. exact Hy.
  - intro H. exists x. split; [exact H | apply String.eqb_refl].
Qed.

Lemma set_diff_spec (a b : list string) (x : string) :
  In x (set_diff a b) <-> In x a /\ ~ In x b.
Proof.
  unfold set_diff. rewrite nodup_In, filter_In, negb_true_iff.
  rewrite <- (name_in_iff x b). destruct (name_in x b); intuition congruence.
Qed.

Lemma set_diff_NoDup (a b : list string) : NoDup (set_diff a b).
Proof. apply NoDup_nodup. Qed.

Lemma forallb_false_witness {A} (f : A -> bool) (l : list A) :
  forallb f l = false -> exists x, In x l /\ f x = false.
Proof.
  induction l as [|a l IH]; simpl; [discriminate|].
  destruct (f a) eqn:E; simpl.
  - intro H. destruct (IH H) as (x & Hx & Hf). exists x. auto.
  - intros _. exists a. auto.
Qed.

Lemma set_eqb_false (a b : list string) :
  set_eqb a b = false -> set_diff a b <> [] \/ set_diff b a <> [].
Proof.
  unfold set_eqb. rewrite andb_false_iff. intros [H | H];
    apply forallb_false_witness in H; destruct H as (x & Hx & Hf);
    [left | right]; intro E;
    assert (Hin : In x (set_diff a b) \/ In x (set_diff b a)).
  - left. apply set_diff_spec. split; [exact Hx|]. rewrite <- name_in_iff. congruence.
  - rewrite E in Hin. destruct Hin as [[] | Hin]. apply set_diff_spec in Hin.
    destruct Hin as [Hb _]. apply name_in_iff in Hb. congruence.
  - right. apply set_diff_spec. split; [exact Hx|]. rewrite <- name_in_iff. congruence.
  - rewrite E in Hin. destruct Hin as [Hin | []]. apply set_diff_spec in Hin.
    destruct Hin as [Ha _]. apply name_in_iff in Ha. congruence.
Qed.

(** Counting the [True]s of an element-wise comparison. *)
Lemma count_true_le {A B} (f : A -> B -> bool) (l : list A) (m : list B) :
  (count_true (map2 f l m) <= List.length l)%nat.
Proof.
  unfold count_true, map2. revert m.
  induction l as [|a l IH]; intros [|b m]; simpl; try lia.
  specialize (IH m). destruct (f a b); simpl; lia.
Qed.

Lemma count_true_all_pairs {A B} (f : A -> B -> bool) (l : list A) (m : list B) :
  List.length l = List.length m ->
  (forall i a b, nth_error l i = Some a -> nth_error m i = Some b -> f a b = true) ->
  count_true (map2 f l m) = List.length l.
Proof.
  unfold count_true, map2. revert m.
  induction l as [|a l IH]; intros [|b m] Hlen Hall; try discriminate; [reflexivity|].
  simpl. rewrite (Hall O a b eq_refl eq_refl). simpl. f_equal.
  apply IH; [simpl in Hlen; congruence|].
  intros i x y Hx Hy. exact (Hall (S i) x y Hx Hy).
Qed.

Lemma count_true_some_false {A B} (f : A -> B -> bool) (l : list A) (m : list B)
    (i : nat) (a : A) (b : B) :
  nth_error l i = Some a -> nth_error m i = Some b -> f a b = false ->
  (count_true (map2 f l m) < List.length l)%nat.
Proof.
  unfold count_true, map2. revert l m.
  induction i as [|i IH]; intros [|x l] [|y m] Hl Hm Hf; try discriminate.
  - simpl in Hl, Hm. injection Hl as ->. injection Hm as ->. simpl. rewrite Hf.
    pose proof (count_true_le f l m) as H. unfold count_true, map2 in H. lia.
  - simpl in Hl, Hm. specialize (IH l m Hl Hm Hf). simpl.
    destruct (f x y); simpl; lia.
Qed.

(** The first row at which two columns differ. *)
Lemma first_true_first {A B} (f : A -> B -> bool) (l : list A) (m : list B)
    (i : nat) (a : A) (b : B) :
  nth_error l i = Some a -> nth_error m i = Some b -> f a b = true ->
  (forall j x y, (j < i)%nat -> nth_error l j = Some x -> nth_error m j = Some y ->
                 f x y = false) ->
  first_true (map2 f l m) = Some i.
Proof.
  unfold map2. revert l m.
  induction i as [|i IH]; intros [|x l] [|y m] Hl Hm Hf Hbefore; try discriminate.
  - simpl in Hl, Hm. injection Hl as ->. injection Hm as ->. simpl. rewrite Hf.
    reflexivity.
  - simpl in Hl, Hm. simpl.
    rewrite (Hbefore O x y (Nat.lt_0_succ _) eq_refl eq_refl).
    rewrite (IH l m Hl Hm Hf); [reflexivity|].
    intros j u v Hj Hu Hv. apply (Hbefore (S j) u v); [lia | exact Hu | exact Hv].
Qed.

Lemma dict_get_set {V} (d : dict V) (k k' : string) (v : V) :
  dict_get (dict_set d k v) k' = if String.eqb k k' then Some v else dict_get d k'.
Proof.
  induction d as [|[k0 v0] d IH]; simpl.
  - reflexivity.
  - destruct (String.eqb k0 k) eqn:E0; simpl.
    + apply String.eqb_eq in E0. subst k0.
      destruct (String.eqb k k'); reflexivity.
    + destruct (String.eqb k0 k') eqn:E1.
      * apply String.eqb_eq in E1. subst k0.
        rewrite String.eqb_sym, E0. reflexivity.
      * exact IH.
Qed.

Definition blocking (i : Issue) : Prop := sev i = CRITICAL \/ sev i = ERROR.

Lemma blocking_flags (l : list Issue) :
  Forall blocking l ->
  existsb is_critical l || existsb is_error l = match l with [] => false | _ => true end.
Proof.
  destruct 1 as [|i l Hi _]; [reflexivity|]. simpl. unfold is_critical, is_error.
  destruct Hi as [-> | ->]; simpl; [reflexivity|].
  destruct (existsb _ l); reflexivity.
Qed.

Lemma count_true_length (l : list bool) : (count_true l <= List.length l)%nat.
Proof.
  unfold count_true. induction l as [|[|] l IH]; simpl; lia.
Qed.

Lemma map2_length {A B C} (f : A -> B -> C) (l : list A) (m : list B) :
  (List.length (map2 f l m) <= List.length l)%nat.
Proof.
  unfold map2. rewrite length_map, length_combine. lia.
Qed.

Lemma traverse_length {A B} (f : A -> result B) (l : list A) : forall xs,
  traverse f l = Ok xs -> List.length xs = List.length l.
Proof.
  induction l as [|a l IH]; simpl; intros xs H.
  - injection H as <-. reflexivity.
  - destruct (f a); [|discriminate]. simpl in H.
    destruct (traverse f l) as [ys|]; [|discriminate]. simpl in H.
    injection H as <-. simpl. f_equal. apply IH. reflexivity.
Qed.

Lemma df_get_length (T : DataFrame) (col : string) (s : Series) :
  well_formed T = true -> df_get T col = Ok s ->
  List.length (values s) = nrows T.
Proof.
  unfold well_formed, df_get. rewrite andb_true_iff. intros [_ Hs].
  remember (nrows T) as n eqn:Hn. clear Hn. revert Hs.
  induction (columns T) as [|[k c] d IH]; simpl; [discriminate|].
  rewrite andb_true_iff. intros [Hc Hd].
  destruct (String.eqb k col).
  - intros [= <-]. unfold series_ok in Hc. apply andb_true_iff in Hc.
    destruct Hc as [Hc _]. apply Nat.eqb_eq in Hc. exact Hc.
  - apply IH, Hd.
Qed.

(** NaN absorbs sums. *)
Lemma add_NaN_l (x : float64) : add NaN x = NaN.
Proof. reflexivity. Qed.

Lemma add_NaN_r (x : float64) : add x NaN = NaN.
Proof. destruct x; reflexivity. Qed.

Lemma fold_add_NaN (l : list float64) : fold_left add l NaN = NaN.
Proof. induction l as [|x l IH]; [reflexivity | exact IH]. Qed.

Lemma sum_with_NaN (l : list float64) : In NaN l -> F64.sum l = NaN.
Proof.
  unfold F64.sum. generalize (Fin 0) as acc.
  induction l as [|x l IH]; intros acc Hin; [destruct Hin|].
  destruct Hin as [-> | Hin]; simpl.
  - rewrite add_NaN_r. apply fold_add_NaN.
  - apply IH, Hin.
Qed.

Lemma mean_with_NaN (l : list float64) : In NaN l -> mean l = NaN.
Proof. intro H. unfold mean. rewrite (sum_with_NaN l H). reflexivity. Qed.

Lemma abs_errors_with_NaN (ov rv : list float64) :
  List.length ov = List.length rv -> In NaN rv -> In NaN (abs_errors ov rv).
Proof.
  unfold abs_errors, map2. revert rv.
  induction ov as [|o ov IH]; intros [|r rv] Hlen Hin; try discriminate.
  - destruct Hin.
  - simpl. destruct Hin as [-> | Hin].
    + left. destruct o; reflexivity.
    + right. apply IH; [simpl in Hlen; congruence | exact Hin].
Qed.

Lemma eqb_NaN_r (x : float64) : eqb x NaN = false.
Proof. destruct x; reflexivity. Qed.

Lemma df_get_in (T : DataFrame) (col : string) :
  In col (column_names T) <-> exists s, df_get T col = Ok s.
Proof.
  unfold df_get, column_names.
  induction (columns T) as [|[k c] d IH]; simpl.
  - split; [intros [] | intros [s H]; discriminate].
  - destruct (String.eqb k col) eqn:E.
    + apply String.eqb_eq in E. split; [eauto | auto].
    + rewrite <- IH. split; [|auto].
      intros [-> | H]; [|exact H]. rewrite String.eqb_refl in E. discriminate.
Qed.

Lemma set_eqb_incl (a b : list string) : set_eqb a b = true -> incl a b.
Proof.
  unfold set_eqb. rewrite andb_true_iff, forallb_forall. intros [H _] x Hx.
  apply name_in_iff, H, Hx.
Qed.

Lemma length_zero_nil {A} (l : list A) : List.length l = 0%nat -> l = [].
Proof. destruct l; [reflexivity | discriminate]. Qed.

Section More.
Variable np_sqrt : float64 -> float64.
Variable py_float : string -> result float64.

Local Abbreviation astype_float := (Quality.astype_float py_float).
Local Abbreviation _check_column := (Quality._check_column np_sqrt py_float).
Local Abbreviation check_columns := (Quality.check_columns np_sqrt py_float).
Local Abbreviation column_matches := (Quality.column_matches py_float).
Local Abbreviation count_matches := (Quality.count_matches py_float).
Local Abbreviation _calculate_similarity := (Quality._calculate_similarity py_float).
Local Abbreviation analyze := (Quality.analyze np_sqrt py_float).
Local Abbreviation compare_files := (Quality.compare_files np_sqrt py_float).
Local Abbreviation quality := (Cli.quality np_sqrt py_float).

(** X1: when the two tables have the same shape but not the same set of
    column names, [analyze] stops before any column is checked: it returns
    with exactly one issue, CRITICAL and of type column_mismatch, and no
    warning and no metric.  The issue names exactly the columns of the
    original that the reconstruction lacks and exactly the columns only the
    reconstruction has, each once; one of the two lists is not empty, and
    the report has critical issues. *)
Theorem analyze_column_mismatch (original_df reconstructed_df : DataFrame) :
  shape original_df = shape reconstructed_df ->
  set_eqb (column_names original_df) (column_names reconstructed_df) = false ->
  exists self' missing extra,
    analyze (init original_df reconstructed_df) = Ok (self', _build_report self')
    /\ issues self'
       = [ {| sev := CRITICAL; type := column_mismatch; column := None;
              msg := ColumnsChanged missing extra;
              details := None; fix_hint := ReportAsBug; example := None |} ]
    /\ warnings self' = []
    /\ metrics self' = []
    /\ (forall x, In x missing <->
          In x (column_names original_df) /\ ~ In x (column_names reconstructed_df))
    /\ (forall x, In x extra <->
          In x (column_names reconstructed_df) /\ ~ In x (column_names original_df))
    /\ NoDup missing /\ NoDup extra
    /\ (missing <> [] \/ extra <> [])
    /\ has_critical_issues (_build_report self') = true.
Proof.
  intros Hshape Hset. unfold Quality.analyze. cbn [original reconstructed init].
  rewrite (proj2 (shape_eqb_eq _ _) Hshape), Hset. cbn [negb].
  eexists. exists (set_diff (column_names original_df) (column_names reconstructed_df)).
  exists (set_diff (column_names reconstructed_df) (column_names original_df)).
  split; [reflexivity|]. split; [reflexivity|]. split; [reflexivity|].
  split; [reflexivity|].
  split; [intro x; apply set_diff_spec|]. split; [intro x; apply set_diff_spec|].
  split; [apply set_diff_NoDup|]. split; [apply set_diff_NoDup|].
  split; [apply set_eqb_false, Hset | reflexivity].
Qed.

(** The text branch of [_check_column] on a non-empty column. *)
Lemma check_text_column (self : QualityReport) (col : string) (orig recon : Series) :
  df_get (original self) col = Ok orig ->
  df_get (reconstructed self) col = Ok recon ->
  dtype_of orig = DObject ->
  values orig <> [] ->
  _check_column self col
  = let matches := count_true (map2 cell_eqb (values orig) (values recon)) in
    let total := List.length (values orig) in
    let match_pct := mul (div (of_nat matches) (of_nat total)) (Fin 100) in
    Py.bind
      (if (matches <? total)%nat then
         Py.bind (idxmax (map2 (fun a b => negb (cell_eqb a b)) (values orig) (values recon)))
           (fun diff_idx =>
         Py.bind (at_row (values orig) diff_idx) (fun o =>
         Py.bind (at_row (values recon) diff_idx) (fun r =>
         Ok (add_issue self
               {| sev := ERROR; type := string_mismatch; column := Some col;
                  msg := ValuesChanged col (total - matches) match_pct;
                  details := None; fix_hint := AddToLockCols col;
                  example := Some (diff_idx, o, r) |}))))
       else Ok self)
      (fun self1 => Ok (set_metric self1 col (StringMetric match_pct))).
Proof.
  intros Hgo Hgr Hdt Hne. unfold Quality._check_column.
  rewrite Hgo, Hgr. cbn [Py.bind]. rewrite Hdt. cbv zeta.
  rewrite pct_lt_100; [reflexivity|].
  destruct (values orig); [congruence | simpl; lia].
Qed.

(** X2: a text column with at least one row whose cells all compare equal
    gets the metric 100, and the check adds no issue and no warning. *)
Theorem text_column_match (self : QualityReport) (col : string) (orig recon : Series) :
  df_get (original self) col = Ok orig ->
  df_get (reconstructed self) col = Ok recon ->
  dtype_of orig = DObject ->
  values orig <> [] ->
  List.length (values orig) = List.length (values recon) ->
  (forall i o r, nth_error (values orig) i = Some o ->
                 nth_error (values recon) i = Some r -> cell_eqb o r = true) ->
  _check_column self col = Ok (set_metric self col (StringMetric (Fin 100))).
Proof.
  intros Hgo Hgr Hdt Hne Hlen Hall.
  rewrite (check_text_column self col orig recon Hgo Hgr Hdt Hne). cbv zeta.
  rewrite (count_true_all_pairs cell_eqb _ _ Hlen Hall).
  rewrite Nat.ltb_irrefl. cbn [Py.bind]. rewrite pct_full; [reflexivity|].
  destruct (values orig); [congruence | simpl; lia].
Qed.

(** X3: when row [i] is the first row at which a text column differs, the
    check adds exactly one issue, ERROR and of type string_mismatch, whose
    example is row [i] with its two cells.  The number of mismatches is
    positive, mismatches and matches add up to the number of rows, the
    recorded match percentage is below 100, and no warning is added. *)
Theorem text_column_mismatch (self : QualityReport) (col : string) (orig recon : Series)
    (i : nat) (o r : cell) :
  df_get (original self) col = Ok orig ->
  df_get (reconstructed self) col = Ok recon ->
  dtype_of orig = DObject ->
  nth_error (values orig) i = Some o ->
  nth_error (values recon) i = Some r ->
  cell_eqb o r = false ->
  (forall j x y, (j < i)%nat -> nth_error (values orig) j = Some x ->
                 nth_error (values recon) j = Some y -> cell_eqb x y = true) ->
  exists self' mismatches match_pct,
    _check_column self col = Ok self'
    /\ warnings self' = warnings self
    /\ issues self'
       = issues self
         ++ [ {| sev := ERROR; type := string_mismatch; column := Some col;
                 msg := ValuesChanged col mismatches match_pct;
                 details := None; fix_hint := AddToLockCols col;
                 example := Some (i, o, r) |} ]
    /\ dict_get (metrics self') col = Some (StringMetric match_pct)
    /\ (0 < mismatches)%nat
    /\ (mismatches + count_true (map2 cell_eqb (values orig) (values recon))
        = List.length (values orig))%nat
    /\ ltb match_pct (Fin 100) = true.
Proof.
  intros Hgo Hgr Hdt Ho Hr Hneq Hbefore.
  assert (Hne : values orig <> []).
  { intro E. rewrite E in Ho. destruct i; discriminate. }
  pose proof (count_true_some_false cell_eqb _ _ i o r Ho Hr Hneq) as Hlt.
  rewrite (check_text_column self col orig recon Hgo Hgr Hdt Hne). cbv zeta.
  rewrite (proj2 (Nat.ltb_lt _ _) Hlt).
  assert (Hfirst : first_true (map2 (fun a b => negb (cell_eqb a b))
                                (values orig) (values recon)) = Some i).
  { apply first_true_first with (a := o) (b := r); [exact Ho | exact Hr | |].
    - rewrite Hneq. reflexivity.
    - intros j x y Hj Hx Hy. rewrite (Hbefore j x y Hj Hx Hy). reflexivity. }
  unfold idxmax.
  destruct (map2 (fun a b => negb (cell_eqb a b)) (values orig) (values recon))
    as [|d ds] eqn:Hdiff; [discriminate Hfirst|].
  rewrite Hfirst. cbn [Py.bind]. unfold at_row. rewrite Ho, Hr. cbn [Py.bind].
  eexists. eexists. eexists. split; [reflexivity|].
  cbn [warnings issues metrics set_metric add_issue].
  split; [reflexivity|]. split; [reflexivity|].
  split; [apply dict_get_set_same|].
  split; [lia|]. split; [lia|].
  rewrite pct_lt_100; [apply Nat.ltb_lt; exact Hlt | lia].
Qed.

(** What one column check may change: the metric of the column is set,
    at most one ERROR issue or one INFO or WARNING warning is appended, the
    two frames stay. *)
Lemma check_column_effect (self self' : QualityReport) (col : string) :
  _check_column self col = Ok self' ->
  original self' = original self
  /\ reconstructed self' = reconstructed self
  /\ (exists m, metrics self' = dict_set (metrics self) col m)
  /\ (issues self' = issues self
      \/ exists i, issues self' = issues self ++ [i] /\ sev i = ERROR)
  /\ (warnings self' = warnings self
      \/ exists w, warnings self' = warnings self ++ [w]
                   /\ (sev w = INFO \/ sev w = WARNING)).
Proof.
  unfold Quality._check_column.
  destruct (df_get (original self) col) as [orig|]; [|discriminate].
  destruct (df_get (reconstructed self) col) as [recon|]; [|discriminate].
  cbn [Py.bind]. destruct (dtype_of orig).
  - cbv zeta. destruct (ltb _ (Fin 100)).
    + destruct (idxmax _) as [i|]; [|discriminate]. cbn [Py.bind].
      destruct (at_row (values orig) i) as [o|]; [|discriminate].
      destruct (at_row (values recon) i) as [r|]; [|discriminate].
      cbn [Py.bind]. intros [= <-].
      cbn [original reconstructed metrics issues warnings set_metric add_issue].
      repeat split; eauto.
    + cbn [Py.bind]. intros [= <-].
      cbn [original reconstructed metrics issues warnings set_metric].
      repeat split; eauto.
  - destruct (Quality.astype_float py_float orig) as [ov|]; [|discriminate].
    destruct (Quality.astype_float py_float recon) as [rv|]; [|discriminate].
    cbn [Py.bind]. destruct (np_max _) as [mx|]; [|discriminate].
    cbn [Py.bind]. cbv zeta.
    destruct (eqb _ (Fin 100));
      [| destruct (ltb _ (Fin (1 # 100)));
         [| destruct (ltb _ (Fin (1 # 10))); [| destruct (ltb _ (Fin 1)) ] ] ];
      intros [= <-];
      cbn [original reconstructed metrics issues warnings set_metric add_issue add_warning];
      repeat split; eauto 8.
Qed.

Lemma check_columns_effect (cols : list string) : forall self self',
  check_columns self cols = Ok self' ->
  original self' = original self
  /\ reconstructed self' = reconstructed self
  /\ (Forall (fun i => sev i = CRITICAL \/ sev i = ERROR) (issues self) ->
      Forall (fun i => sev i = CRITICAL \/ sev i = ERROR) (issues self'))
  /\ (forall k, In k cols \/ dict_get (metrics self) k <> None ->
                dict_get (metrics self') k <> None).
Proof.
  induction cols as [|col cols IH]; intros self self' Hrun.
  - simpl in Hrun. injection Hrun as <-. repeat split; auto.
    intros k [[] | H]; exact H.
  - cbn [Quality.check_columns] in Hrun.
    destruct (_check_column self col) as [self1|] eqn:H1; [|discriminate].
    cbn [Py.bind] in Hrun.
    destruct (check_column_effect _ _ _ H1) as (Ho & Hr & [m Hm] & Hi & _).
    destruct (IH _ _ Hrun) as (Ho' & Hr' & Hi' & Hk').
    split; [congruence|]. split; [congruence|]. split.
    + intro Hall. apply Hi'. destruct Hi as [-> | (i & -> & Hs)]; [exact Hall|].
      apply Forall_app. split; [exact Hall|]. constructor; [right; exact Hs | constructor].
    + intros k Hk. apply Hk'. rewrite Hm, dict_get_set.
      destruct (String.eqb col k) eqn:E.
      * right. discriminate.
      * destruct Hk as [[-> | Hk] | Hk].
        -- rewrite String.eqb_refl in E. discriminate.
        -- left. exact Hk.
        -- right. exact Hk.
Qed.

Lemma analyze_effect (o r : DataFrame) (self' : QualityReport) (report : Report) :
  analyze (init o r) = Ok (self', report) ->
  report = _build_report self'
  /\ Forall blocking (issues self')
  /\ (has_critical_issues report = false ->
      original self' = o
      /\ exists self1 s,
           check_columns (init o r) (column_names o) = Ok self1
           /\ _calculate_similarity self1
              = Ok (set_metric self1 "overall_similarity" (Scalar s))
           /\ self' = set_metric self1 "overall_similarity" (Scalar s)).
Proof.
  unfold Quality.analyze. cbn [original reconstructed init].
  destruct (shape_eqb (shape o) (shape r)); cbn [negb].
  2:{ intros [= <- <-]. split; [reflexivity|]. split.
      - constructor; [left; reflexivity | constructor].
      - discriminate. }
  destruct (set_eqb (column_names o) (column_names r)); cbn [negb].
  2:{ intros [= <- <-]. split; [reflexivity|]. split.
      - constructor; [left; reflexivity | constructor].
      - discriminate. }
  destruct (check_columns (init o r) (column_names o)) as [self1|] eqn:H1; [|discriminate].
  cbn [Py.bind].
  destruct (_calculate_similarity self1) as [self2|] eqn:H2; [|discriminate].
  cbn [Py.bind]. intros [= <- <-].
  destruct (check_columns_effect _ _ _ H1) as (Ho & _ & Hi & _).
  pose proof H2 as H2'. unfold Quality._calculate_similarity in H2'.
  destruct (count_matches _ _ _) as [c|]; [|discriminate]. cbn [Py.bind] in H2'.
  destruct (counter_div _ _) as [x|]; [|discriminate]. cbn [Py.bind] in H2'.
  injection H2' as <-.
  split; [reflexivity|]. split.
  - cbn [issues set_metric]. apply Hi. constructor.
  - intros _. split; [exact Ho|]. eexists. eexists. split; [reflexivity|].
    split; [exact H2 | reflexivity].
Qed.

(** X4: the quality command exits with status 0 exactly when the report
    of [compare_files] lists no issue: every issue the comparison can
    report is CRITICAL or ERROR, so any issue gives status 1. *)
Theorem quality_status_counts_issues (read_original read_reconstructed : result DataFrame) :
  (report_issues (compare_files read_original read_reconstructed) = [] ->
     quality read_original read_reconstructed = 0%nat)
  /\ (report_issues (compare_files read_original read_reconstructed) <> [] ->
        quality read_original read_reconstructed = 1%nat).
Proof.
  unfold Cli.quality, Cli.quality_status.
  assert (H : has_critical_issues (compare_files read_original read_reconstructed)
              || has_errors (compare_files read_original read_reconstructed)
              = match report_issues (compare_files read_original read_reconstructed) with
                | [] => false
                | _ => true
                end).
  { unfold Quality.compare_files.
    destruct read_original as [o|]; [|reflexivity].
    destruct read_reconstructed as [r|]; [|reflexivity].
    cbn [Py.bind]. unfold print_report. cbn [metrics init].
    destruct (Quality.analyze np_sqrt py_float (init o r)) as [[self' rep]|] eqn:Hrun;
      [|reflexivity].
    cbn [Py.bind fst]. destruct (analyze_effect _ _ _ _ Hrun) as (_ & Hb & _).
    cbn [has_critical_issues has_errors report_issues _build_report].
    apply blocking_flags, Hb. }
  rewrite H. split.
  - intros ->. reflexivity.
  - destruct (report_issues _); [congruence | reflexivity].
Qed.

Definition counter_value (c : counter) : nat :=
  match c with
  | PyInt n | NpInt n => n
  end.

Lemma column_matches_le (self : QualityReport) (col : string) (k : nat) :
  well_formed (original self) = true ->
  column_matches self col = Ok k -> (k <= nrows (original self))%nat.
Proof.
  intros Hwf. unfold Quality.column_matches.
  destruct (df_get (original self) col) as [orig|] eqn:Hgo; [|discriminate].
  destruct (df_get (reconstructed self) col) as [recon|]; [|discriminate].
  cbn [Py.bind]. rewrite <- (df_get_length _ _ _ Hwf Hgo).
  destruct (dtype_of orig).
  - intros [= <-]. apply count_true_le.
  - destruct (Quality.astype_float py_float orig) as [ov|] eqn:Ho; [|discriminate].
    destruct (Quality.astype_float py_float recon) as [rv|]; [|discriminate].
    cbn [Py.bind]. intros [= <-].
    rewrite <- (traverse_length _ _ _ Ho).
    eapply Nat.le_trans; [apply count_true_length|].
    rewrite !length_map. apply map2_length.
Qed.

Lemma count_matches_le (self : QualityReport) (cols : list string) : forall c c',
  well_formed (original self) = true ->
  count_matches self cols c = Ok c' ->
  (counter_value c' <= counter_value c + nrows (original self) * List.length cols)%nat
  /\ (cols <> [] -> exists n, c' = NpInt n).
Proof.
  induction cols as [|col cols IH]; intros c c' Hwf Hrun.
  - simpl in Hrun. injection Hrun as <-. split; [lia | congruence].
  - cbn [Quality.count_matches] in Hrun.
    destruct (column_matches self col) as [k|] eqn:Hk; [|discriminate].
    cbn [Py.bind] in Hrun.
    pose proof (column_matches_le _ _ _ Hwf Hk) as Hle.
    destruct (IH _ _ Hwf Hrun) as [Hv Hn]. split.
    + assert (counter_value (counter_add c k) = counter_value c + k)%nat
        by (destruct c; reflexivity).
      simpl. lia.
    + intros _. destruct cols as [|col' cols'].
      * simpl in Hrun. injection Hrun as <-. destruct c; eexists; reflexivity.
      * apply Hn. discriminate.
Qed.

(** X5: when the original is well formed and has at least one cell, a
    report of [analyze] without critical issues has a similarity score that
    is a finite number between 0 and 100. *)
Theorem similarity_score_in_range (o r : DataFrame) (self' : QualityReport)
    (report : Report) :
  well_formed o = true ->
  (0 < size o)%nat ->
  analyze (init o r) = Ok (self', report) ->
  has_critical_issues report = false ->
  exists q, similarity_score report = Scalar (Fin q) /\ (0 <= q <= 100)%Q.
Proof.
  intros Hwf Hsize Hrun Hcrit.
  destruct (analyze_effect _ _ _ _ Hrun) as (-> & _ & Hfull).
  destruct (Hfull Hcrit) as (Ho & self1 & s & H1 & H2 & ->).
  destruct (check_columns_effect _ _ _ H1) as (Ho1 & _ & _ & _).
  cbn [original init] in Ho1.
  unfold Quality._calculate_similarity in H2. rewrite Ho1 in H2.
  destruct (count_matches self1 (column_names o) (PyInt 0)) as [c|] eqn:Hc;
    [|discriminate].
  cbn [Py.bind] in H2.
  assert (Hwf1 : well_formed (original self1) = true) by (rewrite Ho1; exact Hwf).
  destruct (count_matches_le _ _ _ _ Hwf1 Hc) as [Hle Hnp].
  rewrite Ho1 in Hle. cbn [counter_value] in Hle.
  unfold column_names in Hle, Hnp. rewrite length_map in Hle.
  destruct Hnp as [n ->].
  { unfold size in Hsize. destruct (columns o); [simpl in Hsize; lia | discriminate]. }
  cbn [counter_value] in Hle. cbn [counter_div] in H2.
  destruct (size o) as [|t] eqn:Ht; [lia|]. cbn [Py.bind] in H2.
  apply (f_equal (fun x => match x with
                           | Ok st => dict_get (metrics st) "overall_similarity"
                           | Raise _ => None
                           end)) in H2.
  cbn [metrics set_metric] in H2. rewrite !dict_get_set_same in H2.
  assert (Hs : mul (div (of_nat n) (of_nat (S t))) (Fin 100) = s) by congruence.
  clear H2.
  destruct (pct_value n (S t)) as (q & Hq & Hv); [lia|].
  exists q. split.
  - unfold _build_report, get. cbn [similarity_score metrics set_metric].
    rewrite dict_get_set_same, <- Hs, Hq. reflexivity.
  - assert (Hpos : (0 < inject_Z (Z.of_nat (S t)))%Q).
    { rewrite <- (Zlt_Qlt 0). lia. }
    unfold size in Ht. split.
    + apply (Qmult_le_r _ _ _ Hpos). rewrite Hv.
      unfold Qle, Qmult, inject_Z. cbn [Qnum Qden]. lia.
    + apply (Qmult_le_r _ _ _ Hpos). rewrite Hv.
      unfold Qle, Qmult, inject_Z. cbn [Qnum Qden]. lia.
Qed.

(** X6: a report of [analyze] without critical issues holds a metric for
    every column of the original, and under the key overall_similarity the
    similarity score itself. *)
Theorem report_has_every_metric (o r : DataFrame) (self' : QualityReport)
    (report : Report) :
  analyze (init o r) = Ok (self', report) ->
  has_critical_issues report = false ->
  (forall col, In col (column_names o) ->
               dict_get (column_metrics report) col <> None)
  /\ dict_get (column_metrics report) "overall_similarity"
     = Some (similarity_score report).
Proof.
  intros Hrun Hcrit.
  destruct (analyze_effect _ _ _ _ Hrun) as (-> & _ & Hfull).
  destruct (Hfull Hcrit) as (Ho & self1 & s & H1 & H2 & ->).
  destruct (check_columns_effect _ _ _ H1) as (_ & _ & _ & Hk).
  unfold _build_report, get. cbn [column_metrics similarity_score metrics set_metric].
  rewrite dict_get_set_same. split; [|reflexivity].
  intros col Hin. rewrite dict_get_set.
  destruct (String.eqb _ col); [discriminate|]. apply Hk. left. exact Hin.
Qed.

(** X7: a numeric column whose reconstruction holds a NaN (a missing
    value), while the mean absolute value of the original is positive, is
    reported as an ERROR of type high_error; the relative error recorded
    for the column is NaN. *)
Theorem nan_reconstruction_is_an_error (self : QualityReport) (col : string)
    (orig recon : Series) (ov rv : list float64) :
  df_get (original self) col = Ok orig ->
  df_get (reconstructed self) col = Ok recon ->
  dtype_of orig = DNumeric ->
  astype_float orig = Ok ov -> astype_float recon = Ok rv ->
  List.length ov = List.length rv ->
  In NaN rv ->
  gtb (mean (map abs ov)) (Fin 0) = true ->
  exists self',
    _check_column self col = Ok self'
    /\ flagged ERROR high_error col self self'
    /\ exists mae rmse max_error exact_pct,
         dict_get (metrics self') col
         = Some (NumericMetric mae rmse max_error NaN exact_pct).
Proof.
  intros Hgo Hgr Hdt Ho Hr Hlen Hnan Hpos.
  assert (Hne : ov <> []).
  { intro E. subst ov. destruct rv; [destruct Hnan | discriminate]. }
  destruct (check_numeric_metrics np_sqrt py_float self col Hgo Hgr Hdt Ho Hr Hne Hlen)
    as (mae & rmse & mx & _ & _ & Hcheck).
  cbv zeta in Hcheck. rewrite Hcheck. clear Hcheck.
  assert (Hrel : relative_error_pct ov rv = NaN).
  { unfold relative_error_pct. rewrite Hpos.
    rewrite (mean_with_NaN _ (abs_errors_with_NaN ov rv Hlen Hnan)). reflexivity. }
  assert (Hexact : eqb (exact_match_pct_of ov rv) (Fin 100) = false).
  { unfold exact_match_pct_of.
    rewrite pct_eq_100 by (destruct ov; [congruence | simpl; lia]).
    apply Nat.eqb_neq. apply Nat.lt_neq.
    destruct (In_nth_error _ _ Hnan) as [i Hi].
    destruct (nth_error ov i) as [o|] eqn:Hoi.
    - exact (count_true_some_false eqb ov rv i o NaN Hoi Hi (eqb_NaN_r o)).
    - apply nth_error_None in Hoi. rewrite Hlen in Hoi.
      apply nth_error_None in Hoi. congruence. }
  rewrite Hexact, Hrel. cbn [ltb].
  eexists. split; [reflexivity|]. split.
  - unfold flagged. cbn [warnings issues add_issue set_metric].
    split; [reflexivity|]. eexists. repeat split.
  - exists mae, rmse, mx, (exact_match_pct_of ov rv).
    cbn [metrics add_issue set_metric]. apply dict_get_set_same.
Qed.

(** Two frames without rows: a text column passes, a numeric column makes
    [numpy.max] raise. *)
Lemma check_column_zero_rows (self : QualityReport) (col : string) (orig recon : Series) :
  df_get (original self) col = Ok orig ->
  df_get (reconstructed self) col = Ok recon ->
  values orig = [] -> values recon = [] ->
  _check_column self col
  = match dtype_of orig with
    | DObject => Ok (set_metric self col (StringMetric NaN))
    | DNumeric => Raise ValueError
    end.
Proof.
  intros Hgo Hgr Ho Hr. unfold Quality._check_column, Quality.astype_float.
  rewrite Hgo, Hgr. cbn [Py.bind]. rewrite Ho, Hr.
  destruct (dtype_of orig); reflexivity.
Qed.

Lemma check_columns_zero_rows (o r : DataFrame) (cols : list string) : forall self,
  original self = o -> reconstructed self = r ->
  nrows o = 0%nat -> nrows r = 0%nat ->
  well_formed o = true -> well_formed r = true ->
  incl cols (column_names o) -> incl cols (column_names r) ->
  (exists col s, In col cols /\ df_get o col = Ok s /\ dtype_of s = DNumeric) ->
  check_columns self cols = Raise ValueError.
Proof.
  induction cols as [|col cols IH];
    intros self Ho Hr Hno Hnr Hwo Hwr Hio Hir (c & s & Hin & Hget & Hdt).
  - destruct Hin.
  - assert (Hco : In col (column_names o)) by (apply Hio; left; reflexivity).
    assert (Hcr : In col (column_names r)) by (apply Hir; left; reflexivity).
    apply df_get_in in Hco. destruct Hco as [so Hso].
    apply df_get_in in Hcr. destruct Hcr as [sr Hsr].
    pose proof (df_get_length o col so Hwo Hso) as Hlo. rewrite Hno in Hlo.
    pose proof (df_get_length r col sr Hwr Hsr) as Hlr. rewrite Hnr in Hlr.
    cbn [Quality.check_columns].
    rewrite (check_column_zero_rows self col so sr); try congruence;
      try (apply length_zero_nil; assumption).
    destruct (dtype_of so) eqn:Hd; [|reflexivity]. cbn [Py.bind].
    apply IH; try assumption; try reflexivity.
    + intros x Hx. apply Hio. right. exact Hx.
    + intros x Hx. apply Hir. right. exact Hx.
    + exists c, s. repeat split; try assumption.
      destruct Hin as [<- | Hin]; [|exact Hin]. congruence.
Qed.

(** X8: on two tables without rows that share their columns, one of them
    numeric, [analyze] and [print_report] raise ValueError (the maximum of
    an empty array) instead of returning a report. *)
Theorem zero_rows_with_numeric_column_fail (o r : DataFrame) (col : string) (s : Series) :
  nrows o = 0%nat ->
  shape o = shape r ->
  set_eqb (column_names o) (column_names r) = true ->
  well_formed o = true -> well_formed r = true ->
  df_get o col = Ok s -> dtype_of s = DNumeric ->
  analyze (init o r) = Raise ValueError
  /\ Quality.print_report np_sqrt py_float (init o r) = Raise ValueError.
Proof.
  intros Hno Hshape Hset Hwo Hwr Hget Hdt.
  assert (Hrun : analyze (init o r) = Raise ValueError).
  { unfold Quality.analyze. cbn [original reconstructed init].
    rewrite (proj2 (shape_eqb_eq _ _) Hshape), Hset. cbn [negb].
    rewrite (check_columns_zero_rows o r (column_names o) (init o r)); try assumption;
      try reflexivity.
    - unfold shape in Hshape. injection Hshape as Hn _. congruence.
    - apply incl_refl.
    - apply set_eqb_incl, Hset.
    - exists col, s. repeat split; try assumption.
      apply df_get_in. exists s. exact Hget. }
  split; [exact Hrun|].
  unfold print_report. cbn [metrics init]. exact Hrun.
Qed.

End More.


Lemma analyze_column_mismatch_witness :
  exists self',
    analyze sqrt_approx no_text
      (init (frame 1 [("a"%string, numeric [Fin 1])])
            (frame 1 [("b"%string, numeric [Fin 1])]))
    = Ok (self', _build_report self')
    /\ metrics self' = []
    /\ has_critical_issues (_build_report self') = true.
Proof.
  destruct (analyze_column_mismatch sqrt_approx no_text
              (frame 1 [("a"%string, numeric [Fin 1])])
              (frame 1 [("b"%string, numeric [Fin 1])]) eq_refl eq_refl)
    as [self' [missing [extra [Hrun [_ [_ [Hm [_ [_ [_ [_ [_ Hc]]]]]]]]]]]].
  exists self'. split; [exact Hrun|]. split; [exact Hm | exact Hc].
Defined.

Definition owners : Series := text ["ann"; "bob"]%string.

Definition renamed : Series := text ["ann"; "rob"]%string.

Lemma text_column_match_witness :
  _check_column sqrt_approx no_text
    (init (frame 2 [("owner"%string, owners)]) (frame 2 [("owner"%string, owners)]))
    "owner"
  = Ok (set_metric
          (init (frame 2 [("owner"%string, owners)]) (frame 2 [("owner"%string, owners)]))
          "owner" (StringMetric (Fin 100))).
Proof.
  apply (text_column_match sqrt_approx no_text _ "owner"%string owners owners);
    try reflexivity.
  - discriminate.
  - intros [|[|[|i]]] o r; cbn; try discriminate; intros [= <-] [= <-]; reflexivity.
Defined.

Lemma text_column_mismatch_witness :
  exists self' mismatches,
    _check_column sqrt_approx no_text
      (init (frame 2 [("owner"%string, owners)]) (frame 2 [("owner"%string, renamed)]))
      "owner"
    = Ok self'
    /\ (0 < mismatches)%nat
    /\ exists match_pct,
         issues self'
         = [ {| sev := ERROR; type := string_mismatch; column := Some "owner"%string;
                msg := ValuesChanged "owner" mismatches match_pct;
                details := None; fix_hint := AddToLockCols "owner";
                example := Some (1%nat, Str "bob", Str "rob") |} ].
Proof.
  destruct (text_column_mismatch sqrt_approx no_text
              (init (frame 2 [("owner"%string, owners)])
                    (frame 2 [("owner"%string, renamed)]))
              "owner"%string owners renamed 1 (Str "bob") (Str "rob")
              eq_refl eq_refl eq_refl eq_refl eq_refl eq_refl)
    as [self' [mismatches [match_pct [Hrun [_ [Hi [_ [Hpos _]]]]]]]].
  - intros [|j] x y Hj; [|lia]. cbn. intros [= <-] [= <-]. reflexivity.
  - exists self', mismatches. split; [exact Hrun|]. split; [exact Hpos|].
    exists match_pct. exact Hi.
Defined.

Lemma nan_reconstruction_is_an_error_witness :
  exists self',
    _check_column sqrt_approx no_text
      (init (frame 1 [("x"%string, numeric [Fin 1])])
            (frame 1 [("x"%string, numeric [NaN])])) "x"
    = Ok self'
    /\ flagged ERROR high_error "x"
         (init (frame 1 [("x"%string, numeric [Fin 1])])
               (frame 1 [("x"%string, numeric [NaN])])) self'.
Proof.
  destruct (nan_reconstruction_is_an_error sqrt_approx no_text
              (init (frame 1 [("x"%string, numeric [Fin 1])])
                    (frame 1 [("x"%string, numeric [NaN])]))
              "x"%string (numeric [Fin 1]) (numeric [NaN]) [Fin 1] [NaN]
              eq_refl eq_refl eq_refl eq_refl eq_refl eq_refl
              (or_introl eq_refl) eq_refl)
    as [self' [Hrun [Hflag _]]].
  exists self'. split; [exact Hrun | exact Hflag].
Defined.

Definition no_rows : DataFrame := frame 0 [("x"%string, numeric [])].

Lemma zero_rows_with_numeric_column_fail_witness :
  analyze sqrt_approx no_text (init no_rows no_rows) = Raise ValueError
  /\ Quality.print_report sqrt_approx no_text (init no_rows no_rows) = Raise ValueError.
Proof.
  exact (zero_rows_with_numeric_column_fail sqrt_approx no_text no_rows no_rows
           "x"%string (numeric []) eq_refl eq_refl eq_refl eq_refl eq_refl eq_refl eq_refl).
Defined.

Definition measured : DataFrame := frame 1 [("x"%string, numeric [Fin 1000])].

Definition drifted : DataFrame := frame 1 [("x"%string, numeric [Fin 1001])].

Lemma drifted_report :
  exists self' report,
    analyze sqrt_approx no_text (init measured drifted) = Ok (self', report)
    /\ has_critical_issues report = false.
Proof. eexists. eexists. split; reflexivity. Defined.

Lemma similarity_score_in_range_witness :
  exists self' report q,
    analyze sqrt_approx no_text (init measured drifted) = Ok (self', report)
    /\ similarity_score report = Scalar (Fin q) /\ (0 <= q <= 100)%Q.
Proof.
  destruct drifted_report as [self' [report [Hrun Hc]]].
  destruct (similarity_score_in_range sqrt_approx no_text measured drifted self' report
              eq_refl (Nat.lt_0_succ _) Hrun Hc) as [q [Hq Hr]].
  exists self', report, q. split; [exact Hrun|]. split; [exact Hq | exact Hr].
Defined.

Lemma report_has_every_metric_witness :
  exists self' report,
    analyze sqrt_approx no_text (init measured drifted) = Ok (self', report)
    /\ dict_get (column_metrics report) "x" <> None
    /\ dict_get (column_metrics report) "overall_similarity"
       = Some (similarity_score report).
Proof.
  destruct drifted_report as [self' [report [Hrun Hc]]].
  destruct (report_has_every_metric sqrt_approx no_text measured drifted self' report
              Hrun Hc) as [Hall Hs].
  exists self', report. split; [exact Hrun|]. split; [|exact Hs].
  apply Hall. left. reflexivity.
Defined.

End QualityMore.

(* ------------------------------------------------------------------ *)
(** * More on the gate *)

Module GateMore.
Import Py F64 F64Facts Config Compression Filter FilterFacts EstimatorSpec FilterSpec Entry.
#[local] Unset Implicit Arguments.

Lemma estimate_bounds (b : bytes) :
  leb (Fin (25 # 10)) (estimate_compression_ratio b) = true
  /\ leb (estimate_compression_ratio b) (Fin 7) = true.
Proof.
  rewrite estimate_by_size. unfold estimate_of_size.
  repeat match goal with
         | |- context [(?x <? ?y)%Z] => destruct (x <? y)%Z
         end; split; reflexivity.
Qed.

Lemma leb_ltb_trans (a b c : float64) :
  leb a b = true -> ltb b c = true -> ltb a c = true.
Proof.
  destruct a as [x| | |], b as [y| | |], c as [z| | |]; simpl;
    try discriminate; try reflexivity.
  intros H1 H2. apply Qltb_lt. apply Qle_bool_iff in H1. apply Qltb_lt in H2.
  eapply Qle_lt_trans; eassumption.
Qed.

Lemma leb_ltb_false (a b c : float64) :
  leb a b = true -> leb c a = true -> ltb b c = false.
Proof.
  destruct a as [x| | |], b as [y| | |], c as [z| | |]; simpl;
    try discriminate; try reflexivity.
  intros H1 H2. apply Qltb_ge. apply Qle_bool_iff in H1. apply Qle_bool_iff in H2.
  eapply Qle_trans; eassumption.
Qed.

(** X9: under the default configuration the size alone decides:
    [should_compress] on the estimate of the input is true exactly from
    1048576 bytes (1 MiB) on.  Below it, [clean] returns a non-empty input
    unchanged without calling the codec; from it on, [clean] calls the
    encoder exactly once, on the input. *)
Theorem default_thresholds_gate_on_size (codec : SempressCompressor) (b : bytes) :
  should_compress defaults (List.length b) (estimate_compression_ratio b)
  = Ok (1048576 <=? Z.of_nat (List.length b))%Z
  /\ ((Z.of_nat (List.length b) < 1048576)%Z -> b <> [] ->
      clean {| config := defaults; compressor := codec |} (Ok b) [] = (Ok b, []))
  /\ ((1048576 <= Z.of_nat (List.length b))%Z ->
      snd (clean {| config := defaults; compressor := codec |} (Ok b) [])
      = [EncodeCsv b]).
Proof.
  assert (Hsc : should_compress defaults (List.length b) (estimate_compression_ratio b)
                = Ok (1048576 <=? Z.of_nat (List.length b))%Z).
  { unfold should_compress, get_thresholds, defaults, DEFAULT_CONFIG, get.
    cbn [Config.config dict_get String.eqb Ascii.eqb Bool.eqb]. cbn [float_lt Py.bind].
    unfold size_in_mb. change (Fin 1) with (Fin (inject_Z 1)). rewrite ltb_mib.
    change (1 * 1048576)%Z with 1048576%Z.
    rewrite (Z.leb_antisym (Z.of_nat (List.length b)) 1048576).
    destruct (Z.of_nat (List.length b) <? 1048576)%Z; [reflexivity|].
    cbn [negb Py.bind].
    rewrite (leb_ltb_false (Fin (25 # 10)) (estimate_compression_ratio b) (Fin (15 # 10))
               (proj1 (estimate_bounds b)) eq_refl).
    reflexivity. }
  split; [exact Hsc|]. split.
  - intros Hsmall Hne. rewrite (clean_cases _ Hne). cbn [config]. rewrite Hsc.
    apply Z.leb_gt in Hsmall. rewrite Hsmall. reflexivity.
  - intros Hbig.
    assert (Hne : b <> []) by (intro E; subst b; simpl in Hbig; lia).
    rewrite (clean_cases _ Hne). cbn [config]. rewrite Hsc.
    apply Z.leb_le in Hbig. rewrite Hbig. unfold codec_stage.
    destruct (encode_csv _ _); [|reflexivity].
    destruct (truediv _ _); [|reflexivity].
    destruct (float_lt _ _) as [[|]|]; reflexivity.
Qed.

(** X10: a numeric min_compression_ratio above 7, the largest value the
    estimator returns, switches compression off: whenever the size check
    does not raise, [clean] returns a non-empty input unchanged and never
    calls the codec. *)
Theorem ratio_threshold_above_seven_disables (self : SempressFilter) (b : bytes)
    (r : float64) (small : bool) :
  b <> [] ->
  float_lt (size_in_mb (List.length b)) (min_size_mb self) = Ok small ->
  min_compression_ratio self = PyNum r ->
  ltb (Fin 7) r = true ->
  clean self (Ok b) [] = (Ok b, []).
Proof.
  intros Hne Hsize Hratio Hr. rewrite (clean_cases self Hne).
  unfold should_compress, Py.bind. fold (min_size_mb self).
  rewrite Hsize. destruct small; [reflexivity|].
  fold (min_compression_ratio self). rewrite Hratio. cbn [float_lt].
  rewrite (leb_ltb_trans _ _ _ (proj2 (estimate_bounds b)) Hr). reflexivity.
Qed.

Lemma truediv_ge_one (a b : nat) (r x : float64) :
  truediv a b = Ok x -> leb (Fin 1) r = true -> ltb x r = false -> (b <= a)%nat.
Proof.
  unfold truediv. destruct b as [|b]; [discriminate|]. intros [= <-].
  unfold div, of_nat, of_Z.
  change (Z.pos (Pos.of_succ_nat b)) with (Z.of_nat (S b)).
  unfold fin. destruct r as [s| | |]; cbn [leb ltb]; intros H1 H2;
    try discriminate H1; try discriminate H2.
  apply Qle_bool_iff in H1. apply Qltb_ge in H2.
  rewrite Qred_correct in H2.
  assert (H : (1 <= inject_Z (Z.of_nat a) / inject_Z (Z.of_nat (S b)))%Q)
    by (eapply Qle_trans; eassumption).
  assert (Hpos : (0 < inject_Z (Z.of_nat (S b)))%Q) by (rewrite <- (Zlt_Qlt 0); lia).
  apply (Qmult_le_r _ _ _ Hpos) in H.
  assert (E : (inject_Z (Z.of_nat a) / inject_Z (Z.of_nat (S b)) * inject_Z (Z.of_nat (S b))
               == inject_Z (Z.of_nat a))%Q).
  { field. intro E. rewrite E in Hpos. discriminate. }
  rewrite E in H. unfold Qle, Qmult, inject_Z in H. cbn [Qnum Qden] in H. lia.
Qed.

(** X11: with a numeric min_compression_ratio of at least 1, the bytes
    [clean] returns are never longer than its input. *)
Theorem clean_never_grows (self : SempressFilter) (b out : bytes) (r : float64) :
  min_compression_ratio self = PyNum r ->
  leb (Fin 1) r = true ->
  fst (clean self (Ok b) []) = Ok out ->
  (List.length out <= List.length b)%nat.
Proof.
  intros Hratio Hr. destruct b as [|c b]; [intros [= <-]; apply Nat.le_refl|].
  rewrite clean_cases by discriminate.
  destruct (should_compress _ _ _) as [[|]|].
  - unfold codec_stage.
    destruct (encode_csv _ _) as [blob|]; [|intros [= <-]; apply Nat.le_refl].
    destruct (truediv _ _) as [x|] eqn:Hdiv; [|intros [= <-]; apply Nat.le_refl].
    rewrite Hratio. cbn [float_lt].
    destruct (ltb x r) eqn:Hlt; intros [= <-]; [apply Nat.le_refl|].
    exact (truediv_ge_one _ _ r x Hdiv Hr Hlt).
  - intros [= <-]. apply Nat.le_refl.
  - intros [= <-]. simpl. lia.
Qed.

(** X12: [clean] and [smudge] call the codec at most once per run, and
    only on the whole non-empty input: [clean] only the encoder, [smudge]
    only the decoder. *)
Theorem one_codec_call_at_most (self : SempressFilter) (input_stream : result bytes) :
  (snd (clean self input_stream []) = []
   \/ exists b, input_stream = Ok b /\ b <> []
                /\ snd (clean self input_stream []) = [EncodeCsv b])
  /\ (snd (smudge self input_stream []) = []
      \/ exists b, input_stream = Ok b /\ b <> []
                   /\ snd (smudge self input_stream []) = [DecodeToCsv b]).
Proof.
  destruct input_stream as [b|e]; [|split; left; reflexivity].
  destruct b as [|c b]; [split; left; reflexivity|].
  rewrite clean_cases, smudge_cases by discriminate. split.
  - destruct (should_compress _ _ _) as [[|]|]; [|left; reflexivity|left; reflexivity].
    right. exists (c :: b). split; [reflexivity|]. split; [discriminate|].
    unfold codec_stage.
    destruct (encode_csv _ _); [|reflexivity].
    destruct (truediv _ _); [|reflexivity].
    destruct (float_lt _ _) as [[|]|]; reflexivity.
  - destruct (5 <? _)%nat; [left; reflexivity|].
    right. exists (c :: b). split; [reflexivity|]. split; [discriminate|].
    destruct (decode_to_csv _ _); reflexivity.
Qed.

Lemma clean_accepts (self : SempressFilter) (b blob : bytes) :
  b <> [] -> passes_prechecks self b ->
  encode_csv (compressor self) b = Ok blob -> blob <> [] ->
  float_lt (div (of_nat (List.length b)) (of_nat (List.length blob)))
           (min_compression_ratio self) = Ok false ->
  clean self (Ok b) [] = (Ok blob, [EncodeCsv b]).
Proof.
  intros Hne Hpre Henc Hblob Hratio.
  rewrite (clean_after_prechecks Hne Hpre). unfold codec_stage. rewrite Henc.
  destruct blob as [|c blob]; [congruence|]. cbn [truediv List.length].
  cbn [List.length] in Hratio. rewrite Hratio. reflexivity.
Qed.

(** X13: when [clean] accepts the blob of the encoder (the pre-checks
    pass, the blob is not empty and the actual ratio is not below the
    threshold), the first 100 bytes of the blob hold at most 5 commas and
    the decoder maps the blob back to the input, then [smudge] on the
    output of [clean] returns the input, after one decoder call. *)
Theorem clean_then_smudge_round_trip (self : SempressFilter) (b blob : bytes) :
  b <> [] -> passes_prechecks self b ->
  encode_csv (compressor self) b = Ok blob -> blob <> [] ->
  float_lt (div (of_nat (List.length b)) (of_nat (List.length blob)))
           (min_compression_ratio self) = Ok false ->
  (comma_bytes (firstn 100 blob) <= 5)%nat ->
  decode_to_csv (compressor self) blob = Ok b ->
  exists out,
    fst (clean self (Ok b) []) = Ok out
    /\ smudge self (Ok out) [] = (Ok b, [DecodeToCsv out]).
Proof.
  intros Hne Hpre Henc Hblob Hratio Hcommas Hdec.
  exists blob. rewrite (clean_accepts self b blob Hne Hpre Henc Hblob Hratio).
  split; [reflexivity|]. rewrite (smudge_cases self Hblob).
  rewrite prefix_commas_bytes. apply Nat.ltb_ge in Hcommas.
  rewrite Hcommas, Hdec. reflexivity.
Qed.

(** X14: when [clean] accepts a blob whose first 100 bytes hold more than
    5 commas, [smudge] takes the stored blob for plain CSV: it returns the
    blob itself and never calls the decoder, so the file is not restored. *)
Theorem comma_heavy_blob_is_not_decoded (self : SempressFilter) (b blob : bytes) :
  b <> [] -> passes_prechecks self b ->
  encode_csv (compressor self) b = Ok blob -> blob <> [] ->
  float_lt (div (of_nat (List.length b)) (of_nat (List.length blob)))
           (min_compression_ratio self) = Ok false ->
  (5 < comma_bytes (firstn 100 blob))%nat ->
  exists out,
    fst (clean self (Ok b) []) = Ok out
    /\ smudge self (Ok out) [] = (Ok blob, []).
Proof.
  intros Hne Hpre Henc Hblob Hratio Hcommas.
  exists blob. rewrite (clean_accepts self b blob Hne Hpre Henc Hblob Hratio).
  split; [reflexivity|]. rewrite (smudge_cases self Hblob).
  rewrite prefix_commas_bytes. apply Nat.ltb_lt in Hcommas.
  rewrite Hcommas. reflexivity.
Qed.

Lemma clean_returns (self : SempressFilter) (input_stream : result bytes) :
  exists out tr, clean self input_stream [] = (Ok out, tr).
Proof.
  destruct input_stream as [b | e]; [|exists [], []; reflexivity].
  destruct b as [|c b]; [exists [], []; reflexivity|].
  rewrite clean_cases by discriminate. unfold codec_stage.
  destruct (should_compress _ _ _) as [[|] | e]; eauto.
  destruct (encode_csv _ _); [|eauto].
  destruct (truediv _ _); [|eauto].
  destruct (float_lt _ _) as [[|] | ]; eauto.
Qed.

Lemma smudge_returns (self : SempressFilter) (input_stream : result bytes) :
  exists out tr, smudge self input_stream [] = (Ok out, tr).
Proof.
  destruct input_stream as [b | e]; [|exists [], []; reflexivity].
  destruct b as [|c b]; [exists [], []; reflexivity|].
  rewrite smudge_cases by discriminate.
  destruct (5 <? _)%nat; [eauto|].
  destruct (decode_to_csv _ _); eauto.
Qed.

(** X15: the filter processes.  Once the filter object is constructed,
    [run_clean_filter] and [run_smudge_filter] write what [clean] and
    [smudge] return (these always return) and exit with failure only if
    writing fails.  If constructing the filter raises, both exit with
    failure without any codec call. *)
Theorem filter_process_fails_only_outside (self : SempressFilter)
    (input_stream : result bytes) (write : bytes -> result unit) :
  (exists out,
     fst (clean self input_stream []) = Ok out
     /\ fst (run_clean_filter (Ok self) input_stream write [])
        = Ok (match write out with Ok _ => Wrote out | Raise _ => ExitFailure end))
  /\ (exists out,
        fst (smudge self input_stream []) = Ok out
        /\ fst (run_smudge_filter (Ok self) input_stream write [])
           = Ok (match write out with Ok _ => Wrote out | Raise _ => ExitFailure end))
  /\ (forall e,
        run_clean_filter (Raise e) input_stream write [] = (Ok ExitFailure, [])
        /\ run_smudge_filter (Raise e) input_stream write [] = (Ok ExitFailure, [])).
Proof.
  split; [|split].
  - destruct (clean_returns self input_stream) as (out & tr & H).
    exists out. rewrite H. split; [reflexivity|].
    unfold run_clean_filter, try_except, mbind, lift, ret. rewrite H.
    destruct (write out); reflexivity.
  - destruct (smudge_returns self input_stream) as (out & tr & H).
    exists out. rewrite H. split; [reflexivity|].
    unfold run_smudge_filter, try_except, mbind, lift, ret. rewrite H.
    destruct (write out); reflexivity.
  - intro e. split; reflexivity.
Qed.

Lemma ltb_false_mono (x y t : float64) :
  leb x y = true -> ltb x t = false -> ltb y t = false.
Proof.
  destruct x as [a| | |], y as [b| | |], t as [c| | |]; simpl;
    try discriminate; try reflexivity.
  intros H1 H2. apply Qltb_ge. apply Qle_bool_iff in H1. apply Qltb_ge in H2.
  eapply Qle_trans; eassumption.
Qed.

Lemma float_lt_false_mono (x y : float64) (v : pyval) :
  leb x y = true -> float_lt x v = Ok false -> float_lt y v = Ok false.
Proof.
  intros Hle. destruct v as [t | [|] | s | l | ]; cbn [float_lt]; try discriminate;
    intros [= H]; f_equal; exact (ltb_false_mono _ _ _ Hle H).
Qed.

Lemma size_in_mb_mono (n m : nat) :
  (n <= m)%nat -> leb (size_in_mb n) (size_in_mb m) = true.
Proof.
  intro H. unfold size_in_mb, div, of_nat, of_Z. cbn [leb]. unfold fin.
  apply Qle_bool_iff. rewrite !Qred_correct.
  unfold Qdiv. apply Qmult_le_compat_r; [|discriminate].
  rewrite <- Zle_Qle. lia.
Qed.

(** X16: the gate is monotone in the size: if [should_compress] lets an
    input through on its estimate, it lets every input through that is at
    least as long, under the same configuration. *)
Theorem gate_is_monotone_in_size (cfg : Config.Config) (a b : bytes) :
  (List.length a <= List.length b)%nat ->
  should_compress cfg (List.length a) (estimate_compression_ratio a) = Ok true ->
  should_compress cfg (List.length b) (estimate_compression_ratio b) = Ok true.
Proof.
  intros Hlen. unfold should_compress, Py.bind.
  destruct (float_lt (size_in_mb (List.length a)) _) as [[|]|] eqn:H1; try discriminate.
  rewrite (float_lt_false_mono _ _ _ (size_in_mb_mono _ _ Hlen) H1).
  destruct (float_lt (estimate_compression_ratio a) _) as [[|]|] eqn:H2; try discriminate.
  intros _.
  assert (Hest : leb (estimate_compression_ratio a) (estimate_compression_ratio b) = true).
  { rewrite !estimate_by_size. unfold estimate_of_size. apply Nat2Z.inj_le in Hlen.
    repeat match goal with
           | |- context [(?x <? ?y)%Z] => destruct (Z.ltb_spec x y)
           end; try reflexivity; lia. }
  rewrite (float_lt_false_mono _ _ _ Hest H2). reflexivity.
Qed.

Definition strict : Config.Config :=
  {| Config.config :=
       [ ("thresholds"%string,
          [ ("min_size_mb"%string, PyNum (Fin 0));
            ("min_compression_ratio"%string, PyNum (Fin 8)) ]) ] |}.

(** A codec that answers every call with one fixed blob and one fixed table. *)
Definition fixed_codec (blob table : string) : SempressCompressor :=
  {| encode_csv := fun _ => Ok (bytes_of blob);
     decode_to_csv := fun _ => Ok (bytes_of table) |}.

Lemma ratio_threshold_above_seven_disables_witness :
  clean {| config := strict; compressor := failing_codec |}
    (Ok (bytes_of "a,b")) [] = (Ok (bytes_of "a,b"), []).
Proof.
  apply (ratio_threshold_above_seven_disables
           {| config := strict; compressor := failing_codec |}
           (bytes_of "a,b") (Fin 8) false);
    [discriminate | reflexivity | reflexivity | reflexivity].
Defined.

Lemma clean_never_grows_witness :
  (List.length (bytes_of "z") <= List.length (bytes_of "a,b,c"))%nat.
Proof.
  apply (clean_never_grows
           {| config := permissive; compressor := fixed_codec "z" "a,b,c" |}
           (bytes_of "a,b,c") (bytes_of "z") (Fin 1));
    reflexivity.
Defined.

Lemma clean_then_smudge_round_trip_witness :
  exists out,
    fst (clean {| config := permissive; compressor := fixed_codec "z" "a,b,c" |}
           (Ok (bytes_of "a,b,c")) []) = Ok out
    /\ smudge {| config := permissive; compressor := fixed_codec "z" "a,b,c" |}
         (Ok out) [] = (Ok (bytes_of "a,b,c"), [DecodeToCsv out]).
Proof.
  apply (clean_then_smudge_round_trip
           {| config := permissive; compressor := fixed_codec "z" "a,b,c" |}
           (bytes_of "a,b,c") (bytes_of "z"));
    try reflexivity; try discriminate.
  cbn. lia.
Defined.

Lemma comma_heavy_blob_is_not_decoded_witness :
  exists out,
    fst (clean {| config := permissive; compressor := fixed_codec ",,,,,," "a,b,c" |}
           (Ok (bytes_of "aaaaaaaaaaaa")) []) = Ok out
    /\ smudge {| config := permissive; compressor := fixed_codec ",,,,,," "a,b,c" |}
         (Ok out) [] = (Ok (bytes_of ",,,,,,"), []).
Proof.
  apply (comma_heavy_blob_is_not_decoded
           {| config := permissive; compressor := fixed_codec ",,,,,," "a,b,c" |}
           (bytes_of "aaaaaaaaaaaa") (bytes_of ",,,,,,"));
    try reflexivity; try discriminate.
  cbn. lia.
Defined.

Lemma gate_is_monotone_in_size_witness :
  should_compress permissive (List.length (bytes_of "ab"))
    (estimate_compression_ratio (bytes_of "ab")) = Ok true.
Proof.
  apply (gate_is_monotone_in_size permissive (bytes_of "a") (bytes_of "ab"));
    [cbn; lia | reflexivity].
Defined.

End GateMore.

(* ------------------------------------------------------------------ *)
(** * The configuration search *)

Module FindConfigSpec.
Import FindConfig.
#[local] Unset Implicit Arguments.

Lemma search_spec (turns : nat) : forall current ancestors level i,
  search turns current ancestors level = Some (level + i)%nat
  <-> (i < turns)%nat
      /\ (exists d, nth_error (current :: ancestors) i = Some d /\ has_config d = true)
      /\ (forall j d, (j < i)%nat -> nth_error (current :: ancestors) j = Some d ->
                      has_config d = false /\ has_git d = false).
Proof.
  induction turns as [|turns IH]; intros current ancestors level i.
  - simpl. split; [discriminate | intros [H _]; lia].
  - cbn [search]. destruct (has_config current) eqn:Hc.
    + split.
      * intros [= E]. assert (i = 0)%nat by lia. subst i.
        split; [lia|]. split; [exists current; auto|]. intros j d Hj. lia.
      * intros (_ & _ & Hbefore). destruct i as [|i]; [f_equal; lia|].
        destruct (Hbefore O current (Nat.lt_0_succ _) eq_refl) as [H _]. congruence.
    + destruct i as [|i].
      * split.
        -- intro H. exfalso.
           destruct (has_git current); [discriminate|].
           destruct ancestors as [|p ps]; [discriminate|].
           assert (Hlevel : forall t c a l k, search t c a l = Some k -> (l <= k)%nat).
           { clear. induction t as [|t IHt]; intros c a l k; simpl; [discriminate|].
             destruct (has_config c); [intros [= <-]; lia|].
             destruct (has_git c); [discriminate|].
             destruct a; [discriminate|]. intro H. apply IHt in H. lia. }
           apply Hlevel in H. lia.
        -- intros (_ & (d & [= <-] & Hd) & _). congruence.
      * destruct (has_git current) eqn:Hg.
        -- split; [discriminate|]. intros (_ & _ & Hbefore).
           destruct (Hbefore O current (Nat.lt_0_succ _) eq_refl) as [_ H]. congruence.
        -- destruct ancestors as [|p ps].
           ++ split; [discriminate|]. intros (_ & (d & Hd & _) & _).
              destruct i; discriminate.
           ++ replace (level + S i)%nat with (S level + i)%nat by lia.
              rewrite IH. split.
              ** intros (Hi & Hd & Hbefore). split; [lia|]. split; [exact Hd|].
                 intros [|j] d Hj Hn.
                 --- injection Hn as <-. auto.
                 --- apply (Hbefore j d); [lia | exact Hn].
              ** intros (Hi & Hd & Hbefore). split; [lia|]. split; [exact Hd|].
                 intros j d Hj Hn. apply (Hbefore (S j) d); [lia | exact Hn].
Qed.

(** X17: [_find_config] returns the [.sempress.yml] found [i] levels above
    the working directory exactly when [i] is below 10, that directory
    holds the file, and no directory before it on the way up holds the
    file or a [.git] entry.  So the nearest file wins, and the search
    never leaves the repository nor looks at more than 10 directories. *)
Theorem find_config_nearest_within_repository (cwd : directory)
    (ancestors : list directory) (i : nat) :
  _find_config cwd ancestors = Some i
  <-> (i < 10)%nat
      /\ (exists d, nth_error (cwd :: ancestors) i = Some d /\ has_config d = true)
      /\ (forall j d, (j < i)%nat -> nth_error (cwd :: ancestors) j = Some d ->
                      has_config d = false /\ has_git d = false).
Proof. unfold _find_config. apply (search_spec 10 cwd ancestors 0 i). Qed.

End FindConfigSpec.

(* ------------------------------------------------------------------ *)
(** * Pixel tables *)

Module FormatsSpec.
Import F64 F64Facts Formats.
#[local] Unset Implicit Arguments.
Local Open Scope string_scope.

Definition channels_of (mode : string) : nat :=
  if String.eqb mode "RGBA" then 4 else 3.

(** Inside the shape (height, width, channels). *)
Definition inside (height width channels y x i : nat) : Prop :=
  (y < height /\ x < width /\ i < channels)%nat.

Definition uint8 (v : Z) : Prop := (0 <= v <= 255)%Z.

Lemma quot_uint8 (q : Q) : (0 <= q)%Q -> (q <= 255)%Q -> uint8 (Z.quot (Qnum q) (Z.pos (Qden q))).
Proof.
  destruct q as [n d]. unfold Qle, uint8. cbn [Qnum Qden]. intros H0 H1.
  assert (Hn : (0 <= n)%Z) by lia.
  rewrite Z.quot_div_nonneg by lia. split.
  - apply Z.div_pos; lia.
  - apply Z.div_le_upper_bound; lia.
Qed.

Lemma clip_uint8 (cell : float64) (v : Z) :
  py_int (np_clip cell (Fin 0) (Fin 255)) = Returned v -> uint8 v.
Proof.
  unfold np_clip, maximum, minimum.
  destruct cell as [q| | |]; cbn [ltb]; try discriminate.
  - destruct (Qltb q 0) eqn:H0; cbn [ltb].
    + change (Qltb 255 0) with false. cbn. intros [= <-]. unfold uint8. lia.
    + destruct (Qltb 255 q) eqn:H1; cbn [py_int].
      * cbn. intros [= <-]. unfold uint8. lia.
      * intros [= <-]. apply quot_uint8; [apply Qltb_ge; exact H0 | apply Qltb_ge; exact H1].
  - cbn. intros [= <-]. unfold uint8. lia.
  - cbn. intros [= <-]. unfold uint8. lia.
Qed.

Lemma clip_of_uint8 (v : Z) :
  uint8 v -> py_int (np_clip (of_Z v) (Fin 0) (Fin 255)) = Returned v.
Proof.
  unfold uint8, np_clip, maximum, minimum, of_Z. intro H. cbn [ltb].
  assert (H0 : Qltb (inject_Z v) 0 = false).
  { unfold Qltb. apply negb_false_iff. apply Qle_bool_iff.
    change 0%Q with (inject_Z 0). rewrite <- Zle_Qle. lia. }
  rewrite H0. cbn [ltb].
  assert (H1 : Qltb 255 (inject_Z v) = false).
  { unfold Qltb. apply negb_false_iff. apply Qle_bool_iff.
    change 255%Q with (inject_Z 255). rewrite <- Zle_Qle. lia. }
  rewrite H1. cbn [py_int inject_Z Qnum Qden]. rewrite Z.quot_1_r. reflexivity.
Qed.

Lemma int_of_Z (z : Z) : py_int (of_Z z) = Returned z.
Proof. unfold of_Z. cbn [py_int inject_Z Qnum Qden]. rewrite Z.quot_1_r. reflexivity. Qed.

(** What a well-shaped array looks like: uint8 values, zeros outside. *)
Definition within (height width channels : nat) (a : ndarray) : Prop :=
  forall y x i,
    uint8 (a y x i) /\ (~ inside height width channels y x i -> a y x i = 0%Z).

Lemma within_zeros (height width channels : nat) : within height width channels zeros.
Proof. intros y x i. unfold zeros, uint8. split; [lia | reflexivity]. Qed.

Lemma within_setitem (height width channels : nat) (a : ndarray) (y x i : nat) (v : Z) :
  within height width channels a -> inside height width channels y x i -> uint8 v ->
  within height width channels (setitem a y x i v).
Proof.
  intros Ha Hin Hv y' x' i'. unfold setitem.
  destruct (Nat.eqb_spec y' y) as [->|]; cbn [andb]; [|apply Ha].
  destruct (Nat.eqb_spec x' x) as [->|]; cbn [andb]; [|apply Ha].
  destruct (Nat.eqb_spec i' i) as [->|]; [|apply Ha].
  split; [exact Hv | intro H; contradiction].
Qed.

Lemma fill_channels_within (height width channels : nat) (labels : list string)
    (row : list float64) (y x : nat) (chs : list string) :
  (y < height)%nat -> (x < width)%nat ->
  forall (i : nat) (a a' : ndarray),
    (i + List.length chs <= channels)%nat ->
    within height width channels a ->
    fill_channels labels row y x i chs a = Returned a' ->
    within height width channels a'.
Proof.
  intros Hy Hx. induction chs as [|ch chs IH]; intros i a a' Hi Ha; cbn [fill_channels].
  - intros [= <-]. exact Ha.
  - destruct (getitem labels row ch) as [cell|]; cbn [and_then]; [|discriminate].
    destruct (py_int _) as [v|] eqn:Hv; cbn [and_then]; [|discriminate].
    apply IH; [cbn [List.length] in Hi; lia|].
    apply within_setitem; [exact Ha | | exact (clip_uint8 _ _ Hv)].
    unfold inside. cbn [List.length] in Hi. lia.
Qed.

Lemma fill_rows_within (height width channels : nat) (labels : list string)
    (chs : list string) (df_rows : list (list float64)) :
  (List.length chs <= channels)%nat ->
  forall (a a' : ndarray),
    within height width channels a ->
    fill_rows labels width height chs df_rows a = Returned a' ->
    within height width channels a'.
Proof.
  intro Hc. induction df_rows as [|row df_rows IH]; intros a a' Ha; cbn [fill_rows].
  - intros [= <-]. exact Ha.
  - destruct (getitem labels row "x") as [xv|]; cbn [and_then]; [|discriminate].
    destruct (py_int xv) as [x|]; cbn [and_then]; [|discriminate].
    destruct (getitem labels row "y") as [yv|]; cbn [and_then]; [|discriminate].
    destruct (py_int yv) as [y|]; cbn [and_then]; [|discriminate].
    destruct ((0 <=? x) && (x <? Z.of_nat width) && ((0 <=? y) && (y <? Z.of_nat height)))%Z
      eqn:Hb; [|apply IH; exact Ha].
    destruct (fill_channels _ _ _ _ _ _ _) as [a1|] eqn:H1; cbn [and_then]; [|discriminate].
    apply IH. apply (fill_channels_within height width channels labels row
                       (Z.to_nat y) (Z.to_nat x) chs) with (i := 0%nat) (a := a); try assumption.
    + apply andb_true_iff in Hb. destruct Hb as [_ Hb]. apply andb_true_iff in Hb. lia.
    + apply andb_true_iff in Hb. destruct Hb as [Hb _]. apply andb_true_iff in Hb. lia.
Qed.

(** X18: whatever the table holds, when [csv_to_image] returns, every
    entry of the array is between 0 and 255, and every entry outside the
    shape (height, width, channels) of the metadata is still 0: rows with
    coordinates outside the image are skipped, values are clipped. *)
Theorem csv_to_image_stays_within (df : Table float64) (md : metadata) (a : ndarray) :
  csv_to_image df md = Returned a ->
  forall y x i,
    (0 <= a y x i <= 255)%Z /\
    (~ (y < md_height md /\ x < md_width md /\ i < channels_of (md_mode md))%nat ->
     a y x i = 0%Z).
Proof.
  unfold csv_to_image, channels_of. intro H.
  apply (fill_rows_within (md_height md) (md_width md)
           (if String.eqb (md_mode md) "RGBA" then 4 else 3)%nat (columns df)
           (if String.eqb (md_mode md) "RGBA" then ["r"; "g"; "b"; "alpha"] else ["r"; "g"; "b"])
           (rows df)) with (a := zeros).
  - destruct (String.eqb (md_mode md) "RGBA"); cbn; lia.
  - apply within_zeros.
  - destruct (String.eqb (md_mode md) "RGBA"); exact H.
Qed.

(** The row [image_to_csv] appends for the pixel at [y, x]. *)
Definition pixel_row (has_alpha : bool) (pixels : ndarray) (y x : nat) : list Z :=
  let pixel := pixels y x in
  if has_alpha
  then [Z.of_nat x; Z.of_nat y; pixel 0%nat; pixel 1%nat; pixel 2%nat; pixel 3%nat]
  else [Z.of_nat x; Z.of_nat y; pixel 0%nat; pixel 1%nat; pixel 2%nat].

Definition labels_of (has_alpha : bool) : list string :=
  if has_alpha then ["x"; "y"; "r"; "g"; "b"; "alpha"] else ["x"; "y"; "r"; "g"; "b"].

Definition channel_labels (has_alpha : bool) : list string :=
  if has_alpha then ["r"; "g"; "b"; "alpha"] else ["r"; "g"; "b"].

Definition depth (has_alpha : bool) : nat := if has_alpha then 4 else 3.

Definition coordinates (height width : nat) : list (nat * nat) :=
  flat_map (fun y => map (pair y) (seq 0 width)) (seq 0 height).

Lemma image_to_csv_rows (img : Image) :
  rows (fst (image_to_csv img)) =
  flat_map (fun y => map (fun x => pixel_row (String.eqb (mode img) "RGBA") (array img) y x)
                       (seq 0 (fst (size img))))
           (seq 0 (snd (size img))).
Proof.
  unfold image_to_csv. destruct (size img) as [width height].
  destruct (String.eqb (mode img) "RGBA"); reflexivity.
Qed.

Lemma image_to_csv_columns (img : Image) :
  columns (fst (image_to_csv img)) = labels_of (String.eqb (mode img) "RGBA").
Proof.
  unfold image_to_csv. destruct (size img) as [width height].
  destruct (String.eqb (mode img) "RGBA"); reflexivity.
Qed.

Lemma image_to_csv_metadata (img : Image) :
  snd (image_to_csv img) =
  {| md_width := fst (size img); md_height := snd (size img); md_mode := mode img |}.
Proof. unfold image_to_csv. destruct (size img) as [width height]. reflexivity. Qed.

Lemma flat_map_pairs {A : Type} (F : nat -> nat -> A) (l1 l2 : list nat) :
  flat_map (fun y => map (fun x => F y x) l2) l1 =
  map (fun c => F (fst c) (snd c)) (flat_map (fun y => map (pair y) l2) l1).
Proof.
  induction l1 as [|y l1 IH]; [reflexivity|]. cbn [flat_map].
  rewrite map_app, map_map, IH. reflexivity.
Qed.

Lemma in_coordinates (height width y x : nat) :
  In (y, x) (coordinates height width) <-> (y < height /\ x < width)%nat.
Proof.
  unfold coordinates. rewrite in_flat_map. split.
  - intros [y' [Hy Hx]]. apply in_map_iff in Hx. destruct Hx as [x' [[= <- <-] Hx]].
    apply in_seq in Hy. apply in_seq in Hx. lia.
  - intros [Hy Hx]. exists y. split; [apply in_seq; lia|].
    apply in_map. apply in_seq. lia.
Qed.

(** The array after the channel loop has run for the pixel at [y, x]. *)
Definition paint (has_alpha : bool) (pixels : ndarray) (y x : nat) (a : ndarray) : ndarray :=
  let a3 := setitem (setitem (setitem a y x 0 (pixels y x 0%nat)) y x 1 (pixels y x 1%nat))
              y x 2 (pixels y x 2%nat) in
  if has_alpha then setitem a3 y x 3 (pixels y x 3%nat) else a3.

Lemma paint_spec (has_alpha : bool) (pixels a : ndarray) (y x y' x' i' : nat) :
  paint has_alpha pixels y x a y' x' i' =
  if (y' =? y)%nat && (x' =? x)%nat && (i' <? depth has_alpha)%nat
  then pixels y x i' else a y' x' i'.
Proof.
  unfold paint, depth. destruct has_alpha; unfold setitem;
    (destruct (Nat.eqb_spec y' y) as [->|]; cbn [andb]; [|reflexivity]);
    (destruct (Nat.eqb_spec x' x) as [->|]; cbn [andb]; [|reflexivity]);
    destruct i' as [|[|[|[|i']]]]; reflexivity.
Qed.

Lemma fill_written_row (has_alpha : bool) (pixels a : ndarray) (width height y x : nat)
    (rest : list (list float64)) :
  (y < height)%nat -> (x < width)%nat -> (forall i, uint8 (pixels y x i)) ->
  fill_rows (labels_of has_alpha) width height (channel_labels has_alpha)
    (map of_Z (pixel_row has_alpha pixels y x) :: rest) a =
  fill_rows (labels_of has_alpha) width height (channel_labels has_alpha) rest
    (paint has_alpha pixels y x a).
Proof.
  intros Hy Hx Hp.
  assert (Hb : ((0 <=? Z.of_nat x) && (Z.of_nat x <? Z.of_nat width) &&
                ((0 <=? Z.of_nat y) && (Z.of_nat y <? Z.of_nat height)))%Z = true).
  { repeat (apply andb_true_iff; split); try apply Z.leb_le; try apply Z.ltb_lt; lia. }
  destruct has_alpha;
    cbn [fill_rows labels_of channel_labels pixel_row map getitem String.eqb Ascii.eqb
         Bool.eqb and_then];
    rewrite !int_of_Z; cbn [and_then]; rewrite Hb, !Nat2Z.id;
    cbn [fill_channels getitem String.eqb Ascii.eqb Bool.eqb and_then];
    rewrite !clip_of_uint8 by apply Hp; cbn [and_then]; reflexivity.
Qed.

Lemma fill_written_rows (has_alpha : bool) (pixels : ndarray) (width height : nat)
    (coords : list (nat * nat)) :
  (forall y x i, uint8 (pixels y x i)) ->
  (forall c, In c coords -> (fst c < height /\ snd c < width)%nat) ->
  forall a : ndarray,
  exists a' : ndarray,
    fill_rows (labels_of has_alpha) width height (channel_labels has_alpha)
      (map (fun c => map of_Z (pixel_row has_alpha pixels (fst c) (snd c))) coords) a
    = Returned a' /\
    forall y x i,
      a' y x i =
      if existsb (fun c => (y =? fst c)%nat && (x =? snd c)%nat) coords
         && (i <? depth has_alpha)%nat
      then pixels y x i else a y x i.
Proof.
  intros Hp. induction coords as [|[y0 x0] coords IH]; intros Hin a.
  - exists a. split; reflexivity.
  - cbn [map fst snd]. rewrite fill_written_row;
      [| apply (Hin (y0, x0)); left; reflexivity
       | apply (Hin (y0, x0)); left; reflexivity
       | intro i; apply Hp].
    destruct (IH (fun c Hc => Hin c (or_intror Hc)) (paint has_alpha pixels y0 x0 a))
      as [a' [Hrun Hval]].
    exists a'. split; [exact Hrun|]. intros y x i. rewrite Hval, paint_spec.
    cbn [existsb fst snd].
    destruct (existsb _ coords), (Nat.eqb_spec y y0), (Nat.eqb_spec x x0),
      (i <? depth has_alpha)%nat; subst; reflexivity.
Qed.

(** X19: the table [image_to_csv] writes for an image of bytes, read back
    unchanged, makes [csv_to_image] return an array that agrees with the
    image at every pixel and channel, for RGB and for RGBA. *)
Theorem image_round_trip (img : Image) :
  (forall y x i, (0 <= array img y x i <= 255)%Z) ->
  exists a : ndarray,
    csv_to_image (read_csv (fst (image_to_csv img))) (snd (image_to_csv img)) = Returned a /\
    forall y x i,
      (y < snd (size img))%nat -> (x < fst (size img))%nat ->
      (i < channels_of (mode img))%nat ->
      a y x i = array img y x i.
Proof.
  intro Hp. unfold csv_to_image, read_csv. cbn [columns rows].
  rewrite image_to_csv_rows, image_to_csv_columns, image_to_csv_metadata.
  cbn [md_width md_height md_mode].
  rewrite flat_map_pairs, map_map.
  fold (coordinates (snd (size img)) (fst (size img))).
  set (has_alpha := String.eqb (mode img) "RGBA").
  destruct (fill_written_rows has_alpha (array img) (fst (size img)) (snd (size img))
              (coordinates (snd (size img)) (fst (size img))) Hp
              (fun c Hc => proj1 (in_coordinates _ _ (fst c) (snd c))
                             (eq_ind _ (fun c' => In c' _) Hc _ (surjective_pairing c)))
              zeros) as [a [Hrun Hval]].
  exists a. split.
  - rewrite <- Hrun. unfold labels_of, channel_labels. destruct has_alpha; reflexivity.
  - intros y x i Hy Hx Hi. rewrite Hval.
    assert (Hex : existsb (fun c => (y =? fst c)%nat && (x =? snd c)%nat)
                    (coordinates (snd (size img)) (fst (size img))) = true).
    { apply existsb_exists. exists (y, x). split.
      - apply in_coordinates. lia.
      - cbn [fst snd]. rewrite !Nat.eqb_refl. reflexivity. }
    rewrite Hex. cbn [andb].
    assert (Hd : (i <? depth has_alpha)%nat = true).
    { apply Nat.ltb_lt. unfold channels_of in Hi. unfold depth, has_alpha.
      destruct (String.eqb (mode img) "RGBA"); exact Hi. }
    rewrite Hd. reflexivity.
Qed.

Lemma nth_error_blocks {A : Type} (F : nat -> nat -> A) (width : nat) :
  forall (height s y x : nat),
    (y < height)%nat -> (x < width)%nat ->
    nth_error (flat_map (fun y => map (F y) (seq 0 width)) (seq s height)) (y * width + x)
    = Some (F (s + y)%nat x).
Proof.
  induction height as [|height IH]; intros s y x Hy Hx; [lia|].
  cbn [seq flat_map]. destruct y as [|y].
  - cbn [Nat.mul Nat.add]. rewrite nth_error_app1 by (rewrite length_map, length_seq; exact Hx).
    rewrite nth_error_map, nth_error_seq.
    destruct (Nat.ltb_spec x width) as [_|]; [|lia].
    cbn. rewrite Nat.add_0_r. reflexivity.
  - rewrite nth_error_app2 by (rewrite length_map, length_seq; cbn; lia).
    rewrite length_map, length_seq.
    replace (S y * width + x - width)%nat with (y * width + x)%nat by (cbn; lia).
    rewrite IH by lia. f_equal. f_equal. lia.
Qed.

Lemma length_blocks {A : Type} (F : nat -> nat -> A) (width : nat) (l : list nat) :
  List.length (flat_map (fun y => map (F y) (seq 0 width)) l) = (List.length l * width)%nat.
Proof.
  induction l as [|y l IH]; [reflexivity|].
  cbn [flat_map]. rewrite length_app, length_map, length_seq, IH. reflexivity.
Qed.

(** X20: [image_to_csv] writes one row per pixel, in row-major order: row
    number [y * width + x] of the table holds x, y and then the channel
    values of the pixel at [y, x], three of them or four with alpha. *)
Theorem image_rows_are_row_major (img : Image) :
  let '(width, height) := size img in
  List.length (rows (fst (image_to_csv img))) = (height * width)%nat /\
  forall y x,
    (y < height)%nat -> (x < width)%nat ->
    exists channel_values : list Z,
      nth_error (rows (fst (image_to_csv img))) (y * width + x)
      = Some (Z.of_nat x :: Z.of_nat y :: channel_values) /\
      channel_values = map (array img y x) (seq 0 (channels_of (mode img))).
Proof.
  rewrite image_to_csv_rows. destruct (size img) as [width height]. cbn [fst snd]. split.
  - rewrite length_blocks, length_seq. reflexivity.
  - intros y x Hy Hx. rewrite nth_error_blocks by assumption.
    unfold pixel_row, channels_of. cbn [Nat.add].
    destruct (String.eqb (mode img) "RGBA"); eexists; split; reflexivity.
Qed.

Lemma fill_rows_bad_coordinate (labels : list string) (width height : nat)
    (chs : list string) (df_rows : list (list float64)) (row : list float64)
    (e0 : error) :
  In row df_rows ->
  and_then (getitem labels row "x") py_int = Raised e0 \/
  and_then (getitem labels row "y") py_int = Raised e0 ->
  forall a : ndarray,
  exists e : error, fill_rows labels width height chs df_rows a = Raised e.
Proof.
  intros Hin Hbad. induction df_rows as [|r df_rows IH]; intro a; [destruct Hin|].
  cbn [fill_rows].
  destruct (getitem labels r "x") as [xv|ex] eqn:Hx; cbn [and_then]; [|exists ex; reflexivity].
  destruct (py_int xv) as [x|ex] eqn:Hxi; cbn [and_then]; [|exists ex; reflexivity].
  destruct (getitem labels r "y") as [yv|ey] eqn:Hy; cbn [and_then]; [|exists ey; reflexivity].
  destruct (py_int yv) as [y|ey] eqn:Hyi; cbn [and_then]; [|exists ey; reflexivity].
  destruct Hin as [-> | Hin].
  - exfalso. destruct Hbad as [H | H].
    + rewrite Hx in H. cbn [and_then] in H. congruence.
    + rewrite Hy in H. cbn [and_then] in H. congruence.
  - destruct (_ && _)%bool; [|apply IH; exact Hin].
    destruct (fill_channels _ _ _ _ _ _ _) as [a1|e1]; cbn [and_then];
      [apply IH; exact Hin | exists e1; reflexivity].
Qed.

(** X21: one row without an x or y cell (the table has no such column),
    or with a NaN or an infinity there, makes [csv_to_image] raise,
    whatever the other rows hold: the row is not skipped, and there is no
    image. *)
Theorem unusable_coordinate_aborts_image (df : Table float64) (md : metadata)
    (row : list float64) (label : string) :
  In row (rows df) ->
  label = "x" \/ label = "y" ->
  getitem (columns df) row label = Raised (KeyError label) \/
  getitem (columns df) row label = Returned NaN \/
  getitem (columns df) row label = Returned PInf \/
  getitem (columns df) row label = Returned NInf ->
  exists e : error, csv_to_image df md = Raised e.
Proof.
  intros Hin Hl Hcell. unfold csv_to_image.
  assert (Hbad : exists e0, and_then (getitem (columns df) row label) py_int = Raised e0).
  { destruct Hcell as [H | [H | [H | H]]]; rewrite H; cbn; eexists; reflexivity. }
  destruct Hbad as [e0 Hbad].
  assert (Hor : and_then (getitem (columns df) row "x") py_int = Raised e0 \/
                and_then (getitem (columns df) row "y") py_int = Raised e0).
  { destruct Hl as [-> | ->]; [left | right]; exact Hbad. }
  destruct (String.eqb (md_mode md) "RGBA");
    exact (fill_rows_bad_coordinate _ _ _ _ _ row e0 Hin Hor zeros).
Qed.

(** One row for the only pixel of a 1 by 1 image, with a red value beyond
    the byte range and a fractional blue. *)
Definition overexposed : Table float64 :=
  {| columns := ["x"; "y"; "r"; "g"; "b"];
     rows := [[Fin 0; Fin 0; Fin 300; NInf; Fin (5 # 2)]] |}.

Definition single_pixel : metadata :=
  {| md_width := 1; md_height := 1; md_mode := "RGB" |}.

Lemma csv_to_image_stays_within_witness :
  exists a : ndarray,
    csv_to_image overexposed single_pixel = Returned a /\
    a 0%nat 0%nat 0%nat = 255%Z /\ a 0%nat 0%nat 1%nat = 0%Z /\ a 0%nat 0%nat 2%nat = 2%Z /\
    forall y x i, (0 <= a y x i <= 255)%Z.
Proof.
  eexists. split; [reflexivity|]. split; [reflexivity|]. split; [reflexivity|].
  split; [reflexivity|]. intros y x i.
  exact (proj1 (csv_to_image_stays_within overexposed single_pixel _ eq_refl y x i)).
Defined.

Definition grey_strip : Image :=
  {| size := (2%nat, 1%nat); mode := "RGB"; array := fun _ _ _ => 7%Z |}.

Lemma image_round_trip_witness :
  exists a : ndarray,
    csv_to_image (read_csv (fst (image_to_csv grey_strip))) (snd (image_to_csv grey_strip))
    = Returned a /\
    a 0%nat 1%nat 2%nat = 7%Z.
Proof.
  destruct (image_round_trip grey_strip) as [a [Hrun Hval]].
  - intros y x i. cbn. lia.
  - exists a. split; [exact Hrun|]. apply (Hval 0%nat 1%nat 2%nat); cbn; lia.
Defined.

Definition unplaced : Table float64 :=
  {| columns := ["x"; "y"; "r"; "g"; "b"];
     rows := [[Fin 0; Fin 0; Fin 1; Fin 2; Fin 3]; [NaN; Fin 0; Fin 1; Fin 2; Fin 3]] |}.

Lemma unusable_coordinate_aborts_image_witness :
  exists e : error, csv_to_image unplaced single_pixel = Raised e.
Proof.
  apply (unusable_coordinate_aborts_image unplaced single_pixel
           [NaN; Fin 0; Fin 1; Fin 2; Fin 3] "x").
  - right. left. reflexivity.
  - left. reflexivity.
  - right. left. reflexivity.
Defined.

End FormatsSpec.

(* ------------------------------------------------------------------ *)
(** * The commands *)

Module CliSpec.
Import Py F64 F64Facts Cli.
#[local] Unset Implicit Arguments.
Local Open Scope string_scope.










(** The files [analyze] counts. *)
Definition counted (f : csv_file) (size : nat) : Prop :=
  contains ".git" (path f) = false /\ st_size f = Ok size.

Definition step (acc : nat * list (csv_file * nat)) (f : csv_file)
    : nat * list (csv_file * nat) :=
  if contains ".git" (path f) then acc
  else
    match st_size f with
    | Ok size => ((fst acc + size)%nat, (snd acc ++ [(f, size)])%list)
    | Raise _ => acc
    end.

Lemma scan_fold (csv_files : list csv_file) :
  scan csv_files = fold_left step csv_files (0%nat, []).
Proof. reflexivity. Qed.

Lemma fold_step_spec (csv_files : list csv_file) :
  forall acc : nat * list (csv_file * nat),
    let out := fold_left step csv_files acc in
    (forall e, In e (snd out) <->
               In e (snd acc) \/ (In (fst e) csv_files /\ counted (fst e) (snd e))) /\
    fst out = (fst acc + list_sum (map snd (snd out)) - list_sum (map snd (snd acc)))%nat /\
    (list_sum (map snd (snd acc)) <= list_sum (map snd (snd out)))%nat.
Proof.
  induction csv_files as [|f csv_files IH]; intro acc; cbn [fold_left].
  - cbn zeta. split; [|split; lia].
    intro e. split; [intro H; left; exact H | intros [H | [[] _]]; exact H].
  - specialize (IH (step acc f)). cbn zeta in IH |- *.
    destruct IH as [Hin [Hsum Hle]].
    assert (Hstep : (forall e, In e (snd (step acc f)) <->
                       In e (snd acc) \/ (fst e = f /\ counted f (snd e))) /\
                    fst (step acc f) = (fst acc + list_sum (map snd (snd (step acc f)))
                                        - list_sum (map snd (snd acc)))%nat /\
                    (list_sum (map snd (snd acc))
                     <= list_sum (map snd (snd (step acc f))))%nat).
    { unfold step, counted. destruct (contains ".git" (path f)) eqn:Hg.
      - split; [|split; lia]. intro e. split; [intro H; left; exact H|].
        intros [H | [_ [H _]]]; [exact H | discriminate H].
      - destruct (st_size f) as [size|err] eqn:Hs.
        + cbn [fst snd]. rewrite map_app, list_sum_app. cbn [map snd].
          replace (list_sum [size]) with size by (cbn; lia).
          split; [|split; lia]. intro e. rewrite in_app_iff. cbn [In]. split.
          * intros [H | [<- | []]]; [left; exact H|]. right. cbn [fst snd].
            split; [reflexivity | split; reflexivity].
          * intros [H | [H1 [_ H2]]]; [left; exact H|]. right. left.
            destruct e as [ef en]. cbn [fst snd] in *. subst ef.
            injection H2 as ->. reflexivity.
        + split; [|split; lia]. intro e. split; [intro H; left; exact H|].
          intros [H | [_ [_ H]]]; [exact H | discriminate H]. }
    destruct Hstep as [Hin1 [Hsum1 Hle1]].
    split; [|split; lia].
    intro e. rewrite Hin, Hin1. cbn [In]. split.
    + intros [[H | [H1 H2]] | [H1 H2]].
      * left. exact H.
      * right. split; [left; symmetry; exact H1 | rewrite H1; exact H2].
      * right. split; [right; exact H1 | exact H2].
    + intros [H | [[H1 | H1] H2]].
      * left. left. exact H.
      * left. right. split; [symmetry; exact H1 | rewrite H1; exact H2].
      * right. split; assumption.
Qed.

Lemma scan_spec (csv_files : list csv_file) :
  (forall f size, In (f, size) (snd (scan csv_files)) <->
                  In f csv_files /\ counted f size) /\
  fst (scan csv_files) = list_sum (map snd (snd (scan csv_files))).
Proof.
  rewrite scan_fold.
  destruct (fold_step_spec csv_files (0%nat, [])) as [Hin [Hsum _]].
  cbn [fst snd map] in Hin, Hsum. change (list_sum []) with 0%nat in Hsum. split.
  - intros f size. rewrite (Hin (f, size)). cbn [fst snd In]. tauto.
  - rewrite Hsum. lia.
Qed.







Lemma list_sum_zero (l : list (csv_file * nat)) :
  (forall e, In e l -> snd e = 0%nat) -> list_sum (map snd l) = 0%nat.
Proof.
  induction l as [|e l IH]; intro Hz; [reflexivity|].
  cbn [map]. change (list_sum (snd e :: map snd l)) with (snd e + list_sum (map snd l))%nat.
  rewrite (Hz e (or_introl eq_refl)), IH; [reflexivity|].
  intros e' He'. apply Hz. right. exact He'.
Qed.


(** X24: when the repository has CSV files that count (outside any path
    with [.git] in it, and [stat] succeeds) and all of them are empty,
    [analyze] fails with ZeroDivisionError on the savings percentage. *)
Theorem analyze_fails_on_empty_files (csv_files : list csv_file) (f : csv_file) :
  In f csv_files -> counted f 0 ->
  (forall g size, In g csv_files -> counted g size -> size = 0%nat) ->
  analyze csv_files = AnalysisFailed ZeroDivisionError.
Proof.
  intros Hin Hf Hall. unfold analyze.
  destruct csv_files as [|c0 cs] eqn:Hcs; [destruct Hin|]. rewrite <- Hcs in *.
  destruct (scan_spec csv_files) as [Hmem Hsum].
  destruct (scan csv_files) as [total info]. cbn [fst snd] in Hmem, Hsum.
  assert (Hne : In (f, 0%nat) info) by (apply Hmem; split; assumption).
  destruct info as [|i0 info']; [destruct Hne|].
  assert (Hzero : total = 0%nat).
  { rewrite Hsum. clear Hsum Hne.
    assert (Hz : forall e, In e (i0 :: info') -> snd e = 0%nat).
    { intros [g size] He. apply Hmem in He. destruct He as [Hg Hc].
      exact (Hall g size Hg Hc). }
    exact (list_sum_zero _ Hz). }
  rewrite Hzero. reflexivity.
Qed.



Definition empty_export : csv_file :=
  {| path := "/repo/export.csv"; st_size := Ok 0%nat |}.


Lemma analyze_fails_on_empty_files_witness :
  analyze [empty_export] = AnalysisFailed ZeroDivisionError.
Proof.
  apply (analyze_fails_on_empty_files [empty_export] empty_export).
  - left. reflexivity.
  - split; reflexivity.
  - intros g size [<- | []] [_ H]. injection H as <-. reflexivity.
Defined.



End CliSpec.

(* ------------------------------------------------------------------ *)
(** * The verbose column details *)

Module DetailsSpec.
Import Py F64 F64Facts Quality QualityFacts QualitySpec QualityMore Details.
#[local] Unset Implicit Arguments.
Local Open Scope string_scope.

Definition graded (m : metric) : Prop :=
  match m with
  | Scalar _ => False
  | _ => True
  end.

Definition keys (d : dict metric) : list string := map fst d.

Lemma keys_dict_set (d : dict metric) (k : string) (m : metric) (k' : string) :
  In k' (keys (dict_set d k m)) <-> k' = k \/ In k' (keys d).
Proof.
  unfold keys. induction d as [|[k0 m0] d IH]; cbn [dict_set map fst In].
  - split; [intros [H | []]; left; symmetry; exact H | intros [H | []]; left; symmetry; exact H].
  - destruct (String.eqb_spec k0 k) as [->|Hne]; cbn [map fst In].
    + split; [intros [H | H]; [left; symmetry; exact H | right; right; exact H]|].
      intros [H | [H | H]]; [left; symmetry; exact H | left; exact H | right; exact H].
    + rewrite IH. split.
      * intros [H | [H | H]]; [right; left; exact H | left; exact H | right; right; exact H].
      * intros [H | [H | H]]; [right; left; exact H | left; exact H | right; right; exact H].
Qed.

Lemma graded_dict_set (d : dict metric) (k : string) (m : metric) (P : string * metric -> Prop) :
  Forall P d -> P (k, m) -> (forall m0, P (k, m0) -> P (k, m)) -> Forall P (dict_set d k m).
Proof.
  intros Hd Hm _. induction d as [|[k0 m0] d IH]; cbn [dict_set].
  - constructor; [exact Hm | constructor].
  - inversion Hd as [|? ? H0 Hd']; subst.
    destruct (String.eqb_spec k0 k) as [->|Hne].
    + constructor; [exact Hm | exact Hd'].
    + constructor; [exact H0 | apply IH; exact Hd'].
Qed.

Lemma column_lines_graded (d : dict metric) :
  Forall (fun km => fst km = "overall_similarity" \/ graded (snd km)) d ->
  exists lines,
    column_lines d = Printed lines
    /\ forall col, In col (map fst lines) <-> In col (keys d) /\ col <> "overall_similarity".
Proof.
  unfold keys. induction d as [|[k m] d IH]; intro H.
  - exists []. split; [reflexivity|]. intro col. cbn. tauto.
  - inversion H as [|? ? Hk Hd]; subst. destruct (IH Hd) as [lines [Hrun Hin]].
    cbn [column_lines]. unfold column_detail.
    destruct (String.eqb_spec k "overall_similarity") as [->|Hne].
    + rewrite Hrun. exists lines. split; [reflexivity|].
      intro col. rewrite Hin. cbn [map fst In]. split.
      * intros [H1 H2]. split; [right; exact H1 | exact H2].
      * intros [[H1 | H1] H2]; [congruence | split; assumption].
    + cbn [fst snd] in Hk. destruct Hk as [Hk | Hk]; [contradiction|].
      destruct m as [p | a b c e x | s]; [| | destruct Hk];
        rewrite Hrun; eexists; (split; [reflexivity|]);
        intro col; cbn [map fst In]; rewrite Hin; split;
        try (intros [H1 | [H1 H2]]; [split; [left; exact H1 | congruence]
                                     | split; [right; exact H1 | exact H2]]);
        try (intros [[H1 | H1] H2]; [left; exact H1 | right; split; assumption]).
Qed.

Section Marks.

Variable np_sqrt : float64 -> float64.
Variable py_float : string -> result float64.

Local Abbreviation _check_column := (Quality._check_column np_sqrt py_float).
Local Abbreviation check_columns := (Quality.check_columns np_sqrt py_float).
Local Abbreviation analyze := (Quality.analyze np_sqrt py_float).

Ltac case_eqb :=
  match goal with
  | |- context [(?a =? ?b)%nat] => destruct (Nat.eqb_spec a b)
  end.

Lemma ltb_widen (x : float64) (a b : Q) :
  (a <= b)%Q -> ltb x (Fin a) = true -> ltb x (Fin b) = true.
Proof.
  intro Hab. destruct x as [q| | |]; cbn [ltb]; try discriminate; try reflexivity.
  intro H. apply Qltb_lt. apply Qltb_lt in H. eapply Qlt_le_trans; eassumption.
Qed.

(** X26: the sign of a column in the verbose listing agrees with what the
    check of the column found, for every column with at least one row: a
    tick means no finding or an INFO note only, the caution sign means a
    WARNING or an ERROR high_error, the cross means an ERROR
    string_mismatch. *)
Theorem detail_mark_matches_findings (self self' : QualityReport) (col : string)
    (orig : Series) :
  String.eqb col "overall_similarity" = false ->
  df_get (original self) col = Ok orig ->
  values orig <> [] ->
  _check_column self col = Ok self' ->
  exists m sign,
    dict_get (metrics self') col = Some m
    /\ column_detail col m = Printed (Some sign)
    /\ match sign with
       | Tick => unchanged self self' \/ warned INFO minor_error col self self'
       | Caution => warned WARNING moderate_error col self self'
                    \/ flagged ERROR high_error col self self'
       | Cross => flagged ERROR string_mismatch col self self'
       end.
Proof.
  intros Hkey Hgo Hne. unfold Quality._check_column, column_detail.
  rewrite Hgo, Hkey.
  destruct (df_get (reconstructed self) col) as [recon|]; [|discriminate].
  cbn [Py.bind]. destruct (dtype_of orig).
  - cbv zeta.
    assert (Hpos : (0 < List.length (values orig))%nat).
    { destruct (values orig); [congruence | cbn; lia]. }
    pose proof (count_true_le cell_eqb (values orig) (values recon)) as Hle.
    pose proof (pct_lt_100 (count_true (map2 cell_eqb (values orig) (values recon)))
                  _ Hpos) as Hl.
    pose proof (pct_eq_100 (count_true (map2 cell_eqb (values orig) (values recon)))
                  _ Hpos) as He.
    remember (mul (div (of_nat (count_true (map2 cell_eqb (values orig) (values recon))))
                       (of_nat (List.length (values orig)))) (Fin 100)) as pct eqn:Hpct.
    clear Hpct. rewrite Hl.
    destruct (Nat.ltb_spec (count_true (map2 cell_eqb (values orig) (values recon)))
                (List.length (values orig))) as [Hlt | Hge].
    + destruct (idxmax _) as [i|]; [|discriminate]. cbn [Py.bind].
      destruct (at_row (values orig) i) as [o|]; [|discriminate].
      destruct (at_row (values recon) i) as [r|]; [|discriminate].
      cbn [Py.bind]. intros [= <-].
      eexists. exists Cross. split; [apply dict_get_set_same|].
      split; [cbv beta iota; rewrite He; case_eqb; [lia | reflexivity]|].
      split; [reflexivity|]. eexists. split; [reflexivity|]. repeat split.
    + cbn [Py.bind]. intros [= <-].
      eexists. exists Tick. split; [apply dict_get_set_same|].
      split; [cbv beta iota; rewrite He; case_eqb; [reflexivity | lia]|].
      left. split; reflexivity.
  - destruct (Quality.astype_float py_float orig) as [ov|]; [|discriminate].
    destruct (Quality.astype_float py_float recon) as [rv|]; [|discriminate].
    cbn [Py.bind]. destruct (np_max _) as [mx|]; [|discriminate].
    cbn [Py.bind]. cbv zeta.
    match goal with
    | |- context [eqb ?e (Fin 100)] => remember e as exact_pct eqn:Hx; clear Hx
    end.
    match goal with
    | |- context [ltb ?e (Fin (1 # 100))] => remember e as rel_error eqn:Hx; clear Hx
    end.
    destruct (eqb exact_pct (Fin 100)) eqn:HE.
    + intros [= <-]. eexists. exists Tick. split; [apply dict_get_set_same|].
      cbv beta iota. rewrite HE. split; [reflexivity|]. left. split; reflexivity.
    + destruct (ltb _ (Fin (1 # 100))) eqn:H1.
      * intros [= <-]. eexists. exists Tick. split; [apply dict_get_set_same|].
        cbv beta iota. rewrite HE, (ltb_widen _ (1 # 100) (1 # 10) ltac:(discriminate) H1).
        split; [reflexivity|]. left. split; reflexivity.
      * destruct (ltb _ (Fin (1 # 10))) eqn:H2.
        -- intros [= <-]. eexists. exists Tick. split; [apply dict_get_set_same|].
           cbv beta iota. rewrite HE, H2. split; [reflexivity|]. right.
           split; [reflexivity|]. eexists. split; [reflexivity|]. repeat split.
        -- destruct (ltb _ (Fin 1)) eqn:H3; intros [= <-];
             eexists; exists Caution; (split; [apply dict_get_set_same|]);
             cbv beta iota; rewrite HE, H2; (split; [reflexivity|]); [left | right];
             (split; [reflexivity|]); eexists; (split; [reflexivity|]); repeat split.
Qed.

Lemma check_column_graded (self self' : QualityReport) (col : string) :
  _check_column self col = Ok self' ->
  exists m, metrics self' = dict_set (metrics self) col m /\ graded m.
Proof.
  unfold Quality._check_column.
  destruct (df_get (original self) col) as [orig|]; [|discriminate].
  destruct (df_get (reconstructed self) col) as [recon|]; [|discriminate].
  cbn [Py.bind]. destruct (dtype_of orig).
  - cbv zeta. destruct (ltb _ (Fin 100)).
    + destruct (idxmax _) as [i|]; [|discriminate]. cbn [Py.bind].
      destruct (at_row (values orig) i) as [o|]; [|discriminate].
      destruct (at_row (values recon) i) as [r|]; [|discriminate].
      cbn [Py.bind]. intros [= <-]. eexists. split; [reflexivity | exact I].
    + cbn [Py.bind]. intros [= <-]. eexists. split; [reflexivity | exact I].
  - destruct (Quality.astype_float py_float orig) as [ov|]; [|discriminate].
    destruct (Quality.astype_float py_float recon) as [rv|]; [|discriminate].
    cbn [Py.bind]. destruct (np_max _) as [mx|]; [|discriminate].
    cbn [Py.bind]. cbv zeta.
    destruct (eqb _ (Fin 100));
      [| destruct (ltb _ (Fin (1 # 100)));
         [| destruct (ltb _ (Fin (1 # 10))); [| destruct (ltb _ (Fin 1)) ] ] ];
      intros [= <-]; eexists; (split; [reflexivity | exact I]).
Qed.

Lemma check_columns_graded (cols : list string) : forall self self',
  check_columns self cols = Ok self' ->
  Forall (fun km => graded (snd km)) (metrics self) ->
  Forall (fun km => graded (snd km)) (metrics self')
  /\ forall k, In k (keys (metrics self')) <-> In k cols \/ In k (keys (metrics self)).
Proof.
  induction cols as [|col cols IH]; intros self self' Hrun Hg.
  - cbn in Hrun. injection Hrun as <-. split; [exact Hg|]. intro k. cbn. tauto.
  - cbn [Quality.check_columns] in Hrun.
    destruct (_check_column self col) as [self1|] eqn:H1; [|discriminate].
    cbn [Py.bind] in Hrun.
    destruct (check_column_graded _ _ _ H1) as [m [Hm Hgm]].
    assert (Hg1 : Forall (fun km => graded (snd km)) (metrics self1)).
    { rewrite Hm. apply graded_dict_set; [exact Hg | exact Hgm | intros _ _; exact Hgm]. }
    destruct (IH _ _ Hrun Hg1) as [Hg' Hk']. split; [exact Hg'|].
    intro k. rewrite Hk', Hm, keys_dict_set. cbn [In]. split.
    + intros [H | [H | H]]; [left; right; exact H | left; left; symmetry; exact H
                             | right; exact H].
    + intros [[H | H] | H]; [right; left; symmetry; exact H | left; exact H
                             | right; right; exact H].
Qed.

(** X27: on a report of [analyze] without critical issues the verbose
    listing does not raise, and it has a line for exactly the columns of
    the original, except for one named overall_similarity. *)
Theorem verbose_details_list_every_column (o r : DataFrame) (self' : QualityReport)
    (report : Report) :
  analyze (init o r) = Ok (self', report) ->
  has_critical_issues report = false ->
  exists lines,
    column_details true report = Printed lines
    /\ forall col, In col (map fst lines)
                   <-> In col (column_names o) /\ col <> "overall_similarity".
Proof.
  intros Hrun Hc.
  destruct (analyze_effect np_sqrt py_float o r self' report Hrun) as [-> [_ Hok]].
  destruct (Hok Hc) as [_ [self1 [s [H1 [_ ->]]]]].
  destruct (check_columns_graded _ _ _ H1 (Forall_nil _)) as [Hg Hk].
  unfold column_details. rewrite Hc. cbn [andb negb].
  cbn [column_metrics _build_report metrics set_metric].
  destruct (column_lines_graded (dict_set (metrics self1) "overall_similarity" (Scalar s)))
    as [lines [Hlines Hin]].
  - apply graded_dict_set.
    + eapply Forall_impl; [|exact Hg]. intros km H. right. exact H.
    + left. reflexivity.
    + intros _ _. left. reflexivity.
  - exists lines. split; [exact Hlines|]. intro col. rewrite Hin, keys_dict_set, Hk.
    cbn [metrics init In]. unfold keys. cbn [map]. split.
    + intros [[H | [H | []]] Hne]; [contradiction | split; assumption].
    + intros [H Hne]. split; [right; left; exact H | exact Hne].
Qed.

End Marks.

Lemma detail_mark_matches_findings_witness :
  exists self',
    Quality._check_column sqrt_approx no_text (init measured drifted) "x" = Ok self'
    /\ exists m, dict_get (metrics self') "x" = Some m
                 /\ column_detail "x" m = Printed (Some Caution)
                 /\ warned WARNING moderate_error "x" (init measured drifted) self'.
Proof.
  assert (Hrun : exists self',
             Quality._check_column sqrt_approx no_text (init measured drifted) "x" = Ok self').
  { eexists. reflexivity. }
  destruct Hrun as [self' Hrun].
  destruct (detail_mark_matches_findings sqrt_approx no_text (init measured drifted) self'
              "x" (numeric [Fin 1000]) eq_refl eq_refl ltac:(discriminate) Hrun)
    as [m [sign [Hm [Hd Hsign]]]].
  exists self'. split; [exact Hrun|]. exists m. split; [exact Hm|].
  revert Hm Hd Hsign. revert Hrun. cbn. intros [= <-]. cbn. intros [= <-]. cbn.
  intros [= <-]. intros [H | H]; [|destruct H as [_ [i [Hi _]]]; cbn in Hi].
  - split; [reflexivity | exact H].
  - exfalso. destruct i; discriminate Hi.
Defined.

Lemma verbose_details_list_every_column_witness :
  exists self' report lines,
    Quality.analyze sqrt_approx no_text (init measured drifted) = Ok (self', report)
    /\ column_details true report = Printed lines
    /\ In "x" (map fst lines).
Proof.
  destruct drifted_report as [self' [report [Hrun Hc]]].
  destruct (verbose_details_list_every_column sqrt_approx no_text measured drifted
              self' report Hrun Hc) as [lines [Hl Hin]].
  exists self', report, lines. split; [exact Hrun|]. split; [exact Hl|].
  apply Hin. split; [left; reflexivity | discriminate].
Defined.

End DetailsSpec.
